(** * text_to_ppt_generator: the structuring router, the heuristic splitter
      and the template renderer, embedded from [backend/llm_router.py],
      [backend/pptx_builder.py] and [backend/main.py]. *)

From Stdlib Require Import String Ascii.
From Stdlib Require Import List NArith ZArith Bool Arith Lia Floats.
Import ListNotations.

Set Implicit Arguments.
Set Warnings "-register-all".

(** ** Python strings

    A Python [str] is a sequence of Unicode code points; a code point is an
    [N].  Literals are written as Rocq strings and read by [lit], which
    understands the escapes [\n], [\t], [\r], [\\] and [\xHH] of Python
    ([\x22] is the double quote). *)

Module PyStr.

Definition pystr := list N.

Definition hexval (a : ascii) : N :=
  let n := N_of_ascii a in
  (if (48 <=? n) && (n <=? 57) then n - 48
   else if (97 <=? n) && (n <=? 102) then n - 87
   else if (65 <=? n) && (n <=? 70) then n - 55
   else 0)%N.

Fixpoint lit (s : string) : pystr :=
  match s with
  | EmptyString => []
  | String "\" (String "x" (String h (String l s'))) =>
      (16 * hexval h + hexval l)%N :: lit s'
  | String "\" (String "n" s') => 10%N :: lit s'
  | String "\" (String "t" s') => 9%N :: lit s'
  | String "\" (String "r" s') => 13%N :: lit s'
  | String "\" (String "\" s') => 92%N :: lit s'
  | String a s' => N_of_ascii a :: lit s'
  end.

Definition str_eqb (a b : pystr) : bool :=
  if list_eq_dec N.eq_dec a b then true else false.

(** Truthiness of a [str]: the empty string is false. *)
Definition truthy (s : pystr) : bool :=
  match s with [] => false | _ :: _ => true end.

(** [str.isspace] on one code point ([Py_UNICODE_ISSPACE]); the regular
    expression class [\s] on a [str] pattern uses the same table. *)
Definition isspace (c : N) : bool :=
  ((9 <=? c) && (c <=? 13) || (28 <=? c) && (c <=? 32)
   || (c =? 0x85) || (c =? 0xA0) || (c =? 0x1680)
   || (0x2000 <=? c) && (c <=? 0x200A)
   || (c =? 0x2028) || (c =? 0x2029) || (c =? 0x202F)
   || (c =? 0x205F) || (c =? 0x3000))%N.

(** The line boundaries of [str.splitlines]. *)
Definition islinebreak (c : N) : bool :=
  ((10 <=? c) && (c <=? 13) || (28 <=? c) && (c <=? 30)
   || (c =? 0x85) || (c =? 0x2028) || (c =? 0x2029))%N.

Fixpoint dropwhile (p : N -> bool) (s : pystr) : pystr :=
  match s with
  | [] => []
  | c :: s' => if p c then dropwhile p s' else s
  end.

Definition lstrip_by (p : N -> bool) (s : pystr) : pystr := dropwhile p s.
Definition rstrip_by (p : N -> bool) (s : pystr) : pystr :=
  rev (dropwhile p (rev s)).
Definition strip_by (p : N -> bool) (s : pystr) : pystr :=
  rstrip_by p (lstrip_by p s).

(** [s.strip()] *)
Definition strip (s : pystr) : pystr := strip_by isspace s.

Definition mem (c : N) (chars : pystr) : bool := existsb (N.eqb c) chars.

(** [s.strip(chars)] *)
Definition strip_chars (chars s : pystr) : pystr :=
  strip_by (fun c => mem c chars) s.

(** Put [c] in front of the first piece of a list of pieces. *)
Definition cons_first (c : N) (ps : list pystr) : list pystr :=
  match ps with
  | [] => [[c]]
  | p :: ps' => (c :: p) :: ps'
  end.

(** [s.splitlines()]: a line ends at a line boundary, [\r\n] counts as
    one boundary, the boundaries are dropped, and a boundary at the very
    end opens no further line. *)
Fixpoint splitlines (s : pystr) : list pystr :=
  match s with
  | [] => []
  | c :: s' =>
      if islinebreak c then
        match s' with
        | d :: t =>
            if ((c =? 13) && (d =? 10))%N then [] :: splitlines t
            else [] :: splitlines s'
        | [] => [[]]
        end
      else cons_first c (splitlines s')
  end.

Fixpoint startswith (pre s : pystr) : bool :=
  match pre, s with
  | [], _ => true
  | a :: pre', b :: s' => (a =? b)%N && startswith pre' s'
  | _ :: _, [] => false
  end.

(** [s.split(sep)] for a non-empty [sep]: occurrences are taken from left to
    right and do not overlap.  [skip] counts the code points of the
    separator still to be passed over. *)
Fixpoint split_from (sep : pystr) (skip : nat) (s : pystr) : list pystr :=
  match s with
  | [] => [[]]
  | c :: s' =>
      match skip with
      | S k => split_from sep k s'
      | O =>
          if startswith sep s
          then [] :: split_from sep (length sep - 1) s'
          else cons_first c (split_from sep 0 s')
      end
  end.

Definition split (sep s : pystr) : list pystr := split_from sep 0 s.

(** Decimal digits of a natural number, as [str(n)] prints them. *)
Fixpoint digits (fuel n : nat) (acc : pystr) : pystr :=
  match fuel with
  | O => acc
  | S f =>
      let acc' := N.of_nat (48 + n mod 10) :: acc in
      if n / 10 =? 0 then acc' else digits f (n / 10) acc'
  end.

Definition str_of_nat (n : nat) : pystr := digits (S n) n [].

(** [s.endswith(suffix)] *)
Definition endswith (suffix s : pystr) : bool :=
  startswith (rev suffix) (rev s).

(** [sep.join(parts)] *)
Fixpoint join (sep : pystr) (parts : list pystr) : pystr :=
  match parts with
  | [] => []
  | [p] => p
  | p :: rest => p ++ sep ++ join sep rest
  end.

End PyStr.
Import PyStr.

(** ** Regular expressions

    The four patterns of the program are written as terms of [re] and run
    by a backtracking matcher that tries the alternatives in the order of
    Python's [re]: a starred expression first takes one more iteration and
    gives it back when the rest fails. *)

Module Re.

Inductive re : Type :=
| Eps
| Chr (p : N -> bool)
| Seq (a b : re)
| Alt (a b : re)
| Star (a : re).

Definition Plus (a : re) : re := Seq a (Star a).
(** [a{1,2}] *)
Definition OneOrTwo (a : re) : re := Seq a (Alt a Eps).

(** The loop of a starred expression: [body] runs one iteration and hands
    the rest to its continuation; an iteration that consumes nothing is not
    repeated.  [n] bounds the number of iterations by the length of the
    text. *)
Fixpoint star_loop {X : Type}
  (body : pystr -> (pystr -> option X) -> option X)
  (k : pystr -> option X) (n : nat) (s : pystr) : option X :=
  match n with
  | O => k s
  | S n' =>
      match body s (fun s' =>
              if length s' <? length s then star_loop body k n' s'
              else None) with
      | Some x => Some x
      | None => k s
      end
  end.

Fixpoint bt {X : Type} (r : re) (s : pystr) (k : pystr -> option X)
  : option X :=
  match r with
  | Eps => k s
  | Chr p =>
      match s with
      | c :: s' => if p c then k s' else None
      | [] => None
      end
  | Seq a b => bt a s (fun s' => bt b s' k)
  | Alt a b =>
      match bt a s k with
      | Some x => Some x
      | None => bt b s k
      end
  | Star a => star_loop (bt a) k (length s) s
  end.

(** [re.match(r, s)]: the text left after the match at position 0. *)
Definition re_match (r : re) (s : pystr) : option pystr :=
  bt r s (fun rest => Some rest).

(** [re.sub(r, '', s)] for a pattern anchored by [^] that cannot match the
    empty string: at most the match at position 0 is removed. *)
Definition re_sub_anchored (r : re) (s : pystr) : pystr :=
  match re_match r s with
  | Some rest => rest
  | None => s
  end.

(** [re.search(r, s)]: the leftmost match, returned as [m.group(0)]. *)
Fixpoint re_search (r : re) (s : pystr) : option pystr :=
  match re_match r s with
  | Some rest => Some (firstn (length s - length rest) s)
  | None =>
      match s with
      | [] => None
      | _ :: s' => re_search r s'
      end
  end.

(** [re.split(r, s)] for a pattern whose matches are never empty: the
    pieces between the successive leftmost matches.  [skip] counts the code
    points of the current match still to be passed over. *)
Fixpoint re_split_from (r : re) (skip : nat) (s : pystr) : list pystr :=
  match s with
  | [] => [[]]
  | c :: s' =>
      match skip with
      | S k => re_split_from r k s'
      | O =>
          match re_match r s with
          | Some rest =>
              if length rest <? length s
              then [] :: re_split_from r (length s - length rest - 1) s'
              else cons_first c (re_split_from r 0 s')
          | None => cons_first c (re_split_from r 0 s')
          end
      end
  end.

Definition re_split (r : re) (s : pystr) : list pystr := re_split_from r 0 s.

Definition ws : re := Chr isspace.
Definition hash : re := Chr (N.eqb 35).
(** [.] without [re.S] matches everything but a newline; with [re.S] it
    matches everything. *)
Definition dot : re := Chr (fun c => negb (c =? 10)%N).
Definition dot_all : re := Chr (fun _ => true).

End Re.
Import Re.

(** ** The outline ([backend/llm_router.py])

    The dictionaries [{"title", "bullets", "notes"}] and
    [{"title", "slides"}] that the heuristic builds. *)

Record SlideSpec : Type := mkSlide {
  title : pystr;
  bullets : list pystr;
  notes : pystr
}.

Record Outline : Type := mkDeck {
  deck_title : pystr;
  deck_slides : list SlideSpec
}.

(** ** The heuristic structurer: [_heuristic_split] *)

Module Heuristic.

(** [r"^\s*#{1,2}\s+.+"] *)
Definition heading_re : re :=
  Seq (Star ws) (Seq (OneOrTwo hash) (Seq (Plus ws) (Plus dot))).

(** [r"^\s*#{1,2}\s+"] *)
Definition marker_re : re :=
  Seq (Star ws) (Seq (OneOrTwo hash) (Plus ws)).

(** The pattern given to [re.split]: a character class holding, as the
    file has it, the code points U+00E2, U+20AC and U+00A2, the hyphen
    and U+2022; or else a newline. *)
Definition bullet_sep_re : re :=
  Alt (Chr (fun c => mem c [0xE2; 0x20AC; 0xA2; 45; 0x2022]%N))
      (Chr (N.eqb 10)).

(** The variables [slides], [current_title] and [current_lines] that
    [flush_slide] shares with the loop; [current_title] is [None] or a
    string. *)
Record buffer : Type := mkBuffer {
  slides : list SlideSpec;
  current_title : option pystr;
  current_lines : list pystr
}.

Definition title_truthy (t : option pystr) : bool :=
  match t with
  | Some s => truthy s
  | None => false
  end.

(** [current_title or "Slide"] *)
Definition title_or_default (t : option pystr) : pystr :=
  match t with
  | Some (c :: s) => c :: s
  | _ => lit "Slide"
  end.

Definition flush_slide (b : buffer) : buffer :=
  let slides' :=
    if title_truthy (current_title b)
       || negb (Nat.eqb (length (current_lines b)) 0)
    then
      let bullets :=
        map (fun ln => strip (strip_chars (lit "-* ") ln))
            (filter (fun ln => truthy (strip ln)) (current_lines b)) in
      let bullets :=
        if 8 <? length bullets then firstn 8 bullets else bullets in
      slides b ++
        [ mkSlide (title_or_default (current_title b)) (firstn 8 bullets) [] ]
    else slides b in
  mkBuffer slides' None [].

Definition is_heading (ln : pystr) : bool :=
  match re_match heading_re ln with
  | Some _ => true
  | None => false
  end.

(** The body of [for ln in lines]. *)
Definition scan_line (b : buffer) (ln : pystr) : buffer :=
  if is_heading ln then
    let b' := flush_slide b in
    mkBuffer (slides b') (Some (strip (re_sub_anchored marker_re ln)))
             (current_lines b')
  else if truthy (strip ln) then
    mkBuffer (slides b) (current_title b) (current_lines b ++ [strip ln])
  else b.

Definition scan (lines : list pystr) : buffer :=
  flush_slide (fold_left scan_line lines (mkBuffer [] None [])).

(** [enumerate(paras)] with the slide built for each pair. *)
Fixpoint section_slides (i : nat) (paras : list pystr) : list SlideSpec :=
  match paras with
  | [] => []
  | p :: ps =>
      let bullets :=
        map strip (filter (fun s => truthy (strip s))
                          (re_split bullet_sep_re p)) in
      mkSlide (lit "Section " ++ str_of_nat (i + 1)) (firstn 6 bullets) []
        :: section_slides (S i) ps
  end.

Definition paragraphs (text : pystr) : list pystr :=
  map strip (filter (fun p => truthy (strip p)) (split (lit "\n\n") text)).

Definition _heuristic_split (text : pystr) (guidance : option pystr)
  : Outline :=
  let lines := splitlines (strip text) in
  let slides := slides (scan lines) in
  let slides :=
    match slides with
    | [] => section_slides 0 (paragraphs text)
    | _ :: _ => slides
    end in
  mkDeck [] (firstn 20 slides).

End Heuristic.
Import Heuristic.

(** ** Python values

    The values [json.loads] can return and the program passes around.  A
    [dict] is an association list in insertion order, with [str] keys. *)

Module Py.

Inductive pyval : Type :=
| PNone
| PBool (b : bool)
| PInt (z : Z)
| PFloat (f : float)
| PStr (s : pystr)
| PList (l : list pyval)
| PDict (kvs : list (pystr * pyval)).

(** The exceptions of the program, all subclasses of [Exception];
    [PackageError] stands for whatever python-pptx raises on a file it
    cannot read or write. *)
Inductive exn : Type :=
| ConnectionError
| HTTPError
| JSONDecodeError
| KeyError
| IndexError
| TypeError
| AttributeError
| PackageError.

Inductive result (A : Type) : Type :=
| Ok (a : A)
| Raise (e : exn).
Arguments Ok {A} a.
Arguments Raise {A} e.

Definition bind {A B : Type} (m : result A) (f : A -> result B) : result B :=
  match m with
  | Ok a => f a
  | Raise e => Raise e
  end.

Notation "x <- m ;; k" := (bind m (fun x => k))
  (at level 61, m at next level, right associativity).

Definition lookup (k : pystr) (kvs : list (pystr * pyval)) : option pyval :=
  match find (fun kv => str_eqb (fst kv) k) kvs with
  | Some kv => Some (snd kv)
  | None => None
  end.

(** [d[k] = v] on a dictionary: the value is replaced where the key is, or
    the pair is added at the end. *)
Fixpoint dict_set (k : pystr) (v : pyval) (kvs : list (pystr * pyval))
  : list (pystr * pyval) :=
  match kvs with
  | [] => [(k, v)]
  | (k', v') :: rest =>
      if str_eqb k' k then (k', v) :: rest
      else (k', v') :: dict_set k v rest
  end.

(** [bool(v)] *)
Definition py_truthy (v : pyval) : bool :=
  match v with
  | PNone => false
  | PBool b => b
  | PInt z => negb (z =? 0)%Z
  | PFloat f => negb (PrimFloat.eqb f 0%float)
  | PStr s => truthy s
  | PList l => negb (Nat.eqb (length l) 0)
  | PDict kvs => negb (Nat.eqb (length kvs) 0)
  end.

(** [v == s] for a string [s] *)
Definition py_eq_str (v : pyval) (s : pystr) : bool :=
  match v with
  | PStr t => str_eqb t s
  | _ => false
  end.

(** [v[k]] for a string key *)
Definition getitem_key (v : pyval) (k : pystr) : result pyval :=
  match v with
  | PDict kvs =>
      match lookup k kvs with
      | Some x => Ok x
      | None => Raise KeyError
      end
  | _ => Raise TypeError
  end.

(** [v[i]] for a non-negative integer *)
Definition getitem_int (v : pyval) (i : nat) : result pyval :=
  match v with
  | PList l =>
      match nth_error l i with
      | Some x => Ok x
      | None => Raise IndexError
      end
  | PStr s =>
      match nth_error s i with
      | Some c => Ok (PStr [c])
      | None => Raise IndexError
      end
  | PDict _ => Raise KeyError
  | _ => Raise TypeError
  end.

(** [v.get(k, d)]: only a [dict] has the method. *)
Definition dict_get (v : pyval) (k : pystr) (d : pyval) : result pyval :=
  match v with
  | PDict kvs =>
      match lookup k kvs with
      | Some x => Ok x
      | None => Ok d
      end
  | _ => Raise AttributeError
  end.

Fixpoint is_substring (k s : pystr) : bool :=
  startswith k s ||
  match s with
  | [] => false
  | _ :: s' => is_substring k s'
  end.

(** [k in v] for a string [k] *)
Definition py_contains (k : pystr) (v : pyval) : result bool :=
  match v with
  | PDict kvs =>
      Ok (match lookup k kvs with Some _ => true | None => false end)
  | PList l => Ok (existsb (fun x => py_eq_str x k) l)
  | PStr s => Ok (is_substring k s)
  | _ => Raise TypeError
  end.

(** The items [for x in v] runs through. *)
Definition py_iter (v : pyval) : result (list pyval) :=
  match v with
  | PList l => Ok l
  | PDict kvs => Ok (map (fun kv => PStr (fst kv)) kvs)
  | PStr s => Ok (map (fun c => PStr [c]) s)
  | _ => Raise TypeError
  end.

(** [acc += v] for a string [acc] *)
Definition str_add (acc : pystr) (v : pyval) : result pystr :=
  match v with
  | PStr s => Ok (acc ++ s)
  | _ => Raise TypeError
  end.

(** A loop body run over the items, stopping at the first exception. *)
Fixpoint for_each {A S : Type} (body : S -> A -> result S) (items : list A)
  (st : S) : result S :=
  match items with
  | [] => Ok st
  | x :: rest => st' <- body st x ;; for_each body rest st'
  end.

End Py.
Import Py.

(** ** The outside world

    What the program gets from its libraries and from the network: the
    Unicode lower-casing of [str.lower], the answer of [requests.post] to a
    request, and [json.loads]. *)

Record request : Type := mkRequest {
  url : pystr;
  headers : list (pystr * pystr);
  json_body : pyval;
  timeout : Z
}.

Record response : Type := mkResponse {
  status_code : Z;
  resp_text : pystr
}.

Record world : Type := mkWorld {
  str_lower : pystr -> pystr;
  requests_post : request -> result response;
  json_loads : pystr -> result pyval
}.

(** [resp.raise_for_status()] *)
Definition raise_for_status (r : response) : result unit :=
  if ((400 <=? status_code r) && (status_code r <? 600))%Z
  then Raise HTTPError else Ok tt.

(** ** The provider structurers and the router ([backend/llm_router.py]) *)

Module Router.

Definition default_guidance : pystr :=
  lit "Turn this into a clear, concise presentation with a logical flow.".

(** [guidance or "Turn this ..."] *)
Definition goal_of (guidance : option pystr) : pystr :=
  match guidance with
  | Some (c :: g) => c :: g
  | _ => default_guidance
  end.

Definition build_structuring_prompt (text : pystr) (guidance : option pystr)
  : pystr :=
  let goal := goal_of guidance in
  join (lit "\n")
    [ [];
      lit "    You are a slide architect. Read the input and produce a JSON object describing a slide deck.";
      lit "    The deck should reflect this guidance: " ++ goal;
      [];
      lit "    Output JSON schema:";
      lit "    {";
      lit "      \x22title\x22: \x22Optional overall deck title string\x22,";
      lit "      \x22slides\x22: [";
      lit "        {";
      lit "          \x22title\x22: \x22Slide title\x22,";
      lit "          \x22bullets\x22: [\x22bullet 1\x22, \x22bullet 2\x22, \x22...\x22],";
      lit "          \x22notes\x22: \x22Optional speaker notes string\x22";
      lit "        }";
      lit "      ]";
      lit "    }";
      [];
      lit "    Keep bullets short. Prefer 4-6 bullets per slide. Create as many slides as needed,";
      lit "    but keep a reasonable length. If headings in the text imply sections, map them to slides.";
      lit "    Input starts below:";
      lit "    ---";
      lit "    " ++ text;
      lit "    ---";
      lit "    " ].

(** [r"\{.*\}"] under [re.S] *)
Definition brace_re : re :=
  Seq (Chr (N.eqb 123)) (Seq (Star dot_all) (Chr (N.eqb 125))).

(** [json.loads(v)]: anything but a [str] is a [TypeError]. *)
Definition loads_val (W : world) (v : pyval) : result pyval :=
  match v with
  | PStr s => json_loads W s
  | _ => Raise TypeError
  end.

(** [re.search(r, v, re.S)]: anything but a [str] is a [TypeError]. *)
Definition search_val (r : re) (v : pyval) : result (option pystr) :=
  match v with
  | PStr s => Ok (re_search r s)
  | _ => Raise TypeError
  end.

Section Providers.

Variable W : world.

Definition _call_openai (api_key text : pystr) (guidance : option pystr)
  : result pyval :=
  let url := lit "https://api.openai.com/v1/chat/completions" in
  let headers :=
    [ (lit "Authorization", lit "Bearer " ++ api_key);
      (lit "Content-Type", lit "application/json") ] in
  let prompt := build_structuring_prompt text guidance in
  let payload :=
    PDict
      [ (lit "model", PStr (lit "gpt-4o-mini"));
        (lit "messages",
         PList
           [ PDict
               [ (lit "role", PStr (lit "system"));
                 (lit "content",
                  PStr (lit "You are a helpful assistant that outputs STRICT JSON. Do not add commentary.")) ];
             PDict
               [ (lit "role", PStr (lit "user"));
                 (lit "content", PStr prompt) ] ]);
        (lit "temperature", PFloat 0x1.999999999999ap-3) ] in
  resp <- requests_post W (mkRequest url headers payload 60) ;;
  _ <- raise_for_status resp ;;
  body <- json_loads W (resp_text resp) ;;
  choices <- getitem_key body (lit "choices") ;;
  choice <- getitem_int choices 0 ;;
  message <- getitem_key choice (lit "message") ;;
  content <- getitem_key message (lit "content") ;;
  match loads_val W content with
  | Ok v => Ok v
  | Raise e =>
      m <- search_val brace_re content ;;
      match m with
      | Some g => json_loads W g
      | None => Raise e
      end
  end.

Definition _call_anthropic (api_key text : pystr) (guidance : option pystr)
  : result pyval :=
  let url := lit "https://api.anthropic.com/v1/messages" in
  let headers :=
    [ (lit "x-api-key", api_key);
      (lit "anthropic-version", lit "2023-06-01");
      (lit "content-type", lit "application/json") ] in
  let prompt := build_structuring_prompt text guidance in
  let payload :=
    PDict
      [ (lit "model", PStr (lit "claude-3-5-sonnet-latest"));
        (lit "max_tokens", PInt 4000);
        (lit "temperature", PFloat 0x1.999999999999ap-3);
        (lit "messages",
         PList
           [ PDict
               [ (lit "role", PStr (lit "user"));
                 (lit "content", PStr prompt) ] ]) ] in
  resp <- requests_post W (mkRequest url headers payload 60) ;;
  _ <- raise_for_status resp ;;
  body <- json_loads W (resp_text resp) ;;
  content_blocks <- dict_get body (lit "content") (PList []) ;;
  blocks <- py_iter content_blocks ;;
  text_out <-
    for_each
      (fun text_out block =>
         ty <- dict_get block (lit "type") PNone ;;
         if py_eq_str ty (lit "text") then
           t <- dict_get block (lit "text") (PStr []) ;;
           str_add text_out t
         else Ok text_out)
      blocks [] ;;
  json_loads W text_out.

Definition _call_gemini (api_key text : pystr) (guidance : option pystr)
  : result pyval :=
  let prompt := build_structuring_prompt text guidance in
  let url :=
    lit "https://generativelanguage.googleapis.com/v1beta/models/"
    ++ lit "gemini-1.5-pro" ++ lit ":generateContent?key=" ++ api_key in
  let payload :=
    PDict
      [ (lit "contents",
         PList
           [ PDict
               [ (lit "parts",
                  PList [ PDict [ (lit "text", PStr prompt) ] ]) ] ]) ] in
  resp <- requests_post W (mkRequest url [] payload 60) ;;
  _ <- raise_for_status resp ;;
  body <- json_loads W (resp_text resp) ;;
  candidates <- dict_get body (lit "candidates") (PList []) ;;
  text_out <-
    (if py_truthy candidates then
       first <- getitem_int candidates 0 ;;
       has <- py_contains (lit "content") first ;;
       if has then
         content <- getitem_key first (lit "content") ;;
         parts <- dict_get content (lit "parts") (PList []) ;;
         ps <- py_iter parts ;;
         for_each
           (fun text_out p =>
              t <- dict_get p (lit "text") (PStr []) ;;
              str_add text_out t)
           ps []
       else Ok []
     else Ok []) ;;
  json_loads W text_out.

(** The dictionaries the heuristic returns, as Python values. *)
Definition py_of_slide (s : SlideSpec) : pyval :=
  PDict
    [ (lit "title", PStr (title s));
      (lit "bullets", PList (map PStr (bullets s)));
      (lit "notes", PStr (notes s)) ].

Definition py_of_outline (d : Outline) : pyval :=
  PDict
    [ (lit "title", PStr (deck_title d));
      (lit "slides", PList (map py_of_slide (deck_slides d))) ].

(** [x or ''] and the truth value of an [Optional[str]]. *)
Definition or_empty (x : option pystr) : pystr :=
  match x with
  | Some s => s
  | None => []
  end.

(** The provider named by the normalised [provider], inside the [try]. *)
Definition dispatch (provider api_key text : pystr)
  (guidance : option pystr) : option (result pyval) :=
  if str_eqb provider (lit "openai")
  then Some (_call_openai api_key text guidance)
  else if str_eqb provider (lit "anthropic")
  then Some (_call_anthropic api_key text guidance)
  else if str_eqb provider (lit "gemini")
  then Some (_call_gemini api_key text guidance)
  else None.

Definition supported (provider : pystr) : bool :=
  existsb (str_eqb provider) [lit "openai"; lit "anthropic"; lit "gemini"].

(** The [try] block of [structure_slides]: [Some r] when a provider was
    called and ended as [r]; [None] when no provider was called. *)
Definition attempt (provider api_key : option pystr) (text : pystr)
  (guidance : option pystr) : option (result pyval) :=
  let provider := strip (str_lower W (or_empty provider)) in
  if truthy (or_empty api_key) && supported provider
  then dispatch provider (or_empty api_key) text guidance
  else None.

Definition structure_slides (provider api_key : option pystr) (text : pystr)
  (guidance : option pystr) : result pyval :=
  match attempt provider api_key text guidance with
  | Some (Ok deck) => Ok deck
  | Some (Raise _) | None => Ok (py_of_outline (_heuristic_split text guidance))
  end.

End Providers.

End Router.
Import Router.

(** ** The template renderer ([backend/pptx_builder.py])

    python-pptx is seen through the objects the program touches: a
    presentation has slide layouts and slides, a slide has shapes, a shape
    is a placeholder (with its index, its placeholder type and the strings
    written to its text frame), a picture or something else. *)

Module Pptx.

Definition bytes := list N.

Inductive shape : Type :=
| Placeholder (idx : nat) (ph_type : Z) (text_frame : list pystr)
| Picture (image_blob : result bytes)
| OtherShape (shape_type : Z).

Record slide : Type := mkPSlide {
  layout_of : nat;
  shapes : list shape;
  notes_text : pystr
}.

(** A layout is known by the placeholders a new slide inherits from it:
    their indices and types. *)
Definition layout := list (nat * Z).

Record presentation : Type := mkPrs {
  slide_layouts : list layout;
  prs_slides : list slide;
  (** whether [notes_slide.notes_text_frame] exists to be written to *)
  notes_frame : bool
}.

(** What the library does with data: opening and saving a package, the
    string a text setter keeps for the value assigned to it (or the
    exception it raises), and whether [add_picture] accepts a blob. *)
Record library : Type := mkLibrary {
  Presentation : bytes -> result presentation;
  save : presentation -> result bytes;
  text_arg : pyval -> result pystr;
  picture_ok : bytes -> bool
}.

(** [shape.shape_type]: 13 is a picture, 14 a placeholder. *)
Definition shape_type_of (s : shape) : Z :=
  match s with
  | Placeholder _ _ _ => 14
  | Picture _ => 13
  | OtherShape t => t
  end.

(** The blobs of the picture shapes of a slide; a shape whose
    [image.blob] raises is passed over. *)
Definition picture_blobs (sl : slide) : list bytes :=
  flat_map
    (fun sh =>
       if (shape_type_of sh =? 13)%Z then
         match sh with
         | Picture (Ok blob) => [blob]
         | _ => []
         end
       else [])
    (shapes sl).

Definition collect_template_images (prs : presentation) : list bytes :=
  flat_map picture_blobs (prs_slides prs).

(** [l[i]] for a Python integer: a negative index counts from the end. *)
Definition py_index {A : Type} (l : list A) (i : Z) : result (nat * A) :=
  let n := Z.of_nat (length l) in
  let j := if (i <? 0)%Z then (n + i)%Z else i in
  if ((0 <=? j) && (j <? n))%Z then
    match nth_error l (Z.to_nat j) with
    | Some x => Ok (Z.to_nat j, x)
    | None => Raise IndexError
    end
  else Raise IndexError.

(** [prs.slides.add_slide(layout)]: the new slide, with the placeholders of
    its layout and empty text frames. *)
Definition add_slide (k : nat) (lay : layout) : slide :=
  mkPSlide k (map (fun p => Placeholder (fst p) (snd p) []) lay) [].

(** Write through the first shape that satisfies [sel]; [None] when there
    is none. *)
Fixpoint update_first (sel : shape -> bool) (f : shape -> shape)
  (shs : list shape) : option (list shape) :=
  match shs with
  | [] => None
  | sh :: rest =>
      if sel sh then Some (f sh :: rest)
      else
        match update_first sel f rest with
        | Some rest' => Some (sh :: rest')
        | None => None
        end
  end.

(** [slide.shapes.title]: the placeholder of index 0. *)
Definition is_title (sh : shape) : bool :=
  match sh with
  | Placeholder 0 _ _ => true
  | _ => false
  end.

(** A placeholder whose [placeholder_format.type] is 2. *)
Definition is_body (sh : shape) : bool :=
  match sh with
  | Placeholder _ t _ => (t =? 2)%Z
  | _ => false
  end.

Definition with_text (paragraphs : list pystr) (sh : shape) : shape :=
  match sh with
  | Placeholder i t _ => Placeholder i t paragraphs
  | _ => sh
  end.

(** [v or ''] *)
Definition or_empty_val (v : pyval) : pyval :=
  if py_truthy v then v else PStr [].

Section Renderer.

Variable L : library.

(** [try: slide.shapes.title.text = v / except Exception: pass] *)
Definition try_set_title (v : pyval) (sl : slide) : slide :=
  match text_arg L v with
  | Ok s =>
      match update_first is_title (with_text [s]) (shapes sl) with
      | Some shs => mkPSlide (layout_of sl) shs (notes_text sl)
      | None => sl
      end
  | Raise _ => sl
  end.

(** The body placeholder, when there is one: [tf.clear()], the first
    bullet through [tf.text], the others through [add_paragraph()]. *)
Definition write_bullets (bullets : list pyval) (sl : slide) : result slide :=
  if existsb is_body (shapes sl) then
    paragraphs <-
      for_each (fun acc b => s <- text_arg L b ;; Ok (acc ++ [s])) bullets [] ;;
    match update_first is_body (with_text paragraphs) (shapes sl) with
    | Some shs => Ok (mkPSlide (layout_of sl) shs (notes_text sl))
    | None => Ok sl
    end
  else Ok sl.

(** [image_blobs[image_cycle_idx % len(image_blobs)]] *)
Definition pick_blob (image_blobs : list bytes) (image_cycle_idx : nat)
  : option bytes :=
  nth_error image_blobs (image_cycle_idx mod length image_blobs).

Definition try_add_picture (image_blobs : list bytes) (image_cycle_idx : nat)
  (sl : slide) : slide :=
  match image_blobs with
  | [] => sl
  | _ :: _ =>
      match pick_blob image_blobs image_cycle_idx with
      | Some blob =>
          if picture_ok L blob
          then mkPSlide (layout_of sl) (shapes sl ++ [Picture (Ok blob)])
                        (notes_text sl)
          else sl
      | None => sl
      end
  end.

Definition try_set_notes (has_frame : bool) (notes : pyval) (sl : slide)
  : slide :=
  if py_truthy notes then
    if has_frame then
      match text_arg L notes with
      | Ok s => mkPSlide (layout_of sl) (shapes sl) s
      | Raise _ => sl
      end
    else sl
  else sl.

Definition add_bulleted_slide (prs : presentation) (layout_idx : Z)
  (title : pyval) (bullets : list pyval) (notes : pyval)
  (image_blobs : list bytes) (image_cycle_idx : nat)
  : result (presentation * nat) :=
  lay <- py_index (slide_layouts prs) layout_idx ;;
  let sl := add_slide (fst lay) (snd lay) in
  let sl := try_set_title (or_empty_val title) sl in
  sl <- write_bullets bullets sl ;;
  let sl := try_add_picture image_blobs image_cycle_idx sl in
  let sl := try_set_notes (notes_frame prs) notes sl in
  Ok (mkPrs (slide_layouts prs) (prs_slides prs ++ [sl]) (notes_frame prs),
      image_cycle_idx + 1).

(** The title slide: both [try] blocks of [build_presentation]. *)
Definition try_title_slide (v : pyval) (prs : presentation) : presentation :=
  match py_index (slide_layouts prs) 0 with
  | Ok lay =>
      let ts := try_set_title v (add_slide (fst lay) (snd lay)) in
      mkPrs (slide_layouts prs) (prs_slides prs ++ [ts]) (notes_frame prs)
  | Raise _ => prs
  end.

Definition default_layout_idx (prs : presentation) (prefer_layout_idx : Z)
  : Z :=
  if (prefer_layout_idx <? Z.of_nat (length (slide_layouts prs)))%Z
  then prefer_layout_idx else 1%Z.

(** The body of [for s in slides]. *)
Definition render_slide (layout_idx : Z) (template_images : list bytes)
  (st : presentation * nat) (s : pyval) : result (presentation * nat) :=
  title <- dict_get s (lit "title") (PStr []) ;;
  bl <- dict_get s (lit "bullets") (PList []) ;;
  items <- py_iter bl ;;
  let bullets := filter py_truthy items in
  notes <- dict_get s (lit "notes") (PStr []) ;;
  add_bulleted_slide (fst st) layout_idx title bullets notes
                     template_images (snd st).

(** [build_presentation] up to the presentation it is about to save. *)
Definition render (template_bytes : bytes) (deck : pyval)
  (prefer_layout_idx : Z) : result presentation :=
  prs <- Presentation L template_bytes ;;
  let template_images := collect_template_images prs in
  t <- dict_get deck (lit "title") PNone ;;
  let prs := if py_truthy t then try_title_slide t prs else prs in
  slides <- dict_get deck (lit "slides") (PList []) ;;
  let idx := default_layout_idx prs prefer_layout_idx in
  items <- py_iter slides ;;
  st <- for_each (render_slide idx template_images) items (prs, 0) ;;
  Ok (fst st).

Definition build_presentation (template_bytes : bytes) (deck : pyval)
  (prefer_layout_idx : Z) : result bytes :=
  prs <- render template_bytes deck prefer_layout_idx ;;
  save L prs.

End Renderer.

End Pptx.
Import Pptx.

(** ** The request handler ([backend/main.py]) *)

Module Main.

(** What a request ends in: an [HTTPException] with its status and the
    fixed part of its detail, an exception nobody handles, or the generated
    file. *)
Inductive http_result : Type :=
| HTTPException (status : Z) (detail : pystr)
| Unhandled (e : exn)
| FileResponse (out_bytes : bytes).

(** [s['notes'] = '']: item assignment with a string key needs a [dict]. *)
Definition clear_notes (s : pyval) : result pyval :=
  match s with
  | PDict kvs => Ok (PDict (dict_set (lit "notes") (PStr []) kvs))
  | _ => Raise TypeError
  end.

(** [for s in deck.get('slides', []): s['notes'] = ''].  The slides are
    changed in place, so the deck holds the changed slides afterwards; the
    default list of a missing key is not stored. *)
Definition suppress_notes (deck : pyval) : result pyval :=
  slides <- dict_get deck (lit "slides") (PList []) ;;
  items <- py_iter slides ;;
  items' <- for_each (fun acc s => s' <- clear_notes s ;; Ok (acc ++ [s']))
                     items [] ;;
  match deck, slides with
  | PDict kvs, PList _ =>
      match lookup (lit "slides") kvs with
      | Some _ => Ok (PDict (dict_set (lit "slides") (PList items') kvs))
      | None => Ok deck
      end
  | _, _ => Ok deck
  end.

(** [x or None] *)
Definition or_none (x : option pystr) : option pystr :=
  match x with
  | Some (c :: s) => Some (c :: s)
  | _ => None
  end.

(** [not speaker_notes] for an [Optional[bool]] *)
Definition notes_off (speaker_notes : option bool) : bool :=
  match speaker_notes with
  | Some true => false
  | _ => true
  end.

Section Handler.

Variable W : world.
Variable L : library.

(** Lines 36 to 39: the deck handed to the renderer. *)
Definition deck_for_render (text : pystr)
  (guidance provider api_key : option pystr) (speaker_notes : option bool)
  : result pyval :=
  deck <- structure_slides W (Some (or_empty provider)) (or_none api_key)
                           text guidance ;;
  if notes_off speaker_notes then suppress_notes deck else Ok deck.

Definition generate_pptx (filename : pystr) (template_bytes : bytes)
  (text : pystr) (guidance provider api_key : option pystr)
  (speaker_notes : option bool) : http_result :=
  let name := str_lower W filename in
  if negb (endswith (lit ".pptx") name || endswith (lit ".potx") name) then
    HTTPException 400 (lit "Please upload a .pptx or .potx file")
  else if (40 * 1024 * 1024 <? N.of_nat (length template_bytes))%N then
    HTTPException 400 (lit "Template too large (max 40MB)")
  else
    match deck_for_render text guidance provider api_key speaker_notes with
    | Raise e => Unhandled e
    | Ok deck =>
        match build_presentation L template_bytes deck 1 with
        | Raise e => HTTPException 500 (lit "Failed to build presentation: ")
        | Ok out_bytes => FileResponse out_bytes
        end
    end.

End Handler.

End Main.
Import Main.

(** ** A world to run the program in

    [ascii_lower] is [str.lower] on ASCII text.  [loads] is a decoder for
    the JSON texts made of objects, arrays, strings with the simple escapes,
    integers and the three literals, on which it agrees with [json.loads];
    texts with fractions, exponents or [\u] escapes are outside it. *)

Module Sample.

Definition ascii_lower (s : pystr) : pystr :=
  map (fun c => if ((65 <=? c) && (c <=? 90))%N then (c + 32)%N else c) s.

Definition json_ws (c : N) : bool :=
  ((c =? 32) || (c =? 9) || (c =? 10) || (c =? 13))%N.

Definition skip_ws (s : pystr) : pystr := dropwhile json_ws s.

Definition unescape (e : N) : option N :=
  (if e =? 34 then Some 34 else if e =? 92 then Some 92
   else if e =? 47 then Some 47 else if e =? 110 then Some 10
   else if e =? 116 then Some 9 else if e =? 114 then Some 13
   else if e =? 98 then Some 8 else if e =? 102 then Some 12
   else None)%N.

(** The rest of a string literal, after its opening quote. *)
Fixpoint parse_string (s : pystr) : option (pystr * pystr) :=
  match s with
  | [] => None
  | c :: r =>
      if (c =? 34)%N then Some ([], r)
      else if (c =? 92)%N then
        match r with
        | e :: r' =>
            match unescape e, parse_string r' with
            | Some x, Some (t, rest) => Some (x :: t, rest)
            | _, _ => None
            end
        | [] => None
        end
      else if (c <? 32)%N then None
      else
        match parse_string r with
        | Some (t, rest) => Some (c :: t, rest)
        | None => None
        end
  end.

Definition is_digit (c : N) : bool := ((48 <=? c) && (c <=? 57))%N.

Fixpoint parse_digits (s : pystr) (acc : Z) : Z * pystr :=
  match s with
  | c :: r =>
      if is_digit c then parse_digits r (10 * acc + Z.of_N (c - 48))%Z
      else (acc, s)
  | [] => (acc, s)
  end.

(** An integer: no leading zero before another digit, and nothing that
    would continue it as a fraction or an exponent. *)
Definition parse_int (s : pystr) : option (pyval * pystr) :=
  let (neg, s1) :=
    match s with
    | c :: r => if (c =? 45)%N then (true, r) else (false, s)
    | [] => (false, s)
    end in
  match s1 with
  | d :: r =>
      if is_digit d then
        let (z, rest) := parse_digits s1 0 in
        let leading_zero :=
          (d =? 48)%N && match r with e :: _ => is_digit e | [] => false end in
        let continued :=
          match rest with
          | e :: _ => mem e (lit ".eE")
          | [] => false
          end in
        if leading_zero || continued then None
        else Some (PInt (if neg then (- z)%Z else z), rest)
      else None
  | [] => None
  end.

Definition after (word : pystr) (v : pyval) (s : pystr)
  : option (pyval * pystr) :=
  if startswith word s then Some (v, skipn (length word) s) else None.

Fixpoint parse_value (fuel : nat) (s : pystr) : option (pyval * pystr) :=
  match fuel with
  | O => None
  | S f =>
      match skip_ws s with
      | [] => None
      | c :: r =>
          if (c =? 123)%N then
            match skip_ws r with
            | d :: r' =>
                if (d =? 125)%N then Some (PDict [], r')
                else parse_members f (d :: r') []
            | [] => None
            end
          else if (c =? 91)%N then
            match skip_ws r with
            | d :: r' =>
                if (d =? 93)%N then Some (PList [], r')
                else parse_elems f (d :: r') []
            | [] => None
            end
          else if (c =? 34)%N then
            match parse_string r with
            | Some (t, rest) => Some (PStr t, rest)
            | None => None
            end
          else if (c =? 116)%N then after (lit "true") (PBool true) (c :: r)
          else if (c =? 102)%N then after (lit "false") (PBool false) (c :: r)
          else if (c =? 110)%N then after (lit "null") PNone (c :: r)
          else parse_int (c :: r)
      end
  end
with parse_elems (fuel : nat) (s : pystr) (acc : list pyval)
  : option (pyval * pystr) :=
  match fuel with
  | O => None
  | S f =>
      match parse_value f s with
      | Some (v, r) =>
          match skip_ws r with
          | c :: r' =>
              if (c =? 44)%N then parse_elems f r' (acc ++ [v])
              else if (c =? 93)%N then Some (PList (acc ++ [v]), r')
              else None
          | [] => None
          end
      | None => None
      end
  end
with parse_members (fuel : nat) (s : pystr) (acc : list (pystr * pyval))
  : option (pyval * pystr) :=
  match fuel with
  | O => None
  | S f =>
      match skip_ws s with
      | q :: r =>
          if (q =? 34)%N then
            match parse_string r with
            | Some (k, r1) =>
                match skip_ws r1 with
                | c :: r2 =>
                    if (c =? 58)%N then
                      match parse_value f r2 with
                      | Some (v, r3) =>
                          let acc' := dict_set k v acc in
                          match skip_ws r3 with
                          | e :: r4 =>
                              if (e =? 44)%N then parse_members f r4 acc'
                              else if (e =? 125)%N then Some (PDict acc', r4)
                              else None
                          | [] => None
                          end
                      | None => None
                      end
                    else None
                | [] => None
                end
            | None => None
            end
          else None
      | [] => None
      end
  end.

Definition loads (s : pystr) : result pyval :=
  match parse_value (S (length s)) s with
  | Some (v, rest) =>
      match skip_ws rest with
      | [] => Ok v
      | _ :: _ => Raise JSONDecodeError
      end
  | None => Raise JSONDecodeError
  end.

(** The world in which every request gets the answer [answer]. *)
Definition world_answering (answer : result response) : world :=
  mkWorld ascii_lower (fun _ => answer) loads.

Definition ok_200 (body : string) : result response :=
  Ok (mkResponse 200 (lit body)).

(** A string as a JSON string literal. *)
Definition json_string (s : pystr) : pystr :=
  34%N :: flat_map (fun c =>
             if (c =? 34)%N then [92; 34]%N
             else if (c =? 92)%N then [92; 92]%N
             else if (c =? 10)%N then [92; 110]%N
             else [c]) s ++ [34%N].

(** Status 200 and the envelope of each provider around the text
    [content]. *)
Definition openai_reply (content : pystr) : result response :=
  Ok (mkResponse 200
        (lit "{\x22choices\x22:[{\x22message\x22:{\x22content\x22:"
         ++ json_string content ++ lit "}}]}")).

Definition anthropic_reply (content : pystr) : result response :=
  Ok (mkResponse 200
        (lit "{\x22content\x22:[{\x22type\x22:\x22text\x22,\x22text\x22:"
         ++ json_string content ++ lit "}]}")).

Definition gemini_reply (content : pystr) : result response :=
  Ok (mkResponse 200
        (lit "{\x22candidates\x22:[{\x22content\x22:{\x22parts\x22:[{\x22text\x22:"
         ++ json_string content ++ lit "}]}}]}")).

(** A template with a title layout and a title-and-body layout, and one
    slide holding two pictures whose blobs are the bytes [0] and [1]. *)
Definition two_layout_template : presentation :=
  mkPrs [ [(0, 3%Z)]; [(0, 1%Z); (1, 2%Z)] ]
        [ mkPSlide 0 [Picture (Ok [0%N]); Picture (Ok [1%N])] [] ]
        true.

(** A template with a single layout and no slide. *)
Definition one_layout_template : presentation :=
  mkPrs [ [(0, 1%Z); (1, 2%Z)] ] [] true.

(** A slide of a deck, as a Python value. *)
Definition slide_T : pyval :=
  py_of_slide (mkSlide (lit "T") [lit "b"] []).

(** An answer of a model: one slide with speaker notes. *)
Definition deck_with_notes : pystr :=
  lit "{\x22slides\x22:[{\x22title\x22:\x22T\x22,\x22bullets\x22:[\x22b\x22],\x22notes\x22:\x22say this\x22}]}".

(** python-pptx on a template that opens as [prs]: text setters take a
    [str] and nothing else, every blob is an image, saving succeeds (the
    bytes written are not modelled). *)
Definition library_opening (prs : presentation) : library :=
  mkLibrary (fun _ => Ok prs) (fun _ => Ok [])
            (fun v => match v with PStr s => Ok s | _ => Raise TypeError end)
            (fun _ => true).

End Sample.

(** ** Vocabulary of the statements *)

Module Vocabulary.

(** The text a heading line contributes as a title. *)
Definition heading_text (ln : pystr) : pystr :=
  strip (re_sub_anchored marker_re ln).






(** A starred character class followed by [k], spelled out: take the
    longest run of [p], then give characters back one by one until [k]
    succeeds. *)
Fixpoint greedy {X : Type} (p : N -> bool) (k : pystr -> option X)
  (s : pystr) : option X :=
  match s with
  | c :: s' =>
      if p c then
        match greedy p k s' with
        | Some x => Some x
        | None => k s
        end
      else k s
  | [] => k s
  end.

Definition all_space (s : pystr) : Prop := Forall (fun c => isspace c = true) s.

(** The provider structurer that a normalised provider name selects. *)
Definition structurer_named (name : pystr)
  : option (world -> pystr -> pystr -> option pystr -> result pyval) :=
  if str_eqb name (lit "openai") then Some _call_openai
  else if str_eqb name (lit "anthropic") then Some _call_anthropic
  else if str_eqb name (lit "gemini") then Some _call_gemini
  else None.

(** [provider.lower().strip()] *)
Definition normalised (W : world) (provider : option pystr) : pystr :=
  strip (str_lower W (or_empty provider)).

(** A Python value that is a dictionary, as an outline is. *)
Definition is_dict (v : pyval) : bool :=
  match v with
  | PDict _ => true
  | _ => false
  end.

(** The slides a rendering added to those of the template. *)
Definition added_slides (before after : presentation) (new : list slide)
  : Prop :=
  prs_slides after = prs_slides before ++ new.

(** The shape of a line that the heading pattern accepts: blanks, one or
    two hashes, at least one blank, and then a character that is not a
    newline. *)
Inductive heading_shape (ln : pystr) : Prop :=
| heading_parts (pre h sp : pystr) (c : N) (rest : pystr) :
    all_space pre ->
    h = lit "#" \/ h = lit "##" ->
    all_space sp -> sp <> [] ->
    c <> 10%N ->
    ln = pre ++ h ++ sp ++ c :: rest ->
    heading_shape ln.

(** The bullet that [flush_slide] makes of a collected line. *)
Definition bullet_of (ln : pystr) : pystr :=
  strip (strip_chars (lit "-* ") ln).

(** A string that [strip] leaves as it is. *)
Definition stripped (s : pystr) : Prop := strip s = s.

(** The text frame of the first shape that satisfies [sel]. *)
Fixpoint text_of_first (sel : shape -> bool) (shs : list shape)
  : option (list pystr) :=
  match shs with
  | [] => None
  | sh :: rest =>
      if sel sh then
        match sh with
        | Placeholder _ _ t => Some t
        | _ => None
        end
      else text_of_first sel rest
  end.

(** A library whose text setters keep a [str] as it is. *)
Definition keeps_str (L : library) : Prop :=
  forall s, text_arg L (PStr s) = Ok s.

(** The text between the first opening brace of [s] and its last closing
    brace, both included. *)
Definition is_brace_span (s g : pystr) : Prop :=
  exists pre mid post,
    s = pre ++ g ++ post /\
    g = 123%N :: mid ++ [125%N] /\
    ~ In 123%N pre /\ ~ In 125%N post.

(** Two dictionaries that agree on every key but [k]. *)
Definition same_but (k : pystr) (a b : pyval) : Prop :=
  forall k' d, k' <> k -> dict_get b k' d = dict_get a k' d.

(** How a call of [requests.post] followed by [raise_for_status] fails: the
    exception of the transport, or [HTTPError] for a status from 400 to
    599. *)
Definition http_failure (answer : result response) : option exn :=
  match answer with
  | Raise e => Some e
  | Ok resp =>
      match raise_for_status resp with
      | Raise e => Some e
      | Ok _ => None
      end
  end.

(** The number of heading lines among [lines]. *)
Definition heading_count (lines : list pystr) : nat :=
  length (filter is_heading lines).

(** The placeholders of a slide, as index and type. *)
Definition placeholders_of (sl : slide) : list (nat * Z) :=
  flat_map
    (fun sh =>
       match sh with
       | Placeholder i t _ => [(i, t)]
       | _ => []
       end)
    (shapes sl).

(** Whether a layout has a placeholder of type 2. *)
Definition has_body (lay : layout) : bool :=
  existsb (fun p => (snd p =? 2)%Z) lay.

(** A slide of an outline with its notes emptied. *)
Definition without_notes (s : SlideSpec) : SlideSpec :=
  mkSlide (title s) (bullets s) [].

(** [sl] is the slide that the body of the loop adds for the item [s] to
    some presentation with the layouts [layouts]. *)
Definition slide_added (L : library) (idx : Z) (blobs : list bytes)
  (layouts : list layout) (frame : bool) (s : pyval) (sl : slide) : Prop :=
  exists pa pb k,
    slide_layouts pa = layouts /\
    notes_frame pa = frame /\
    render_slide L idx blobs (pa, k) s = Ok (pb, k + 1) /\
    prs_slides pb = prs_slides pa ++ [sl].

(** A world whose network answers every request with [resp], a response
    that [raise_for_status] lets pass. *)
Definition replies (W : world) (resp : response) : Prop :=
  (forall req, requests_post W req = Ok resp) /\
  raise_for_status resp = Ok tt.

(** [body["choices"][0]["message"]["content"]] is [c]. *)
Definition openai_content (body c : pyval) : Prop :=
  exists choices choice message,
    getitem_key body (lit "choices") = Ok choices /\
    getitem_int choices 0 = Ok choice /\
    getitem_key choice (lit "message") = Ok message /\
    getitem_key message (lit "content") = Ok c.

(** A content block of an Anthropic answer: its type and its text. *)
Definition text_block (b : pystr * pystr) : pyval :=
  PDict [ (lit "type", PStr (fst b)); (lit "text", PStr (snd b)) ].

(** The texts of the blocks of type ["text"], in order, as one string. *)
Definition texts_of (blocks : list (pystr * pystr)) : pystr :=
  concat (map snd (filter (fun b => str_eqb (fst b) (lit "text")) blocks)).

(** A candidate of a Gemini answer with the texts of its parts. *)
Definition gemini_part (t : pystr) : pyval := PDict [ (lit "text", PStr t) ].

Definition gemini_candidate (parts : list pystr) : pyval :=
  PDict [ (lit "content",
           PDict [ (lit "parts", PList (map gemini_part parts)) ]) ].

End Vocabulary.
Import Vocabulary.

(** * Properties *)

(** ** Strings *)

Lemma str_eqb_eq (a b : pystr) : str_eqb a b = true <-> a = b.
Proof.
  unfold str_eqb. destruct (list_eq_dec N.eq_dec a b); split; congruence.
Qed.

Lemma str_eqb_refl (a : pystr) : str_eqb a a = true.
Proof. apply str_eqb_eq. reflexivity. Qed.

Lemma truthy_app_r (a b : pystr) : truthy b = true -> truthy (a ++ b) = true.
Proof. destruct a; simpl; auto. Qed.

(** ** The heuristic structurer *)

Section HeuristicTitles.

Lemma title_or_default_truthy (t : option pystr) :
  truthy (title_or_default t) = true.
Proof. destruct t as [[|c s]|]; reflexivity. Qed.

Lemma title_or_default_cases (t : option pystr) :
  title_or_default t = lit "Slide" \/
  (exists s, t = Some s /\ truthy s = true /\ title_or_default t = s).
Proof.
  destruct t as [[|c s]|]; simpl; auto.
  right. exists (c :: s). auto.
Qed.






End HeuristicTitles.

Lemma Forall_firstn {A : Type} (P : A -> Prop) (n : nat) (l : list A) :
  Forall P l -> Forall P (firstn n l).
Proof.
  intros H. revert n.
  induction H as [|x l Hx Hl IH]; intros [|n]; simpl; auto.
Qed.

(** ** The matcher on a starred character class *)

Lemma star_loop_chr {X : Type} (p : N -> bool) (k : pystr -> option X)
  (n : nat) (s : pystr) :
  length s <= n -> star_loop (bt (Chr p)) k n s = greedy p k s.
Proof.
  revert s. induction n as [|n IH]; intros s Hlen.
  - destruct s; [reflexivity | simpl in Hlen; lia].
  - destruct s as [|c s']; [reflexivity|].
    cbn [star_loop bt greedy]. destruct (p c); [|reflexivity].
    replace (length s' <? length (c :: s')) with true
      by (symmetry; apply Nat.ltb_lt; simpl; lia).
    rewrite IH by (simpl in Hlen; lia). reflexivity.
Qed.

Lemma bt_star_chr {X : Type} (p : N -> bool) (k : pystr -> option X)
  (s : pystr) :
  bt (Star (Chr p)) s k = greedy p k s.
Proof. cbn [bt]. apply star_loop_chr. apply Nat.le_refl. Qed.

Lemma bt_seq_star_chr {X : Type} (p : N -> bool) (r : re)
  (k : pystr -> option X) (s : pystr) :
  bt (Seq (Star (Chr p)) r) s k = greedy p (fun s' => bt r s' k) s.
Proof.
  change (bt (Seq (Star (Chr p)) r) s k)
    with (bt (Star (Chr p)) s (fun s' => bt r s' k)).
  apply bt_star_chr.
Qed.

(** When [k] fails on every text that begins with a [p], the run taken
    before [rest] is of no consequence. *)
Lemma greedy_prefix {X : Type} (p : N -> bool) (k : pystr -> option X)
  (pre rest : pystr) :
  Forall (fun c => p c = true) pre ->
  (forall c s, p c = true -> k (c :: s) = None) ->
  greedy p k (pre ++ rest) = greedy p k rest.
Proof.
  intros Hpre Hk. induction Hpre as [|c pre Hc _ IH]; [reflexivity|].
  simpl. rewrite Hc, IH, (Hk c _ Hc).
  destruct (greedy p k rest); reflexivity.
Qed.

Lemma space_is_not_hash (c : N) : isspace c = true -> (35 =? c)%N = false.
Proof.
  intros H. destruct (N.eqb_spec 35 c) as [<-|]; [discriminate H | reflexivity].
Qed.

(** The heading pattern on a text with leading blanks: the blanks are
    passed over. *)
Lemma is_heading_skips_blanks (pre rest : pystr) :
  all_space pre -> is_heading (pre ++ rest) = is_heading rest.
Proof.
  intros Hpre. unfold is_heading, re_match, heading_re, ws.
  rewrite !bt_seq_star_chr. rewrite greedy_prefix; auto.
  intros c s Hc. unfold OneOrTwo, hash. cbn [bt].
  rewrite (space_is_not_hash c Hc). reflexivity.
Qed.

Lemma strip_blanks_then (pre s : pystr) :
  all_space pre -> strip (pre ++ s) = strip s.
Proof.
  intros Hpre. unfold strip, strip_by, lstrip_by. f_equal.
  induction Hpre as [|c pre Hc _ IH]; [reflexivity|].
  simpl. rewrite Hc. exact IH.
Qed.

(** A line that holds nothing but the marker is no heading; it is kept as
    a content line. *)
Lemma bare_marker_is_content (b : buffer) (pre : pystr) :
  all_space pre ->
  scan_line b (pre ++ lit "#")
    = mkBuffer (slides b) (current_title b) (current_lines b ++ [lit "#"])
  /\ scan_line b (pre ++ lit "##")
    = mkBuffer (slides b) (current_title b) (current_lines b ++ [lit "##"]).
Proof.
  intros Hpre. unfold scan_line.
  rewrite !is_heading_skips_blanks, !strip_blanks_then by assumption.
  split; reflexivity.
Qed.

(** ** The paragraph path is never productive

    The scan emits no slide only for a text that is blank, and a blank text
    has no paragraph. *)

Lemma dropwhile_nil (p : N -> bool) (s : pystr) :
  dropwhile p s = [] -> Forall (fun c => p c = true) s.
Proof.
  induction s as [|c s IH]; simpl; [constructor|].
  destruct (p c) eqn:E; [|discriminate]. auto.
Qed.

Lemma dropwhile_all (p : N -> bool) (s : pystr) :
  Forall (fun c => p c = true) s -> dropwhile p s = [].
Proof. induction 1 as [|c s Hc _ IH]; simpl; [|rewrite Hc]; auto. Qed.

Lemma dropwhile_head (p : N -> bool) (s t : pystr) (c : N) :
  dropwhile p s = c :: t -> p c = false.
Proof.
  induction s as [|a s IH]; simpl; [discriminate|].
  destruct (p a) eqn:E; [exact IH|]. intros [= <- _]. exact E.
Qed.

Lemma In_dropwhile (p : N -> bool) (s : pystr) (c : N) :
  In c s -> p c = false -> In c (dropwhile p s).
Proof.
  induction s as [|a s IH]; simpl; [tauto|].
  intros [<-|Hin] Hc.
  - rewrite Hc. left. reflexivity.
  - destruct (p a); [auto | right; exact Hin].
Qed.

Lemma strip_by_nil (p : N -> bool) (s : pystr) :
  strip_by p s = [] -> Forall (fun c => p c = true) s.
Proof.
  unfold strip_by, rstrip_by, lstrip_by. intros H.
  apply (f_equal (@rev N)) in H. rewrite rev_involutive in H. simpl in H.
  apply dropwhile_nil in H. apply Forall_rev in H.
  rewrite rev_involutive in H.
  destruct (dropwhile p s) as [|c t] eqn:E.
  - apply dropwhile_nil. exact E.
  - apply dropwhile_head in E. inversion H; congruence.
Qed.

Lemma strip_by_keeps (p : N -> bool) (s : pystr) (c : N) :
  In c s -> p c = false -> truthy (strip_by p s) = true.
Proof.
  intros Hin Hc.
  assert (H : In c (strip_by p s)).
  { unfold strip_by, rstrip_by, lstrip_by. apply in_rev.
    rewrite rev_involutive. apply In_dropwhile; [|exact Hc].
    apply in_rev. rewrite rev_involutive. apply In_dropwhile; auto. }
  destruct (strip_by p s); [destruct H | reflexivity].
Qed.

Lemma strip_by_last (p : N -> bool) (s u : pystr) (c : N) :
  strip_by p s = u ++ [c] -> p c = false.
Proof.
  unfold strip_by, rstrip_by. intros H.
  apply (f_equal (@rev N)) in H. rewrite rev_involutive, rev_unit in H.
  apply dropwhile_head in H. exact H.
Qed.

Lemma all_space_strip (s : pystr) : all_space s -> strip s = [].
Proof.
  intros H. unfold strip, strip_by, lstrip_by, rstrip_by.
  rewrite (dropwhile_all _ H). reflexivity.
Qed.

Lemma cons_first_chars (c : N) (ps : list pystr) (piece : pystr) (x : N) :
  In piece (cons_first c ps) -> In x piece ->
  x = c \/ exists q, In q ps /\ In x q.
Proof.
  destruct ps as [|q ps]; simpl.
  - intros [<-|[]] [<-|[]]. auto.
  - intros [<-|Hin] Hx.
    + destruct Hx as [<-|Hx]; [auto | right; exists q; auto].
    + right. exists piece. auto.
Qed.

Lemma split_from_chars (sep s : pystr) :
  forall skip piece x,
    In piece (split_from sep skip s) -> In x piece -> In x s.
Proof.
  induction s as [|c s IH]; intros skip piece x Hp Hx.
  - destruct Hp as [<-|[]]. destruct Hx.
  - cbn [split_from] in Hp. destruct skip as [|k].
    + destruct (startswith sep (c :: s)).
      * destruct Hp as [<-|Hp]; [destruct Hx|]. right. eauto.
      * destruct (cons_first_chars _ _ _ _ Hp Hx) as [->|(q & Hq & Hxq)];
          [left; reflexivity | right; eauto].
    + right. eauto.
Qed.

Lemma paragraphs_of_blank (text : pystr) :
  strip text = [] -> paragraphs text = [].
Proof.
  intros H. apply strip_by_nil in H. unfold paragraphs.
  replace (filter (fun p => truthy (strip p)) (split (lit "\n\n") text))
    with (@nil pystr); [reflexivity|].
  symmetry. unfold split.
  assert (Hall : forall piece,
             In piece (split_from (lit "\n\n") 0 text) ->
             truthy (strip piece) = false).
  { intros piece Hp. rewrite all_space_strip; [reflexivity|].
    apply Forall_forall. intros x Hx. rewrite Forall_forall in H.
    apply H. eapply split_from_chars; eauto. }
  induction (split_from (lit "\n\n") 0 text) as [|q qs IH]; [reflexivity|].
  simpl. rewrite (Hall q) by (left; reflexivity).
  apply IH. intros piece Hp. apply Hall. right. exact Hp.
Qed.

(** The last line of a text that does not end in a line boundary ends in
    the last character of the text. *)
Lemma splitlines_last (n : nat) :
  forall (u : pystr) (c : N),
    length u <= n -> islinebreak c = false ->
    exists ls l, splitlines (u ++ [c]) = ls ++ [l ++ [c]].
Proof.
  induction n as [|n IH]; intros u c Hlen Hc.
  - destruct u; [|simpl in Hlen; lia].
    exists [], []. simpl. rewrite Hc. reflexivity.
  - destruct u as [|a u].
    + exists [], []. simpl. rewrite Hc. reflexivity.
    + simpl in Hlen. cbn [app splitlines].
      destruct (islinebreak a) eqn:Ha.
      * destruct u as [|d u]; cbn [app].
        -- destruct ((a =? 13) && (c =? 10))%N eqn:E.
           ++ apply andb_prop in E. destruct E as [_ E].
              apply N.eqb_eq in E. subst c. discriminate Hc.
           ++ exists [[]], []. simpl. rewrite Hc. reflexivity.
        -- destruct ((a =? 13) && (d =? 10))%N.
           ++ destruct (IH u c ltac:(simpl in Hlen; lia) Hc) as (ls & l & E).
              exists ([] :: ls), l. rewrite E. reflexivity.
           ++ destruct (IH (d :: u) c ltac:(lia) Hc) as (ls & l & E).
              exists ([] :: ls), l. cbn [app] in E. rewrite E. reflexivity.
      * destruct (IH u c ltac:(lia) Hc) as (ls & l & E). rewrite E.
        destruct ls as [|x ls]; cbn [app cons_first].
        -- exists [], (a :: l). reflexivity.
        -- exists ((a :: x) :: ls), l. reflexivity.
Qed.

Lemma linebreak_is_space (c : N) : islinebreak c = true -> isspace c = true.
Proof.
  unfold islinebreak, isspace. intros H.
  repeat match type of H with
         | (_ || _)%bool = true => apply orb_prop in H; destruct H as [H|H]
         | (_ && _)%bool = true => apply andb_prop in H; destruct H as [? H]
         end;
  repeat match goal with
         | E : (_ <=? _)%N = true |- _ => apply N.leb_le in E
         | E : (_ =? _)%N = true |- _ => apply N.eqb_eq in E
         end;
  repeat match goal with
         | |- (_ || _)%bool = true => apply orb_true_iff
         | |- (_ && _)%bool = true => apply andb_true_iff
         end.
  all: try (subst c; reflexivity).
  all: repeat rewrite ?orb_true_iff, ?andb_true_iff, ?N.leb_le, ?N.eqb_eq;
       lia.
Qed.

(** Whatever a pattern matches, its continuation runs on a suffix of the
    text. *)
Lemma star_loop_suffix {X : Type}
  (body : pystr -> (pystr -> option X) -> option X)
  (k : pystr -> option X) :
  (forall s k' x, body s k' = Some x ->
                  exists pre s', s = pre ++ s' /\ k' s' = Some x) ->
  forall n s x, star_loop body k n s = Some x ->
                exists pre s', s = pre ++ s' /\ k s' = Some x.
Proof.
  intros Hbody. induction n as [|n IH]; intros s x H.
  - exists [], s. auto.
  - cbn [star_loop] in H.
    destruct (body s _) as [y|] eqn:E.
    + injection H as ->. apply Hbody in E. destruct E as (pre & s1 & -> & E).
      destruct (length s1 <? length (pre ++ s1)); [|discriminate E].
      apply IH in E. destruct E as (pre' & s' & -> & E).
      exists (pre ++ pre'), s'. rewrite app_assoc. auto.
    + exists [], s. auto.
Qed.

Lemma bt_suffix {X : Type} (r : re) :
  forall (s : pystr) (k : pystr -> option X) (x : X),
    bt r s k = Some x -> exists pre s', s = pre ++ s' /\ k s' = Some x.
Proof.
  induction r as [|p|a IHa b IHb|a IHa b IHb|a IHa]; intros s k x H;
    cbn [bt] in H.
  - exists [], s. auto.
  - destruct s as [|c s]; [discriminate|].
    destruct (p c); [|discriminate]. exists [c], s. auto.
  - apply IHa in H. destruct H as (pre & s1 & -> & H).
    apply IHb in H. destruct H as (pre' & s' & -> & H).
    exists (pre ++ pre'), s'. rewrite app_assoc. auto.
  - destruct (bt a s k) as [y|] eqn:E.
    + injection H as ->. apply IHa in E. exact E.
    + apply IHb in H. exact H.
  - eapply star_loop_suffix; [|exact H]. intros s0 k' y. apply IHa.
Qed.

Lemma greedy_some (p : N -> bool) (s : pystr) :
  greedy p (fun rest => Some rest) s = Some (dropwhile p s).
Proof.
  induction s as [|c s IH]; simpl; [reflexivity|].
  destruct (p c); [rewrite IH|]; reflexivity.
Qed.

Lemma suffix_has_last (l pre s : pystr) (c : N) :
  l ++ [c] = pre ++ s -> s <> [] -> In c s.
Proof.
  intros E Hs. destruct (exists_last Hs) as (s' & e & ->).
  rewrite app_assoc in E. apply app_inj_tail in E. destruct E as [_ ->].
  apply in_or_app. right. left. reflexivity.
Qed.

Lemma bt_seq {X : Type} (a b : re) (s : pystr) (k : pystr -> option X) :
  bt (Seq a b) s k = bt a s (fun s' => bt b s' k).
Proof. reflexivity. Qed.

Lemma bt_chr {X : Type} (p : N -> bool) (s : pystr)
  (k : pystr -> option X) :
  bt (Chr p) s k
  = match s with
    | c :: s' => if p c then k s' else None
    | [] => None
    end.
Proof. reflexivity. Qed.

(** What the marker pattern leaves of a line that ends in a visible
    character still holds that character. *)
Lemma marker_rest_keeps_last (l rest : pystr) (c : N) :
  isspace c = false ->
  re_match marker_re (l ++ [c]) = Some rest -> In c rest.
Proof.
  intros Hc H. unfold re_match, marker_re, Plus in H.
  rewrite bt_seq in H. apply bt_suffix in H.
  destruct H as (pre1 & s1 & E1 & H).
  rewrite bt_seq in H. apply bt_suffix in H.
  destruct H as (pre2 & s2 & -> & H).
  rewrite bt_seq in H. unfold ws in H. rewrite bt_chr in H.
  destruct s2 as [|d s3]; [discriminate|].
  destruct (isspace d) eqn:Hd; [|discriminate].
  rewrite bt_star_chr, greedy_some in H. injection H as <-.
  apply In_dropwhile; [|exact Hc].
  rewrite app_assoc in E1.
  assert (Hin : In c (d :: s3))
    by (eapply suffix_has_last; [exact E1 | discriminate]).
  destruct Hin as [->|Hin]; [congruence | exact Hin].
Qed.

Lemma heading_text_of_visible_line (l : pystr) (c : N) :
  isspace c = false -> truthy (heading_text (l ++ [c])) = true.
Proof.
  intros Hc. unfold heading_text, re_sub_anchored, strip.
  destruct (re_match marker_re (l ++ [c])) as [rest|] eqn:E.
  - apply strip_by_keeps with c; [|exact Hc].
    eapply marker_rest_keeps_last; eauto.
  - apply strip_by_keeps with c; [|exact Hc].
    apply in_or_app. right. left. reflexivity.
Qed.

Lemma flush_slide_emits (b : buffer) :
  title_truthy (current_title b) = true \/ current_lines b <> [] ->
  slides (flush_slide b) <> [].
Proof.
  intros H. unfold flush_slide. cbn [slides].
  replace (title_truthy (current_title b)
           || negb (length (current_lines b) =? 0)) with true.
  - intros E. apply app_eq_nil in E. destruct E as [_ E]. discriminate E.
  - symmetry. apply orb_true_iff. destruct H as [H|H]; [left; exact H|].
    right. destruct (current_lines b); [congruence | reflexivity].
Qed.

Lemma scan_of_visible_text (ls : list pystr) (l : pystr) (c : N) :
  isspace c = false -> slides (scan (ls ++ [l ++ [c]])) <> [].
Proof.
  intros Hc. unfold scan. rewrite fold_left_app. cbn [fold_left].
  set (b := fold_left scan_line ls (mkBuffer [] None [])).
  apply flush_slide_emits. unfold scan_line.
  destruct (is_heading (l ++ [c])).
  - left. cbn [current_title title_truthy].
    apply heading_text_of_visible_line. exact Hc.
  - replace (truthy (strip (l ++ [c]))) with true.
    + right. cbn [current_lines]. intros E. apply app_eq_nil in E.
      destruct E as [_ E]. discriminate E.
    + symmetry. apply strip_by_keeps with c; [|exact Hc].
      apply in_or_app. right. left. reflexivity.
Qed.

(** The heading scan comes back empty only for a blank text. *)
Lemma scan_empty_only_for_blank (text : pystr) :
  slides (scan (splitlines (strip text))) = [] -> strip text = [].
Proof.
  intros H. destruct (strip text) as [|a t] eqn:E; [reflexivity|].
  exfalso. destruct (@exists_last _ (a :: t)) as (u & c & Eu);
    [discriminate|].
  assert (Hc : isspace c = false).
  { apply strip_by_last with text u. unfold strip in E. congruence. }
  assert (Hlb : islinebreak c = false).
  { destruct (islinebreak c) eqn:Hlb; [|reflexivity].
    apply linebreak_is_space in Hlb. congruence. }
  destruct (@splitlines_last (length u) u c (Nat.le_refl _) Hlb)
    as (ls & l & El).
  rewrite Eu, El in H. exact (@scan_of_visible_text ls l c Hc H).
Qed.

(** So the paragraph path, taken only when the scan is empty, never yields
    a slide: no input gives a "Section N" slide. *)
Lemma paragraph_path_yields_nothing (text : pystr) (guidance : option pystr) :
  slides (scan (splitlines (strip text))) = [] ->
  deck_slides (_heuristic_split text guidance) = [].
Proof.
  intros H. unfold _heuristic_split. cbn [deck_slides]. rewrite H.
  rewrite paragraphs_of_blank by (apply scan_empty_only_for_blank; exact H).
  reflexivity.
Qed.

Lemma heuristic_slides_are_the_scan (text : pystr) (guidance : option pystr) :
  deck_slides (_heuristic_split text guidance)
  = firstn 20 (slides (scan (splitlines (strip text)))).
Proof.
  destruct (slides (scan (splitlines (strip text)))) as [|s0 rest] eqn:E.
  - apply paragraph_path_yields_nothing. exact E.
  - unfold _heuristic_split. cbn [deck_slides]. rewrite E. reflexivity.
Qed.

Lemma heuristic_at_most_20 (text : pystr) (guidance : option pystr) :
  length (deck_slides (_heuristic_split text guidance)) <= 20.
Proof.
  unfold _heuristic_split. cbn [deck_slides]. rewrite length_firstn. apply Nat.le_min_l.
Qed.

Lemma heuristic_ignores_guidance (text : pystr) (g1 g2 : option pystr) :
  _heuristic_split text g1 = _heuristic_split text g2.
Proof. reflexivity. Qed.

(** C3. The input ["# A\nline1\n## B\nline2\nline3"] gives exactly two
    slides, in this order: "A" with the bullet "line1", then "B" with the
    bullets "line2" and "line3". *)
Theorem heading_split_example :
  _heuristic_split (lit "# A\nline1\n## B\nline2\nline3") None
  = mkDeck []
      [ mkSlide (lit "A") [lit "line1"] [];
        mkSlide (lit "B") [lit "line2"; lit "line3"] [] ].
Proof. vm_compute. reflexivity. Qed.

(** C2. On the input ["---"] the heuristic returns one slide whose only
    bullet is the empty string: the line is not blank, so it is collected,
    and stripping the marker characters from it leaves nothing. *)
Theorem marker_only_line_gives_empty_bullet :
  _heuristic_split (lit "---") None
  = mkDeck [] [ mkSlide (lit "Slide") [ [] ] [] ].
Proof. vm_compute. reflexivity. Qed.

(** C4. On the input ["para one\n\npara two"] the heading scan already
    emits a slide, so the paragraph path is not taken: the result is a
    single slide titled "Slide" with both lines as bullets, and no
    "Section" slide. *)
Theorem no_heading_input_is_one_slide :
  _heuristic_split (lit "para one\n\npara two") None
  = mkDeck [] [ mkSlide (lit "Slide") [lit "para one"; lit "para two"] [] ].
Proof. vm_compute. reflexivity. Qed.



Lemma flush_untitled_empty (sl : list SlideSpec) :
  slides (flush_slide (mkBuffer sl (Some []) [])) = sl.
Proof. reflexivity. Qed.

(** C5, as the code has it.  A line that holds only the marker is not a
    heading and is collected as a content line.  A heading line whose text
    after the marker is blank does flush the current slide and open a new
    buffer, but never yields a slide with an empty title: the buffer is
    dropped when no content line follows, and is emitted under the title
    "Slide" when one does. *)
Theorem blank_heading_never_titles_a_slide :
  (forall (b : buffer) (pre : pystr),
      all_space pre ->
      is_heading (pre ++ lit "#") = false /\
      is_heading (pre ++ lit "##") = false /\
      current_lines (scan_line b (pre ++ lit "#"))
        = current_lines b ++ [lit "#"] /\
      slides (scan_line b (pre ++ lit "#")) = slides b)
  /\
  (forall (b : buffer) (ln : pystr),
      is_heading ln = true ->
      heading_text ln = [] ->
      slides (scan_line b ln) = slides (flush_slide b) /\
      current_title (scan_line b ln) = Some [] /\
      slides (flush_slide (scan_line b ln)) = slides (flush_slide b) /\
      forall c : pystr,
        is_heading c = false -> truthy (strip c) = true ->
        exists bs,
          slides (flush_slide (scan_line (scan_line b ln) c))
          = slides (flush_slide b) ++ [mkSlide (lit "Slide") bs []]).
Proof.
  split.
  - intros b pre Hpre.
    destruct (bare_marker_is_content b Hpre) as [E1 _].
    rewrite E1. cbn [current_lines slides].
    rewrite !is_heading_skips_blanks by assumption.
    repeat split; reflexivity.
  - intros b ln Hh Ht.
    assert (E : scan_line b ln
                = mkBuffer (slides (flush_slide b)) (Some []) []).
    { unfold scan_line. rewrite Hh. unfold heading_text in Ht. rewrite Ht.
      reflexivity. }
    rewrite E. cbn [slides current_title].
    repeat split; try reflexivity.
    intros c Hc Hs. unfold scan_line at 1. rewrite Hc, Hs.
    cbn [slides current_title current_lines app].
    unfold flush_slide.
    cbn [slides current_title current_lines title_truthy truthy length
         Nat.eqb negb orb title_or_default].
    eexists. reflexivity.
Qed.

Lemma blank_heading_witness :
  (exists bs,
      slides (flush_slide (scan_line (scan_line (mkBuffer [] None [lit "x"])
                                                (lit "#  "))
                                     (lit "y")))
      = slides (flush_slide (mkBuffer [] None [lit "x"]))
        ++ [mkSlide (lit "Slide") bs []])
  /\ is_heading (lit "\t #") = false.
Proof.
  destruct blank_heading_never_titles_a_slide as [Hbare Hblank].
  split.
  - destruct (Hblank (mkBuffer [] None [lit "x"]) (lit "#  ")
                     ltac:(reflexivity) ltac:(reflexivity))
      as (_ & _ & _ & Hnext).
    apply (Hnext (lit "y")); reflexivity.
  - apply (Hbare (mkBuffer [] None []) (lit "\t ")).
    repeat constructor.
Defined.

(** C5, as it is stated, fails: a bare ["#"] line after a slide "A" opens
    no slide, a ["#"] followed by blanks opens one that is titled "Slide",
    and before another heading it opens none.  No title is empty. *)
Lemma heading_without_text_counterexample :
  _heuristic_split (lit "# A\nx\n#\ny") None
    = mkDeck [] [ mkSlide (lit "A") [lit "x"; lit "#"; lit "y"] [] ]
  /\ _heuristic_split (lit "# A\nx\n#  \ny") None
    = mkDeck [] [ mkSlide (lit "A") [lit "x"] [];
                  mkSlide (lit "Slide") [lit "y"] [] ]
  /\ _heuristic_split (lit "# A\nx\n#  \n# B\ny") None
    = mkDeck [] [ mkSlide (lit "A") [lit "x"] [];
                  mkSlide (lit "B") [lit "y"] [] ]
  /\ is_heading (lit "#  ") = true
  /\ heading_text (lit "#  ") = [].
Proof. vm_compute. repeat split; reflexivity. Qed.

(** ** The renderer *)

Section RendererFacts.

Variable L : library.

Lemma bind_ok {A B : Type} (m : result A) (f : A -> result B) (b : B) :
  bind m f = Ok b -> exists a, m = Ok a /\ f a = Ok b.
Proof. destruct m as [a|e]; simpl; [eauto | discriminate]. Qed.

Lemma update_first_blobs (sel : shape -> bool) (ps : list pystr)
  (shs shs' : list shape) :
  update_first sel (with_text ps) shs = Some shs' ->
  picture_blobs (mkPSlide 0 shs' []) = picture_blobs (mkPSlide 0 shs []).
Proof.
  unfold picture_blobs. cbn [shapes]. revert shs'.
  induction shs as [|sh rest IH]; intros shs'; simpl; [discriminate|].
  destruct (sel sh).
  - intros [= <-]. destruct sh; reflexivity.
  - destruct (update_first sel (with_text ps) rest) as [rest'|];
      [|discriminate].
    intros [= <-]. simpl. rewrite (IH rest' eq_refl). reflexivity.
Qed.

Lemma picture_blobs_shapes (sl : slide) :
  picture_blobs sl = picture_blobs (mkPSlide 0 (shapes sl) []).
Proof. reflexivity. Qed.

Lemma add_slide_blobs (k : nat) (lay : layout) :
  picture_blobs (add_slide k lay) = [].
Proof.
  unfold picture_blobs, add_slide. cbn [shapes].
  induction lay as [|p lay IH]; simpl; auto.
Qed.

Lemma try_set_title_keeps (v : pyval) (sl : slide) :
  picture_blobs (try_set_title L v sl) = picture_blobs sl /\
  notes_text (try_set_title L v sl) = notes_text sl.
Proof.
  unfold try_set_title. destruct (text_arg L v) as [s|]; auto.
  destruct (update_first is_title (with_text [s]) (shapes sl)) eqn:E; auto.
  split; [|reflexivity].
  rewrite picture_blobs_shapes. cbn [shapes].
  rewrite (update_first_blobs _ _ _ E). reflexivity.
Qed.

Lemma write_bullets_keeps (bs : list pyval) (sl sl' : slide) :
  write_bullets L bs sl = Ok sl' ->
  picture_blobs sl' = picture_blobs sl /\ notes_text sl' = notes_text sl.
Proof.
  unfold write_bullets. destruct (existsb is_body (shapes sl)).
  - intros H. apply bind_ok in H. destruct H as (ps & _ & H).
    destruct (update_first is_body (with_text ps) (shapes sl)) eqn:E;
      injection H as <-; auto.
    split; [|reflexivity].
    rewrite picture_blobs_shapes. cbn [shapes].
    rewrite (update_first_blobs _ _ _ E). reflexivity.
  - intros [= <-]. auto.
Qed.

Lemma picture_blobs_app (k : nat) (shs : list shape) (n : pystr) (b : bytes) :
  picture_blobs (mkPSlide k (shs ++ [Picture (Ok b)]) n)
  = picture_blobs (mkPSlide k shs n) ++ [b].
Proof. unfold picture_blobs. cbn [shapes]. rewrite flat_map_app. reflexivity. Qed.

Lemma try_add_picture_blobs (blobs : list bytes) (k : nat) (sl : slide) :
  picture_blobs (try_add_picture L blobs k sl)
  = picture_blobs sl ++
    match pick_blob blobs k with
    | Some b => if picture_ok L b then [b] else []
    | None => []
    end
  /\ notes_text (try_add_picture L blobs k sl) = notes_text sl.
Proof.
  unfold try_add_picture. destruct blobs as [|b0 blobs].
  - unfold pick_blob. destruct (k mod length (@nil bytes));
      simpl; rewrite app_nil_r; auto.
  - destruct (pick_blob (b0 :: blobs) k) as [b|];
      [|rewrite app_nil_r; auto].
    destruct (picture_ok L b); [|rewrite app_nil_r; auto].
    split; [|reflexivity]. destruct sl. apply picture_blobs_app.
Qed.

Lemma try_set_notes_keeps (frame : bool) (n : pyval) (sl : slide) :
  picture_blobs (try_set_notes L frame n sl) = picture_blobs sl /\
  (py_truthy n = false -> notes_text (try_set_notes L frame n sl) = notes_text sl).
Proof.
  unfold try_set_notes. destruct (py_truthy n); auto.
  destruct frame; auto. destruct (text_arg L n); auto.
  split; [reflexivity | discriminate].
Qed.

(** One call of [add_bulleted_slide] that returns: one slide more, the
    counter one higher, the picture the one the counter points at. *)
Lemma add_bulleted_slide_ok (prs prs' : presentation) (idx : Z)
  (t : pyval) (bs : list pyval) (n : pyval) (blobs : list bytes) (k k' : nat) :
  add_bulleted_slide L prs idx t bs n blobs k = Ok (prs', k') ->
  k' = k + 1 /\
  slide_layouts prs' = slide_layouts prs /\
  notes_frame prs' = notes_frame prs /\
  exists sl,
    prs_slides prs' = prs_slides prs ++ [sl] /\
    picture_blobs sl =
      match pick_blob blobs k with
      | Some b => if picture_ok L b then [b] else []
      | None => []
      end /\
    (py_truthy n = false -> notes_text sl = []).
Proof.
  unfold add_bulleted_slide. intros H.
  apply bind_ok in H. destruct H as ([i lay] & _ & H).
  apply bind_ok in H. destruct H as (sl1 & Hw & H).
  injection H as <- <-. cbn [fst snd] in Hw.
  repeat split; try reflexivity.
  eexists. split; [reflexivity|].
  apply write_bullets_keeps in Hw. destruct Hw as [Hb Hn].
  destruct (try_set_title_keeps (or_empty_val t) (add_slide i lay)) as [Hb0 Hn0].
  rewrite Hb0, add_slide_blobs in Hb. rewrite Hn0 in Hn.
  destruct (try_set_notes_keeps (notes_frame prs) n
              (try_add_picture L blobs k sl1)) as [Hb2 Hn2].
  destruct (try_add_picture_blobs blobs k sl1) as [Hb1 Hn1].
  split.
  - rewrite Hb2, Hb1, Hb. reflexivity.
  - intros Hf. rewrite (Hn2 Hf), Hn1, Hn. reflexivity.
Qed.

End RendererFacts.

Section RenderLoop.

Variable L : library.
Variable idx : Z.
Variable blobs : list bytes.

Lemma render_slide_ok (prs prs' : presentation) (k k' : nat) (s : pyval) :
  render_slide L idx blobs (prs, k) s = Ok (prs', k') ->
  exists t bs n,
    dict_get s (lit "notes") (PStr []) = Ok n /\
    add_bulleted_slide L prs idx t bs n blobs k = Ok (prs', k').
Proof.
  unfold render_slide. intros H.
  apply bind_ok in H. destruct H as (t & _ & H).
  apply bind_ok in H. destruct H as (bl & _ & H).
  apply bind_ok in H. destruct H as (items & _ & H).
  apply bind_ok in H. destruct H as (n & Hn & H).
  cbn [fst snd] in H. eauto.
Qed.

(** The loop over the slides of the deck: what each pass adds. *)
Lemma render_loop_ok (items : list pyval) :
  forall (prs prs' : presentation) (k k' : nat),
    for_each (render_slide L idx blobs) items (prs, k) = Ok (prs', k') ->
    k' = k + length items /\
    exists new,
      prs_slides prs' = prs_slides prs ++ new /\
      length new = length items /\
      forall j sl s,
        nth_error new j = Some sl -> nth_error items j = Some s ->
        picture_blobs sl =
          match pick_blob blobs (k + j) with
          | Some b => if picture_ok L b then [b] else []
          | None => []
          end /\
        (dict_get s (lit "notes") (PStr []) = Ok (PStr []) ->
         notes_text sl = []).
Proof.
  induction items as [|s rest IH]; intros prs prs' k k' H.
  - injection H as <- <-. split; [simpl; lia|].
    exists []. rewrite app_nil_r.
    split; [reflexivity|]. split; [reflexivity|].
    intros [|j] sl s'; discriminate.
  - cbn [for_each] in H. apply bind_ok in H.
    destruct H as ([prs1 k1] & Hs & Hrest).
    apply render_slide_ok in Hs. destruct Hs as (t & bs & n & Hn & Hadd).
    apply add_bulleted_slide_ok in Hadd.
    destruct Hadd as (-> & _ & _ & sl0 & Hsl & Hpic & Hnotes).
    destruct (IH _ _ _ _ Hrest) as (-> & new & Hnew & Hlen & Hall).
    split; [simpl; lia|].
    exists (sl0 :: new). split; [|split].
    + rewrite Hnew, Hsl, <- app_assoc. reflexivity.
    + simpl. rewrite Hlen. reflexivity.
    + intros [|j] sl s' Hj Hi; cbn [nth_error] in Hj, Hi.
      * injection Hj as <-. injection Hi as <-.
        rewrite Nat.add_0_r. split; [exact Hpic|].
        intros E. apply Hnotes. rewrite E in Hn. injection Hn as <-.
        reflexivity.
      * replace (k + S j) with (k + 1 + j) by lia. eauto.
Qed.

End RenderLoop.

(** C7. Whenever the loop over the deck's slides runs to its end, the
    counter has advanced by one per slide, whether or not a picture was
    placed, and the slide of rank [j] (from 0) carries the pooled image
    [pool[(k + j) mod len(pool)]], or none when the pool is empty or the
    image is refused. *)
Theorem image_counter_round_robin (L : library) (idx : Z)
  (pool : list bytes) (items : list pyval) (prs prs' : presentation)
  (k k' : nat) :
  for_each (render_slide L idx pool) items (prs, k) = Ok (prs', k') ->
  k' = k + length items /\
  exists new,
    added_slides prs prs' new /\
    length new = length items /\
    forall j sl,
      nth_error new j = Some sl ->
      picture_blobs sl =
        match nth_error pool ((k + j) mod length pool) with
        | Some b => if picture_ok L b then [b] else []
        | None => []
        end.
Proof.
  intros H. apply render_loop_ok in H.
  destruct H as (Hk & new & Hnew & Hlen & Hall).
  split; [exact Hk|]. exists new.
  split; [exact Hnew|]. split; [exact Hlen|].
  intros j sl Hj.
  destruct (nth_error items j) as [s|] eqn:Hi.
  - apply (Hall j sl s Hj Hi).
  - apply nth_error_None in Hi.
    assert (j < length new) by (apply nth_error_Some; congruence). lia.
Qed.


Lemma image_counter_witness :
  exists prs',
    for_each (render_slide (Sample.library_opening Sample.two_layout_template)
                           1
                           (collect_template_images Sample.two_layout_template))
             [Sample.slide_T; Sample.slide_T; Sample.slide_T; Sample.slide_T;
              Sample.slide_T]
             (Sample.two_layout_template, 0)
    = Ok (prs', 5)
    /\ exists new,
         added_slides Sample.two_layout_template prs' new /\
         map picture_blobs new
         = [ [[0%N]]; [[1%N]]; [[0%N]]; [[1%N]]; [[0%N]] ].
Proof.
  destruct (for_each
              (render_slide (Sample.library_opening Sample.two_layout_template)
                            1
                            (collect_template_images
                               Sample.two_layout_template))
              [Sample.slide_T; Sample.slide_T; Sample.slide_T; Sample.slide_T;
               Sample.slide_T]
              (Sample.two_layout_template, 0)) as [[prs' k']|e] eqn:E;
    [|vm_compute in E; discriminate E].
  destruct (image_counter_round_robin _ _ _ _ _ _ E)
    as (Hk & new & Hnew & Hlen & Hall).
  cbn [length Nat.add] in Hk. subst k'.
  exists prs'. split; [reflexivity|].
  exists new. split; [exact Hnew|].
  destruct new as [|s0 [|s1 [|s2 [|s3 [|s4 [|s5 new]]]]]];
    try discriminate Hlen.
  cbn [map].
  rewrite (Hall 0 s0 eq_refl), (Hall 1 s1 eq_refl), (Hall 2 s2 eq_refl),
          (Hall 3 s3 eq_refl), (Hall 4 s4 eq_refl).
  reflexivity.
Defined.

Section RenderFacts.

Variable L : library.

Lemma try_title_slide_adds (t : pyval) (prs : presentation) :
  slide_layouts (try_title_slide L t prs) = slide_layouts prs /\
  exists head,
    prs_slides (try_title_slide L t prs) = prs_slides prs ++ head /\
    length head <= 1 /\
    Forall (fun sl => notes_text sl = [] /\ picture_blobs sl = []) head.
Proof.
  unfold try_title_slide.
  destruct (py_index (slide_layouts prs) 0) as [[i lay]|e].
  - cbn [fst snd]. split; [reflexivity|]. eexists. split; [reflexivity|].
    split; [simpl; lia|]. constructor; [|constructor].
    destruct (try_set_title_keeps L t (add_slide i lay)) as [Hb Hn].
    rewrite Hb, Hn, add_slide_blobs. split; reflexivity.
  - split; [reflexivity|]. exists []. rewrite app_nil_r.
    split; [reflexivity|]. split; [simpl; lia | constructor].
Qed.

(** What a rendering that returns went through. *)
Lemma render_ok (tb : bytes) (deck : pyval) (prefer : Z)
  (prs : presentation) :
  render L tb deck prefer = Ok prs ->
  exists prs0 t slides items k,
    Presentation L tb = Ok prs0 /\
    dict_get deck (lit "title") PNone = Ok t /\
    dict_get deck (lit "slides") (PList []) = Ok slides /\
    py_iter slides = Ok items /\
    let prs1 := if py_truthy t then try_title_slide L t prs0 else prs0 in
    for_each (render_slide L (default_layout_idx prs1 prefer)
                           (collect_template_images prs0))
             items (prs1, 0) = Ok (prs, k).
Proof.
  unfold render. intros H.
  apply bind_ok in H. destruct H as (prs0 & H0 & H).
  apply bind_ok in H. destruct H as (t & Ht & H).
  apply bind_ok in H. destruct H as (slides & Hs & H).
  apply bind_ok in H. destruct H as (items & Hi & H).
  apply bind_ok in H. destruct H as ([prs' k] & Hloop & H).
  injection H as <-.
  exists prs0, t, slides, items, k. auto.
Qed.

(** The slides of a rendering: those of the template, at most one title
    slide, and one slide per item of the deck, the one of rank [j] with the
    picture [pool[j mod len(pool)]]. *)
Lemma render_images_cycle (tb : bytes) (deck : pyval) (prefer : Z)
  (prs0 prs : presentation) :
  Presentation L tb = Ok prs0 ->
  render L tb deck prefer = Ok prs ->
  exists head new,
    prs_slides prs = prs_slides prs0 ++ head ++ new /\
    length head <= 1 /\
    forall j sl,
      nth_error new j = Some sl ->
      let pool := collect_template_images prs0 in
      picture_blobs sl =
        match nth_error pool (j mod length pool) with
        | Some b => if picture_ok L b then [b] else []
        | None => []
        end.
Proof.
  intros H0 H. apply render_ok in H.
  destruct H as (prs0' & t & slides & items & k & H0' & _ & _ & _ & Hloop).
  rewrite H0 in H0'. injection H0' as <-. cbn zeta in Hloop.
  apply render_loop_ok in Hloop.
  destruct Hloop as (_ & new & Hnew & Hlen & Hall0).
  assert (Hall : forall j sl,
             nth_error new j = Some sl ->
             picture_blobs sl =
               match pick_blob (collect_template_images prs0) j with
               | Some b => if picture_ok L b then [b] else []
               | None => []
               end).
  { intros j sl Hj. destruct (nth_error items j) as [s|] eqn:Hi.
    - apply (Hall0 j sl s Hj Hi).
    - apply nth_error_None in Hi.
      assert (j < length new) by (apply nth_error_Some; congruence). lia. }
  destruct (py_truthy t).
  - destruct (try_title_slide_adds t prs0) as (_ & head & Hhead & Hh & _).
    exists head, new. rewrite Hnew, Hhead, <- app_assoc.
    split; [reflexivity|]. split; [exact Hh|]. exact Hall.
  - exists [], new. split; [exact Hnew|]. split; [simpl; lia | exact Hall].
Qed.

End RenderFacts.

(** ** Notes suppression *)

Lemma lookup_dict_set (k : pystr) (v : pyval) (kvs : list (pystr * pyval)) :
  lookup k (dict_set k v kvs) = Some v.
Proof.
  unfold lookup. induction kvs as [|[k' v'] rest IH]; simpl.
  - rewrite str_eqb_refl. reflexivity.
  - destruct (str_eqb k' k) eqn:E; simpl; rewrite E; [reflexivity | exact IH].
Qed.

Lemma clear_notes_ok (s s' : pyval) :
  clear_notes s = Ok s' ->
  dict_get s' (lit "notes") (PStr []) = Ok (PStr []).
Proof.
  destruct s; try discriminate. intros [= <-].
  unfold dict_get. rewrite lookup_dict_set. reflexivity.
Qed.

Lemma clear_all_ok (items : list pyval) :
  forall acc out,
    for_each (fun acc s => s' <- clear_notes s ;; Ok (acc ++ [s'])) items acc
      = Ok out ->
    Forall (fun s => dict_get s (lit "notes") (PStr []) = Ok (PStr [])) acc ->
    Forall (fun s => dict_get s (lit "notes") (PStr []) = Ok (PStr [])) out.
Proof.
  induction items as [|s rest IH]; intros acc out H Hacc.
  - injection H as <-. exact Hacc.
  - cbn [for_each] in H. apply bind_ok in H. destruct H as (acc' & Hs & H).
    apply bind_ok in Hs. destruct Hs as (s' & Hc & Hs). injection Hs as <-.
    eapply IH; [exact H|]. apply Forall_app. split; [exact Hacc|].
    constructor; [|constructor]. eapply clear_notes_ok; exact Hc.
Qed.

(** After [suppress_notes] every slide the renderer will read has the
    empty string under ["notes"]. *)
Lemma suppress_notes_ok (deck deck' slides : pyval) (items : list pyval) :
  suppress_notes deck = Ok deck' ->
  dict_get deck' (lit "slides") (PList []) = Ok slides ->
  py_iter slides = Ok items ->
  Forall (fun s => dict_get s (lit "notes") (PStr []) = Ok (PStr [])) items.
Proof.
  unfold suppress_notes. intros H Hget Hiter.
  apply bind_ok in H. destruct H as (sl0 & Hsl0 & H).
  apply bind_ok in H. destruct H as (it0 & Hit0 & H).
  apply bind_ok in H. destruct H as (it' & Hclear & H).
  destruct deck as [| | | | |l|kvs]; try discriminate Hsl0.
  unfold dict_get in Hsl0.
  destruct (lookup (lit "slides") kvs) as [v|] eqn:Hl.
  - injection Hsl0 as <-.
    destruct v as [| | | |s|l|kvs']; try discriminate Hit0.
    + (* a string *)
      injection H as <-. injection Hit0 as <-.
      unfold dict_get in Hget. rewrite Hl in Hget. injection Hget as <-.
      destruct s as [|c s]; [|discriminate Hclear].
      injection Hiter as <-. constructor.
    + (* a list *)
      injection H as <-. injection Hit0 as <-.
      unfold dict_get in Hget. rewrite lookup_dict_set in Hget.
      injection Hget as <-. injection Hiter as <-.
      eapply clear_all_ok; [exact Hclear | constructor].
    + (* a dictionary *)
      injection H as <-. injection Hit0 as <-.
      unfold dict_get in Hget. rewrite Hl in Hget. injection Hget as <-.
      destruct kvs' as [|kv kvs']; [|discriminate Hclear].
      injection Hiter as <-. constructor.
  - injection Hsl0 as <-. injection Hit0 as <-. injection H as <-.
    unfold dict_get in Hget. rewrite Hl in Hget. injection Hget as <-.
    injection Hiter as <-. constructor.
Qed.

Section NotesOff.

Variable W : world.
Variable L : library.

(** Rendering a deck whose slides all have empty notes writes no notes. *)
Lemma render_without_notes (tb : bytes) (deck : pyval) (prefer : Z)
  (prs0 prs : presentation) :
  (forall slides items,
      dict_get deck (lit "slides") (PList []) = Ok slides ->
      py_iter slides = Ok items ->
      Forall (fun s => dict_get s (lit "notes") (PStr []) = Ok (PStr []))
             items) ->
  Presentation L tb = Ok prs0 ->
  render L tb deck prefer = Ok prs ->
  exists new,
    added_slides prs0 prs new /\ Forall (fun sl => notes_text sl = []) new.
Proof.
  intros Hdeck H0 H. apply render_ok in H.
  destruct H as (prs0' & t & slides & items & k & H0' & _ & Hs & Hi & Hloop).
  rewrite H0 in H0'. injection H0' as <-. cbn zeta in Hloop.
  specialize (Hdeck slides items Hs Hi).
  apply render_loop_ok in Hloop.
  destruct Hloop as (_ & new & Hnew & Hlen & Hall).
  assert (Hnotes : Forall (fun sl => notes_text sl = []) new).
  { apply Forall_forall. intros sl Hin.
    apply In_nth_error in Hin. destruct Hin as [j Hj].
    destruct (nth_error items j) as [s|] eqn:Hij.
    - destruct (Hall j sl s Hj Hij) as [_ Hn]. apply Hn.
      rewrite Forall_forall in Hdeck. apply Hdeck.
      eapply nth_error_In; eauto.
    - apply nth_error_None in Hij.
      assert (j < length new) by (apply nth_error_Some; congruence). lia. }
  unfold added_slides. destruct (py_truthy t).
  - destruct (try_title_slide_adds L t prs0)
      as (_ & head & Hhead & _ & Hh).
    exists (head ++ new). split.
    + rewrite Hnew, Hhead, <- app_assoc. reflexivity.
    + apply Forall_app. split; [|exact Hnotes].
      eapply Forall_impl; [|exact Hh]. intros sl [Hn _]. exact Hn.
  - exists new. auto.
Qed.

(** C8. When the caller has not asked for speaker notes, every slide that
    the rendering of the request's deck adds to the template has empty
    speaker notes, whatever the deck (the heuristic's or a provider's) had
    under ["notes"]. *)
Theorem notes_suppressed (tb : bytes) (text : pystr)
  (guidance provider api_key : option pystr) (speaker_notes : option bool)
  (deck : pyval) (prefer : Z) (prs0 prs : presentation) :
  notes_off speaker_notes = true ->
  deck_for_render W text guidance provider api_key speaker_notes = Ok deck ->
  Presentation L tb = Ok prs0 ->
  render L tb deck prefer = Ok prs ->
  exists new,
    added_slides prs0 prs new /\ Forall (fun sl => notes_text sl = []) new.
Proof.
  intros Hoff Hdeck H0 H. unfold deck_for_render in Hdeck.
  apply bind_ok in Hdeck. destruct Hdeck as (d0 & _ & Hsupp).
  rewrite Hoff in Hsupp.
  apply render_without_notes with tb deck prefer; auto.
  intros slides items Hs Hi. eapply suppress_notes_ok; eauto.
Qed.

End NotesOff.

Lemma notes_suppressed_witness :
  exists deck prs new,
    deck_for_render (Sample.world_answering
                       (Sample.openai_reply Sample.deck_with_notes))
                    (lit "ignored") None (Some (lit "OpenAI"))
                    (Some (lit "sk-test")) None
    = Ok deck /\
    render (Sample.library_opening Sample.two_layout_template) [] deck 1
    = Ok prs /\
    added_slides Sample.two_layout_template prs new /\
    length new = 1 /\
    Forall (fun sl => notes_text sl = []) new.
Proof.
  destruct (deck_for_render (Sample.world_answering
                               (Sample.openai_reply Sample.deck_with_notes))
                            (lit "ignored") None (Some (lit "OpenAI"))
                            (Some (lit "sk-test")) None)
    as [deck|e] eqn:Hdeck; [|vm_compute in Hdeck; discriminate Hdeck].
  destruct (render (Sample.library_opening Sample.two_layout_template)
                   [] deck 1) as [prs|e] eqn:Hprs.
  - destruct (notes_suppressed
                (Sample.world_answering
                   (Sample.openai_reply Sample.deck_with_notes))
                (Sample.library_opening Sample.two_layout_template) []
                (lit "ignored") None (Some (lit "OpenAI"))
                (Some (lit "sk-test")) None 1
                eq_refl Hdeck eq_refl Hprs) as (new & Hnew & Hall).
    exists deck, prs, new. repeat split; auto.
    vm_compute in Hdeck. injection Hdeck as <-.
    vm_compute in Hprs. injection Hprs as <-.
    unfold added_slides in Hnew. cbn [prs_slides Sample.two_layout_template] in Hnew.
    injection Hnew as <-. reflexivity.
  - vm_compute in Hdeck. injection Hdeck as <-.
    vm_compute in Hprs. discriminate Hprs.
Defined.

(** With notes asked for, the same answer of the model does reach the
    slide. *)
Lemma notes_kept_when_asked :
  exists deck prs,
    deck_for_render (Sample.world_answering
                       (Sample.openai_reply Sample.deck_with_notes))
                    (lit "ignored") None (Some (lit "OpenAI"))
                    (Some (lit "sk-test")) (Some true)
    = Ok deck /\
    render (Sample.library_opening Sample.two_layout_template) [] deck 1
    = Ok prs /\
    map notes_text (prs_slides prs) = [ []; lit "say this" ].
Proof. do 2 eexists. vm_compute. repeat split; reflexivity. Qed.

(** ** Layout selection *)

Lemma default_layout_idx_cases (prs : presentation) (prefer : Z) :
  default_layout_idx prs prefer
  = if (prefer <? Z.of_nat (length (slide_layouts prs)))%Z
    then prefer else 1%Z.
Proof. reflexivity. Qed.

(** With at most one layout the default preference 1 selects an index
    that does not exist. *)
Lemma fallback_layout_out_of_range (prs : presentation) :
  length (slide_layouts prs) <= 1 ->
  py_index (slide_layouts prs) (default_layout_idx prs 1) = Raise IndexError.
Proof.
  unfold default_layout_idx. destruct (slide_layouts prs) as [|a [|b l]];
    simpl length; intros H; try reflexivity; lia.
Qed.

(** With two layouts or more it selects the second one. *)
Lemma fallback_layout_in_range (prs : presentation) :
  2 <= length (slide_layouts prs) ->
  exists lay,
    py_index (slide_layouts prs) (default_layout_idx prs 1) = Ok (1, lay).
Proof.
  unfold default_layout_idx, py_index.
  destruct (slide_layouts prs) as [|a [|b l]]; simpl length; intros H;
    try lia.
  replace (1 <? Z.of_nat (S (S (length l))))%Z with true
    by (symmetry; apply Z.ltb_lt; lia).
  cbn [Z.ltb Z.compare].
  replace ((0 <=? 1) && (1 <? Z.of_nat (S (S (length l)))))%Z with true
    by (symmetry; apply andb_true_iff; split;
        [reflexivity | apply Z.ltb_lt; lia]).
  exists b. reflexivity.
Qed.

(** C6. A template that opens but has a single layout: the content layout
    index falls back to 1, which does not exist, and rendering a deck of
    one slide ends in [IndexError]; the request ends in a 500. *)
Theorem single_layout_template_is_fatal :
  default_layout_idx Sample.one_layout_template 1 = 1%Z /\
  build_presentation (Sample.library_opening Sample.one_layout_template) []
                     (PDict [(lit "slides", PList [Sample.slide_T])]) 1
  = Raise IndexError /\
  generate_pptx (Sample.world_answering (Raise ConnectionError))
                (Sample.library_opening Sample.one_layout_template)
                (lit "one.pptx") [] (lit "# T\nb") None None None None
  = HTTPException 500 (lit "Failed to build presentation: ").
Proof. vm_compute. repeat split; reflexivity. Qed.

(** ** The router *)

Lemma supported_structurer (name : pystr) :
  supported name = true <-> exists call, structurer_named name = Some call.
Proof.
  unfold supported, structurer_named. cbn [existsb].
  destruct (str_eqb name (lit "openai")); [split; eauto|].
  destruct (str_eqb name (lit "anthropic")); [split; eauto|].
  destruct (str_eqb name (lit "gemini")); [split; eauto|].
  split; [discriminate | intros [call H]; discriminate H].
Qed.

Lemma dispatch_structurer (W : world) (name key text : pystr)
  (guidance : option pystr) :
  dispatch W name key text guidance
  = match structurer_named name with
    | Some call => Some (call W key text guidance)
    | None => None
    end.
Proof.
  unfold dispatch, structurer_named.
  destruct (str_eqb name (lit "openai")); [reflexivity|].
  destruct (str_eqb name (lit "anthropic")); [reflexivity|].
  destruct (str_eqb name (lit "gemini")); reflexivity.
Qed.

(** The router never raises.  When the selected provider structurer
    raises, and when none is selected or no credential is given, it returns
    exactly the heuristic's outline; when the provider structurer returns a
    value, it returns that value as it is. *)
Lemma structure_slides_never_raises (W : world)
  (provider api_key : option pystr) (text : pystr)
  (guidance : option pystr) :
  (exists deck, structure_slides W provider api_key text guidance = Ok deck)
  /\
  (forall call e,
      structurer_named (normalised W provider) = Some call ->
      call W (or_empty api_key) text guidance = Raise e ->
      structure_slides W provider api_key text guidance
      = Ok (py_of_outline (_heuristic_split text guidance)))
  /\
  (structurer_named (normalised W provider) = None \/
   truthy (or_empty api_key) = false ->
   structure_slides W provider api_key text guidance
   = Ok (py_of_outline (_heuristic_split text guidance)))
  /\
  (forall call v,
      truthy (or_empty api_key) = true ->
      structurer_named (normalised W provider) = Some call ->
      call W (or_empty api_key) text guidance = Ok v ->
      structure_slides W provider api_key text guidance = Ok v).
Proof.
  unfold structure_slides, attempt. fold (normalised W provider).
  rewrite dispatch_structurer.
  pose proof (supported_structurer (normalised W provider)) as Hsup.
  repeat split.
  - destruct (truthy (or_empty api_key) && supported (normalised W provider));
      [|eauto].
    destruct (structurer_named (normalised W provider)) as [call|]; [|eauto].
    destruct (call W (or_empty api_key) text guidance); eauto.
  - intros call e Hcall Hraise. rewrite Hcall, Hraise.
    destruct (truthy (or_empty api_key) && supported (normalised W provider));
      reflexivity.
  - intros [Hnone | Hkey].
    + rewrite Hnone.
      destruct (truthy (or_empty api_key)
                && supported (normalised W provider)); reflexivity.
    + rewrite Hkey. reflexivity.
  - intros call v Hkey Hcall Hok. rewrite Hcall, Hok, Hkey.
    replace (supported (normalised W provider)) with true; [reflexivity|].
    symmetry. apply Hsup. eauto.
Qed.

(** A status 500 and a text that is no JSON both end in the heuristic's
    outline. *)
Lemma fallback_examples :
  structure_slides (Sample.world_answering
                      (Ok (mkResponse 500 (lit "Internal Server Error"))))
                   (Some (lit " OpenAI ")) (Some (lit "sk-test"))
                   (lit "# A\nline1") None
  = Ok (py_of_outline (mkDeck [] [mkSlide (lit "A") [lit "line1"] []]))
  /\
  structure_slides (Sample.world_answering
                      (Sample.anthropic_reply (lit "not json")))
                   (Some (lit "anthropic")) (Some (lit "sk-test"))
                   (lit "# A\nline1") None
  = Ok (py_of_outline (mkDeck [] [mkSlide (lit "A") [lit "line1"] []])).
Proof. vm_compute. split; reflexivity. Qed.

(** C1. When the model answers with the JSON array [[]], the provider
    structurer returns it and so does the router: the value is a list, not
    the dictionary of an outline and not the heuristic's outline, and the
    request dies on it with an [AttributeError]. *)
Theorem provider_value_is_not_checked :
  structure_slides (Sample.world_answering (Sample.openai_reply (lit "[]")))
                   (Some (lit "openai")) (Some (lit "sk-test"))
                   (lit "# A\nline1") None
  = Ok (PList []) /\
  is_dict (PList []) = false /\
  Ok (PList []) <> Ok (py_of_outline (_heuristic_split (lit "# A\nline1") None)) /\
  generate_pptx (Sample.world_answering (Sample.openai_reply (lit "[]")))
                (Sample.library_opening Sample.two_layout_template)
                (lit "t.pptx") [] (lit "# A\nline1") None
                (Some (lit "openai")) (Some (lit "sk-test")) None
  = Unhandled AttributeError.
Proof. vm_compute. repeat split; try reflexivity. discriminate. Qed.

(** C9. The same text, a JSON object with words around it, unwrapped from
    each provider's envelope: only [_call_openai] looks for the braces;
    [_call_anthropic] and [_call_gemini] raise. *)
Theorem only_openai_extracts_braces :
  _call_openai (Sample.world_answering
                  (Sample.openai_reply (lit "Here is the deck: {} Enjoy!")))
               (lit "sk-test") (lit "x") None
  = Ok (PDict []) /\
  _call_anthropic (Sample.world_answering
                     (Sample.anthropic_reply (lit "Here is the deck: {} Enjoy!")))
                  (lit "sk-test") (lit "x") None
  = Raise JSONDecodeError /\
  _call_gemini (Sample.world_answering
                  (Sample.gemini_reply (lit "Here is the deck: {} Enjoy!")))
               (lit "sk-test") (lit "x") None
  = Raise JSONDecodeError.
Proof. vm_compute. repeat split; reflexivity. Qed.

(** * Further properties *)

(** ** Which lines are headings *)

Lemma bt_alt {X : Type} (a b : re) (s : pystr) (k : pystr -> option X) :
  bt (Alt a b) s k
  = match bt a s k with
    | Some x => Some x
    | None => bt b s k
    end.
Proof. reflexivity. Qed.

Lemma bt_eps {X : Type} (s : pystr) (k : pystr -> option X) :
  bt Eps s k = k s.
Proof. reflexivity. Qed.

Lemma greedy_inv {X : Type} (p : N -> bool) (k : pystr -> option X)
  (s : pystr) (x : X) :
  greedy p k s = Some x ->
  exists pre s',
    s = pre ++ s' /\ Forall (fun c => p c = true) pre /\ k s' = Some x.
Proof.
  induction s as [|c s IH]; simpl; intros H.
  - exists [], []. auto.
  - destruct (p c) eqn:Hc.
    + destruct (greedy p k s) as [y|] eqn:E.
      * injection H as ->. destruct (IH eq_refl) as (pre & s' & -> & Hp & Hk).
        exists (c :: pre), s'. auto.
      * exists [], (c :: s). auto.
    + exists [], (c :: s). auto.
Qed.

Lemma greedy_succeeds {X : Type} (p : N -> bool) (k : pystr -> option X)
  (pre rest : pystr) (x : X) :
  Forall (fun c => p c = true) pre -> k rest = Some x ->
  exists y, greedy p k (pre ++ rest) = Some y.
Proof.
  intros Hpre Hk. induction Hpre as [|c pre Hc _ IH]; simpl.
  - destruct rest as [|d rest]; simpl.
    + eauto.
    + destruct (p d); [|eauto].
      destruct (greedy p k rest); eauto.
  - rewrite Hc. destruct IH as [y ->]. eauto.
Qed.

Lemma dropwhile_app_all (p : N -> bool) (pre s : pystr) :
  Forall (fun c => p c = true) pre -> dropwhile p (pre ++ s) = dropwhile p s.
Proof. induction 1 as [|c pre Hc _ IH]; simpl; [|rewrite Hc]; auto. Qed.

(** The blanks and the text of a heading: [\s+.+] after the marker. *)
Lemma blanks_then_text_inv (s r : pystr) :
  bt (Seq (Plus ws) (Plus dot)) s (fun rest => Some rest) = Some r ->
  exists sp c rest,
    s = sp ++ c :: rest /\ all_space sp /\ sp <> [] /\ c <> 10%N.
Proof.
  unfold Plus, ws, dot. rewrite !bt_seq, bt_chr.
  destruct s as [|w s]; [discriminate|].
  destruct (isspace w) eqn:Hw; [|discriminate].
  rewrite bt_star_chr. intros H. apply greedy_inv in H.
  destruct H as (sp & s' & -> & Hsp & H).
  cbv beta in H. rewrite ?bt_seq, bt_chr in H.
  destruct s' as [|c rest]; [discriminate|].
  destruct (negb (c =? 10)%N) eqn:Hc; [|discriminate].
  exists (w :: sp), c, rest. repeat split.
  - constructor; assumption.
  - discriminate.
  - intros ->. discriminate Hc.
Qed.

Lemma blanks_then_text (sp : pystr) (c : N) (rest : pystr) :
  all_space sp -> sp <> [] -> c <> 10%N ->
  exists r,
    bt (Seq (Plus ws) (Plus dot)) (sp ++ c :: rest) (fun rest => Some rest)
    = Some r.
Proof.
  intros Hsp Hne Hc. destruct sp as [|w sp]; [congruence|].
  inversion Hsp as [|? ? Hw Hsp']; subst.
  unfold Plus, ws, dot. rewrite !bt_seq. cbn [app]. rewrite bt_chr, Hw.
  rewrite bt_star_chr.
  apply greedy_succeeds with (x := dropwhile (fun c => negb (c =? 10)%N) rest);
    [exact Hsp'|].
  rewrite ?bt_seq, bt_chr.
  replace (negb (c =? 10)%N) with true
    by (symmetry; apply negb_true_iff, N.eqb_neq; exact Hc).
  rewrite bt_star_chr. apply greedy_some.
Qed.

Lemma heading_re_after_hash (R : re) (s : pystr) :
  bt (Seq (Star ws) (Seq (OneOrTwo hash) R)) (35%N :: s)
     (fun rest => Some rest)
  = match
      match s with
      | c :: s' =>
          if (35 =? c)%N then bt R s' (fun rest => Some rest) else None
      | [] => None
      end
    with
    | Some x => Some x
    | None => bt R s (fun rest => Some rest)
    end.
Proof.
  unfold ws. rewrite bt_seq_star_chr. reflexivity.
Qed.

Lemma heading_after_marker (s : pystr) :
  is_heading (35%N :: s) = true <->
  (exists r, bt (Seq (Plus ws) (Plus dot)) s (fun rest => Some rest) = Some r)
  \/ (exists s' r, s = 35%N :: s' /\
        bt (Seq (Plus ws) (Plus dot)) s' (fun rest => Some rest) = Some r).
Proof.
  unfold is_heading, re_match, heading_re.
  rewrite heading_re_after_hash.
  set (R := Seq (Plus ws) (Plus dot)).
  split.
  - intros H. destruct s as [|d s'].
    + destruct (bt R [] _) eqn:E; [eauto | discriminate].
    + destruct (35 =? d)%N eqn:Hd.
      * apply N.eqb_eq in Hd. subst d.
        destruct (bt R s' _) as [r|] eqn:E; [right; eauto|].
        destruct (bt R (35%N :: s') _) eqn:E2; [eauto | discriminate].
      * destruct (bt R (d :: s') _) eqn:E; [eauto | discriminate].
  - intros [[r Hr] | (s' & r & -> & Hr)].
    + rewrite Hr. destruct s as [|d s']; [reflexivity|].
      destruct (35 =? d)%N; [|reflexivity].
      destruct (bt R s' _); reflexivity.
    + change (35 =? 35)%N with true. cbv iota. rewrite Hr. reflexivity.
Qed.

Lemma not_heading_without_hash (s : pystr) :
  match s with 35%N :: _ => False | _ => True end ->
  (forall c t, s = c :: t -> isspace c = false) ->
  is_heading s = false.
Proof.
  intros Hh Hs. unfold is_heading, re_match, heading_re, ws.
  rewrite bt_seq_star_chr. destruct s as [|c t]; [reflexivity|].
  cbn [greedy]. rewrite (Hs c t eq_refl).
  unfold OneOrTwo, hash. rewrite !bt_seq, bt_chr.
  destruct (35 =? c)%N eqn:E; [|reflexivity].
  apply N.eqb_eq in E. subst c. destruct Hh.
Qed.

(** X1. A line is taken as a heading exactly when it consists of optional
    blanks, one or two hashes, at least one blank, and at least one more
    character that is not a newline: three hashes or more, or a hash
    directly followed by text, do not make a heading. *)
Theorem is_heading_iff (ln : pystr) :
  is_heading ln = true <-> heading_shape ln.
Proof.
  split.
  - intros H.
    assert (Hd : exists pre s, ln = pre ++ s /\ all_space pre /\
                               is_heading s = true /\
                               (forall c t, s = c :: t -> isspace c = false)).
    { clear -H. revert H. induction ln as [|c ln IH]; intros H.
      - discriminate H.
      - destruct (isspace c) eqn:Hc.
        + change (c :: ln) with ([c] ++ ln) in H.
          rewrite is_heading_skips_blanks in H by (repeat constructor; exact Hc).
          destruct (IH H) as (pre & s & -> & Hpre & Hs & Hfirst).
          exists (c :: pre), s. repeat split; auto. constructor; auto.
        + exists [], (c :: ln). repeat split; auto.
          * constructor.
          * intros c' t [= <- _]. exact Hc. }
    destruct Hd as (pre & s & -> & Hpre & Hs & Hfirst).
    destruct s as [|c s].
    { discriminate Hs. }
    destruct (N.eq_dec c 35) as [->|Hn].
    + apply heading_after_marker in Hs.
      destruct Hs as [[r Hr] | (s' & r & -> & Hr)];
        apply blanks_then_text_inv in Hr;
        destruct Hr as (sp & d & rest & -> & Hsp & Hne & Hd).
      * apply heading_parts with pre (lit "#") sp d rest; auto.
      * apply heading_parts with pre (lit "##") sp d rest; auto.
    + rewrite not_heading_without_hash in Hs; [discriminate Hs| |exact Hfirst].
      destruct c as [|p]; [exact I|].
      do 6 (destruct p as [p|p|]; try exact I). exfalso. apply Hn. reflexivity.
  - intros [pre h sp c rest Hpre Hh Hsp Hne Hc ->].
    rewrite is_heading_skips_blanks by exact Hpre.
    destruct (blanks_then_text rest Hsp Hne Hc) as [r Hr].
    destruct Hh as [-> | ->]; cbn [lit app].
    + change (N_of_ascii "#") with 35%N.
      apply heading_after_marker. left. eauto.
    + change (N_of_ascii "#") with 35%N.
      apply heading_after_marker. right. eauto.
Qed.

(** ** The title of a heading *)

Lemma plus_ws_some (w : N) (s : pystr) :
  isspace w = true ->
  bt (Plus ws) (w :: s) (fun rest => Some rest) = Some (dropwhile isspace s).
Proof.
  intros Hw. unfold Plus, ws. rewrite bt_seq, bt_chr, Hw.
  rewrite bt_star_chr. apply greedy_some.
Qed.

Lemma marker_skips_blanks (pre s : pystr) :
  all_space pre -> re_match marker_re (pre ++ s) = re_match marker_re s.
Proof.
  intros Hpre. unfold re_match, marker_re, ws.
  rewrite !bt_seq_star_chr. apply greedy_prefix; auto.
  intros c t Hc. unfold OneOrTwo, hash. rewrite !bt_seq, bt_chr.
  rewrite (space_is_not_hash c Hc). reflexivity.
Qed.

Lemma strip_dropwhile (s : pystr) : strip (dropwhile isspace s) = strip s.
Proof.
  unfold strip, strip_by, lstrip_by. f_equal.
  induction s as [|c s IH]; simpl; [reflexivity|].
  destruct (isspace c) eqn:E; [exact IH|]. simpl. rewrite E. reflexivity.
Qed.

(** X2. The title a heading line contributes is the text after its marker
    and the blanks that follow it, with the whitespace at both ends
    removed; neither the hashes nor the indentation reach the title. *)
Theorem heading_text_is_stripped_rest (pre h sp rest : pystr) :
  all_space pre ->
  h = lit "#" \/ h = lit "##" ->
  all_space sp -> sp <> [] ->
  heading_text (pre ++ h ++ sp ++ rest) = strip rest.
Proof.
  intros Hpre Hh Hsp Hne. unfold heading_text, re_sub_anchored.
  rewrite marker_skips_blanks by exact Hpre.
  destruct sp as [|w sp]; [congruence|].
  inversion Hsp as [|? ? Hw Hsp']; subst.
  assert (E : re_match marker_re (h ++ (w :: sp) ++ rest)
              = Some (dropwhile isspace rest)).
  { unfold re_match, marker_re.
    destruct Hh as [-> | ->]; cbn [lit app];
      change (N_of_ascii "#") with 35%N;
      rewrite heading_re_after_hash.
    - rewrite (space_is_not_hash w Hw), plus_ws_some by exact Hw.
      rewrite dropwhile_app_all by exact Hsp'. reflexivity.
    - change (35 =? 35)%N with true. cbv iota.
      rewrite plus_ws_some by exact Hw.
      rewrite dropwhile_app_all by exact Hsp'. reflexivity. }
  rewrite E. apply strip_dropwhile.
Qed.

Lemma heading_text_witness :
  heading_text (lit "  " ++ lit "##" ++ lit " " ++ lit "Results \t")
  = strip (lit "Results \t").
Proof.
  apply heading_text_is_stripped_rest.
  - repeat constructor.
  - right. reflexivity.
  - repeat constructor.
  - discriminate.
Defined.

(** ** [strip] is idempotent *)

Lemma dropwhile_suffix (p : N -> bool) (s : pystr) :
  exists pre, s = pre ++ dropwhile p s.
Proof.
  induction s as [|c s [pre IH]]; simpl.
  - exists []. reflexivity.
  - destruct (p c).
    + exists (c :: pre). simpl. rewrite <- IH. reflexivity.
    + exists []. reflexivity.
Qed.

Lemma dropwhile_idem (p : N -> bool) (s : pystr) :
  dropwhile p (dropwhile p s) = dropwhile p s.
Proof.
  destruct (dropwhile p s) as [|c t] eqn:E; [reflexivity|].
  apply dropwhile_head in E. simpl. rewrite E. reflexivity.
Qed.

Lemma strip_by_idem (p : N -> bool) (s : pystr) :
  strip_by p (strip_by p s) = strip_by p s.
Proof.
  unfold strip_by, lstrip_by, rstrip_by.
  set (a := dropwhile p s).
  set (d := dropwhile p (rev a)).
  assert (Hhead : dropwhile p (rev d) = rev d).
  { destruct (dropwhile_suffix p (rev a)) as [l Hl]. fold d in Hl.
    apply (f_equal (@rev N)) in Hl. rewrite rev_involutive, rev_app_distr in Hl.
    destruct (rev d) as [|x t] eqn:Ed; [reflexivity|].
    simpl in Hl. unfold a in Hl.
    destruct (dropwhile p s) as [|y u] eqn:Ea; [discriminate Hl|].
    injection Hl as -> _. apply dropwhile_head in Ea.
    simpl. rewrite Ea. reflexivity. }
  rewrite Hhead, rev_involutive. unfold d. rewrite dropwhile_idem.
  reflexivity.
Qed.

Lemma strip_idem (s : pystr) : strip (strip s) = strip s.
Proof. apply strip_by_idem. Qed.

(** ** What the heading scan emits *)

Lemma firstn_8_twice {A : Type} (bs : list A) :
  firstn 8 (if 8 <? length bs then firstn 8 bs else bs) = firstn 8 bs.
Proof.
  destruct (8 <? length bs); [|reflexivity].
  rewrite firstn_firstn. reflexivity.
Qed.

(** [flush_slide] without its double truncation. *)
Lemma flush_slide_eq (b : buffer) :
  flush_slide b
  = mkBuffer
      (if title_truthy (current_title b)
          || negb (length (current_lines b) =? 0)
       then slides b ++
            [ mkSlide (title_or_default (current_title b))
                      (firstn 8 (map bullet_of
                                     (filter (fun ln => truthy (strip ln))
                                             (current_lines b))))
                      [] ]
       else slides b)
      None [].
Proof.
  unfold flush_slide.
  destruct (title_truthy (current_title b)
            || negb (length (current_lines b) =? 0)); [|reflexivity].
  rewrite firstn_8_twice. reflexivity.
Qed.

Section ScanInvariant.

Variable lines : list pystr.
Variable P : SlideSpec -> Prop.
Variable T : option pystr -> Prop.

Hypothesis T_none : T None.
Hypothesis T_heading :
  forall ln, In ln lines -> is_heading ln = true -> T (Some (heading_text ln)).
Hypothesis P_flush :
  forall t ls,
    T t ->
    P (mkSlide (title_or_default t)
               (firstn 8 (map bullet_of
                              (filter (fun ln => truthy (strip ln)) ls)))
               []).

Lemma flush_slide_keeps (b : buffer) :
  Forall P (slides b) -> T (current_title b) ->
  Forall P (slides (flush_slide b)) /\ T (current_title (flush_slide b)).
Proof.
  intros Hs Ht. rewrite flush_slide_eq. cbn [slides current_title].
  split; [|exact T_none].
  destruct (title_truthy (current_title b)
            || negb (length (current_lines b) =? 0)); [|exact Hs].
  apply Forall_app. split; [exact Hs|]. constructor; [|constructor].
  apply P_flush. exact Ht.
Qed.

Lemma fold_scan_keeps (ls : list pystr) (b : buffer) :
  incl ls lines -> Forall P (slides b) -> T (current_title b) ->
  Forall P (slides (fold_left scan_line ls b))
  /\ T (current_title (fold_left scan_line ls b)).
Proof.
  revert b. induction ls as [|ln ls IH]; intros b Hincl Hs Ht; [auto|].
  cbn [fold_left]. apply IH.
  - intros x Hx. apply Hincl. right. exact Hx.
  - unfold scan_line. destruct (is_heading ln).
    + cbn [slides]. apply flush_slide_keeps; assumption.
    + destruct (truthy (strip ln)); assumption.
  - unfold scan_line. destruct (is_heading ln) eqn:Hh.
    + cbn [current_title]. apply T_heading; [|exact Hh].
      apply Hincl. left. reflexivity.
    + destruct (truthy (strip ln)); assumption.
Qed.

Lemma scan_keeps : Forall P (slides (scan lines)).
Proof.
  unfold scan.
  destruct (@fold_scan_keeps lines (mkBuffer [] None []))
    as [Hs Ht]; [apply incl_refl | constructor | exact T_none |].
  apply flush_slide_keeps; assumption.
Qed.

End ScanInvariant.

(** X3. The heuristic's deck has no title and at most 20 slides; every
    slide has at most 8 bullets and empty notes. *)
Theorem heuristic_deck_bounds (text : pystr) (guidance : option pystr) :
  deck_title (_heuristic_split text guidance) = [] /\
  length (deck_slides (_heuristic_split text guidance)) <= 20 /\
  Forall (fun s => length (bullets s) <= 8 /\ notes s = [])
         (deck_slides (_heuristic_split text guidance)).
Proof.
  split; [reflexivity|]. split; [apply heuristic_at_most_20|].
  rewrite heuristic_slides_are_the_scan. apply Forall_firstn.
  apply scan_keeps with (T := fun _ => True); auto.
  intros t ls _. cbn [bullets notes]. split; [|reflexivity].
  rewrite length_firstn. apply Nat.le_min_l.
Qed.

(** X4. Every title and every bullet of the heuristic's deck comes out with
    no whitespace at either end. *)
Theorem heuristic_texts_are_stripped (text : pystr)
  (guidance : option pystr) :
  Forall (fun s => stripped (title s) /\ Forall stripped (bullets s))
         (deck_slides (_heuristic_split text guidance)).
Proof.
  rewrite heuristic_slides_are_the_scan. apply Forall_firstn.
  apply scan_keeps
    with (T := fun t => forall s, t = Some s -> stripped s).
  - discriminate.
  - intros ln _ _ s [= <-]. apply strip_idem.
  - intros t ls Ht. cbn [title bullets]. split.
    + destruct t as [[|c s]|]; try reflexivity. apply Ht. reflexivity.
    + apply Forall_firstn. apply Forall_forall. intros b Hb.
      apply in_map_iff in Hb. destruct Hb as (ln & <- & _). apply strip_idem.
Qed.

Lemma heuristic_deck_eq (text : pystr) (guidance : option pystr) :
  _heuristic_split text guidance
  = mkDeck [] (firstn 20 (slides (scan (splitlines (strip text))))).
Proof.
  pose proof (heuristic_slides_are_the_scan text guidance) as H.
  destruct (_heuristic_split text guidance) as [t sl] eqn:E.
  assert (Ht : t = []).
  { change t with (deck_title (mkDeck t sl)). rewrite <- E. reflexivity. }
  cbn [deck_slides] in H. subst. reflexivity.
Qed.

(** X5. The paragraph branch never contributes: for every text the deck is
    made of the first 20 slides of the heading scan, so no input is cut
    into "Section N" slides. *)
Theorem heuristic_is_the_heading_scan (text : pystr)
  (guidance : option pystr) :
  _heuristic_split text guidance
  = mkDeck [] (firstn 20 (slides (scan (splitlines (strip text))))).
Proof. apply heuristic_deck_eq. Qed.

Lemma scan_of_nothing_blank :
  forall text, strip text = [] -> slides (scan (splitlines (strip text))) = [].
Proof. intros text ->. reflexivity. Qed.

(** X6. The heuristic returns a deck without slides exactly for a text
    that is blank (empty or whitespace only): any visible character gives
    at least one slide. *)
Theorem heuristic_empty_iff_blank (text : pystr) (guidance : option pystr) :
  deck_slides (_heuristic_split text guidance) = [] <-> all_space text.
Proof.
  rewrite heuristic_slides_are_the_scan. split.
  - intros H. apply strip_by_nil. apply scan_empty_only_for_blank.
    destruct (slides (scan (splitlines (strip text)))); [reflexivity|].
    discriminate H.
  - intros H. rewrite scan_of_nothing_blank; [reflexivity|].
    apply all_space_strip. exact H.
Qed.

(** ** A text without headings *)

Lemma fold_scan_no_heading (ls : list pystr) (b : buffer) :
  Forall (fun ln => is_heading ln = false) ls ->
  fold_left scan_line ls b
  = mkBuffer (slides b) (current_title b)
             (current_lines b
              ++ map strip (filter (fun ln => truthy (strip ln)) ls)).
Proof.
  intros H. revert b. induction H as [|ln ls Hln _ IH]; intros b.
  - simpl. rewrite app_nil_r. destruct b; reflexivity.
  - cbn [fold_left]. rewrite IH. unfold scan_line. rewrite Hln.
    cbn [filter]. destruct (truthy (strip ln)).
    + cbn [slides current_title current_lines map].
      rewrite <- app_assoc. reflexivity.
    + reflexivity.
Qed.

Lemma filter_all {A : Type} (f : A -> bool) (l : list A) :
  Forall (fun x => f x = true) l -> filter f l = l.
Proof. induction 1 as [|x l Hx _ IH]; simpl; [|rewrite Hx, IH]; auto. Qed.

(** X7. A text that is not blank and has no heading line becomes exactly
    one slide, titled "Slide": blank lines, and so paragraph breaks, are
    passed over, and only the first 8 non-blank lines are kept as
    bullets. *)
Theorem no_heading_gives_one_slide (text : pystr)
  (guidance : option pystr) :
  Forall (fun ln => is_heading ln = false) (splitlines (strip text)) ->
  ~ all_space text ->
  _heuristic_split text guidance
  = mkDeck []
      [ mkSlide (lit "Slide")
          (firstn 8
             (map (fun ln => bullet_of (strip ln))
                  (filter (fun ln => truthy (strip ln))
                          (splitlines (strip text)))))
          [] ].
Proof.
  intros Hno Hvis. rewrite (heuristic_deck_eq text guidance).
  assert (Hne : slides (scan (splitlines (strip text))) <> []).
  { intros E. apply Hvis. apply strip_by_nil.
    apply scan_empty_only_for_blank. exact E. }
  revert Hne. unfold scan. rewrite fold_scan_no_heading by exact Hno.
  cbn [slides current_title current_lines app]. rewrite flush_slide_eq.
  cbn [slides current_title current_lines title_truthy orb].
  destruct (map strip _) as [|l ls] eqn:E; [intros H; destruct H; reflexivity|].
  intros _. cbn [length Nat.eqb negb app firstn title_or_default].
  rewrite <- E. rewrite filter_all.
  - rewrite map_map. reflexivity.
  - apply Forall_forall. intros x Hx. apply in_map_iff in Hx.
    destruct Hx as (ln & <- & Hln). apply filter_In in Hln.
    rewrite strip_idem. apply Hln.
Qed.

Lemma no_heading_witness :
  _heuristic_split (lit "one\n\n- two\n  three  ") None
  = mkDeck []
      [ mkSlide (lit "Slide")
          (firstn 8
             (map (fun ln => bullet_of (strip ln))
                  (filter (fun ln => truthy (strip ln))
                          (splitlines (strip (lit "one\n\n- two\n  three  "))))))
          [] ].
Proof.
  apply no_heading_gives_one_slide.
  - vm_compute. repeat constructor.
  - intros H. inversion H as [|? ? Hc _]. discriminate Hc.
Defined.

(** X8. The deck never has more slides than the text has heading lines,
    plus one for the lines before the first heading. *)
Theorem slides_bounded_by_headings (text : pystr) (guidance : option pystr) :
  length (deck_slides (_heuristic_split text guidance))
  <= S (heading_count (splitlines (strip text))).
Proof.
  rewrite heuristic_slides_are_the_scan, length_firstn.
  etransitivity; [apply Nat.le_min_r|].
  unfold scan, heading_count.
  assert (Hflush : forall b, length (slides (flush_slide b))
                             <= S (length (slides b))).
  { intros b. rewrite flush_slide_eq. cbn [slides].
    destruct (title_truthy (current_title b)
              || negb (length (current_lines b) =? 0)).
    - rewrite length_app. simpl. lia.
    - lia. }
  assert (H : forall ls b,
             length (slides (flush_slide (fold_left scan_line ls b)))
             <= S (length (slides b) + length (filter is_heading ls))).
  { induction ls as [|ln ls IH]; intros b.
    - simpl. rewrite Nat.add_0_r. apply Hflush.
    - cbn [fold_left filter]. etransitivity; [apply IH|].
      unfold scan_line. destruct (is_heading ln).
      + cbn [slides length]. specialize (Hflush b). lia.
      + destruct (truthy (strip ln)); cbn [slides]; lia. }
  apply (H _ (mkBuffer [] None [])).
Qed.

(** ** The router *)

(** X9. Whenever the provider structurer selected by the normalised name
    raises, whatever the exception, the router returns the heuristic's
    outline of the same text. *)
Theorem router_falls_back_on_raise (W : world)
  (provider api_key : option pystr) (text : pystr)
  (guidance : option pystr)
  (call : world -> pystr -> pystr -> option pystr -> result pyval)
  (e : exn) :
  structurer_named (normalised W provider) = Some call ->
  call W (or_empty api_key) text guidance = Raise e ->
  structure_slides W provider api_key text guidance
  = Ok (py_of_outline (_heuristic_split text guidance)).
Proof.
  intros Hcall Hraise.
  destruct (structure_slides_never_raises W provider api_key text guidance)
    as (_ & H & _).
  exact (H call e Hcall Hraise).
Qed.

Lemma router_falls_back_witness :
  structure_slides (Sample.world_answering
                      (Ok (mkResponse 500 (lit "Internal Server Error"))))
                   (Some (lit " OpenAI ")) (Some (lit "sk-test"))
                   (lit "# A\nline1") None
  = Ok (py_of_outline (_heuristic_split (lit "# A\nline1") None)).
Proof.
  apply router_falls_back_on_raise with _call_openai HTTPError; reflexivity.
Defined.

(** X10. Without a credential (none, or the empty string), or with a
    provider name that is none of the three supported ones, the router
    returns the heuristic's outline whatever the network would answer. *)
Theorem router_without_provider (W : world)
  (provider api_key : option pystr) (text : pystr)
  (guidance : option pystr) :
  truthy (or_empty api_key) = false \/
  structurer_named (normalised W provider) = None ->
  structure_slides W provider api_key text guidance
  = Ok (py_of_outline (_heuristic_split text guidance)).
Proof.
  intros H.
  destruct (structure_slides_never_raises W provider api_key text guidance)
    as (_ & _ & Hno & _).
  apply Hno. tauto.
Qed.

Lemma router_without_provider_witness :
  structure_slides (Sample.world_answering
                      (Sample.openai_reply Sample.deck_with_notes))
                   (Some (lit "openai")) (Some []) (lit "# A\nline1") None
  = Ok (py_of_outline (_heuristic_split (lit "# A\nline1") None))
  /\
  structure_slides (Sample.world_answering
                      (Sample.openai_reply Sample.deck_with_notes))
                   (Some (lit "mistral")) (Some (lit "sk-test"))
                   (lit "# A\nline1") None
  = Ok (py_of_outline (_heuristic_split (lit "# A\nline1") None)).
Proof.
  split; apply router_without_provider.
  - left. reflexivity.
  - right. reflexivity.
Defined.

(** X11. With a credential, when the selected provider structurer returns
    a value, the router returns that very value: the heuristic is not
    consulted and nothing is changed or checked. *)
Theorem router_returns_provider_value (W : world)
  (provider api_key : option pystr) (text : pystr)
  (guidance : option pystr)
  (call : world -> pystr -> pystr -> option pystr -> result pyval)
  (v : pyval) :
  truthy (or_empty api_key) = true ->
  structurer_named (normalised W provider) = Some call ->
  call W (or_empty api_key) text guidance = Ok v ->
  structure_slides W provider api_key text guidance = Ok v.
Proof.
  intros Hkey Hcall Hok.
  destruct (structure_slides_never_raises W provider api_key text guidance)
    as (_ & _ & _ & H).
  exact (H call v Hkey Hcall Hok).
Qed.

Lemma router_returns_provider_value_witness :
  structure_slides (Sample.world_answering
                      (Sample.gemini_reply Sample.deck_with_notes))
                   (Some (lit "Gemini")) (Some (lit "sk-test"))
                   (lit "# A\nline1") None
  = Ok (PDict [(lit "slides",
                PList [PDict [(lit "title", PStr (lit "T"));
                              (lit "bullets", PList [PStr (lit "b")]);
                              (lit "notes", PStr (lit "say this"))]])]).
Proof.
  apply router_returns_provider_value with _call_gemini; reflexivity.
Defined.

(** ** The provider structurers *)

(** X12. When the request fails in transport, or is answered with a status
    from 400 to 599, each of the three provider structurers raises that
    failure, whatever the body of the answer holds. *)
Theorem provider_calls_raise_http_failure (W : world)
  (answer : result response) (e : exn)
  (api_key text : pystr) (guidance : option pystr) :
  (forall req, requests_post W req = answer) ->
  http_failure answer = Some e ->
  _call_openai W api_key text guidance = Raise e /\
  _call_anthropic W api_key text guidance = Raise e /\
  _call_gemini W api_key text guidance = Raise e.
Proof.
  intros Hpost Hfail. unfold _call_openai, _call_anthropic, _call_gemini.
  rewrite !Hpost. destruct answer as [resp|e'].
  - cbn [bind]. unfold http_failure in Hfail.
    destruct (raise_for_status resp) as [u|e']; [discriminate Hfail|].
    injection Hfail as ->. repeat split; reflexivity.
  - injection Hfail as ->. repeat split; reflexivity.
Qed.

Lemma provider_calls_raise_witness :
  _call_openai (Sample.world_answering
                  (Ok (mkResponse 429 (lit "{\x22error\x22:{}}"))))
               (lit "sk-test") (lit "x") None = Raise HTTPError /\
  _call_anthropic (Sample.world_answering
                     (Ok (mkResponse 429 (lit "{\x22error\x22:{}}"))))
                  (lit "sk-test") (lit "x") None = Raise HTTPError /\
  _call_gemini (Sample.world_answering
                  (Ok (mkResponse 429 (lit "{\x22error\x22:{}}"))))
               (lit "sk-test") (lit "x") None = Raise HTTPError.
Proof.
  apply provider_calls_raise_http_failure
    with (answer := Ok (mkResponse 429 (lit "{\x22error\x22:{}}")));
    reflexivity.
Defined.

(** ** The brace pattern of [_call_openai] *)

Lemma close_brace_none (s : pystr) :
  ~ In 125%N s ->
  greedy (fun _ => true)
         (fun s2 => bt (Chr (N.eqb 125)) s2 (fun rest => Some rest)) s = None.
Proof.
  induction s as [|c s IH]; intros Hn; [reflexivity|].
  cbn [greedy]. rewrite IH by (intros H; apply Hn; right; exact H).
  rewrite bt_chr. destruct (N.eqb_spec 125 c) as [<-|]; [|reflexivity].
  exfalso. apply Hn. left. reflexivity.
Qed.

Lemma close_brace_none_inv (s : pystr) :
  greedy (fun _ => true)
         (fun s2 => bt (Chr (N.eqb 125)) s2 (fun rest => Some rest)) s = None ->
  ~ In 125%N s.
Proof.
  induction s as [|c s IH]; intros H; [intros []|].
  cbn [greedy] in H.
  destruct (greedy _ _ s) as [x|] eqn:E; [discriminate H|].
  rewrite bt_chr in H. destruct (N.eqb_spec 125 c) as [<-|Hc];
    [discriminate H|].
  intros [->|Hin]; [apply Hc; reflexivity | exact (IH eq_refl Hin)].
Qed.

Lemma close_brace_last (mid post : pystr) :
  ~ In 125%N post ->
  greedy (fun _ => true)
         (fun s2 => bt (Chr (N.eqb 125)) s2 (fun rest => Some rest))
         (mid ++ 125%N :: post) = Some post.
Proof.
  intros Hn. induction mid as [|c mid IH].
  - cbn [app greedy]. rewrite close_brace_none by exact Hn. reflexivity.
  - cbn [app greedy]. rewrite IH. reflexivity.
Qed.

Lemma close_brace_inv (s rest : pystr) :
  greedy (fun _ => true)
         (fun s2 => bt (Chr (N.eqb 125)) s2 (fun rest => Some rest)) s
  = Some rest ->
  exists mid, s = mid ++ 125%N :: rest /\ ~ In 125%N rest.
Proof.
  revert rest. induction s as [|c s IH]; intros rest H.
  - discriminate H.
  - cbn [greedy] in H. destruct (greedy _ _ s) as [x|] eqn:E.
    + injection H as ->. destruct (IH rest eq_refl) as (mid & -> & Hn).
      exists (c :: mid). auto.
    + rewrite bt_chr in H. destruct (N.eqb_spec 125 c) as [<-|];
        [|discriminate H].
      injection H as <-. exists []. split; [reflexivity|].
      apply close_brace_none_inv. exact E.
Qed.

Lemma brace_match (s : pystr) :
  re_match brace_re s
  = match s with
    | c :: s1 =>
        if (123 =? c)%N
        then greedy (fun _ => true)
               (fun s2 => bt (Chr (N.eqb 125)) s2 (fun rest => Some rest)) s1
        else None
    | [] => None
    end.
Proof.
  unfold re_match, brace_re, dot_all. rewrite bt_seq, bt_chr.
  destruct s as [|c s1]; [reflexivity|].
  destruct (123 =? c)%N; [|reflexivity].
  rewrite bt_seq_star_chr. reflexivity.
Qed.

Lemma firstn_all_but (g post : pystr) :
  firstn (length (g ++ post) - length post) (g ++ post) = g.
Proof.
  rewrite length_app, Nat.add_sub.
  rewrite firstn_app, Nat.sub_diag, firstn_all. simpl. apply app_nil_r.
Qed.

Lemma brace_group (mid rest : pystr) :
  (123%N :: mid ++ [125%N]) ++ rest = 123%N :: mid ++ 125%N :: rest.
Proof. cbn [app]. rewrite <- app_assoc. reflexivity. Qed.

Lemma brace_group_firstn (mid rest : pystr) :
  firstn (length (123%N :: mid ++ 125%N :: rest) - length rest)
         (123%N :: mid ++ 125%N :: rest)
  = 123%N :: mid ++ [125%N].
Proof. rewrite <- brace_group. apply firstn_all_but. Qed.

Lemma re_search_cons (r : re) (c : N) (s : pystr) :
  re_search r (c :: s)
  = match re_match r (c :: s) with
    | Some rest => Some (firstn (length (c :: s) - length rest) (c :: s))
    | None => re_search r s
    end.
Proof. reflexivity. Qed.

Lemma brace_search_none (s : pystr) :
  ~ In 125%N s -> re_search brace_re s = None.
Proof.
  induction s as [|c s IH]; intros Hn.
  - reflexivity.
  - rewrite re_search_cons, brace_match.
    destruct (123 =? c)%N.
    + rewrite close_brace_none by (intros H; apply Hn; right; exact H).
      apply IH. intros H. apply Hn. right. exact H.
    + apply IH. intros H. apply Hn. right. exact H.
Qed.

Lemma brace_search_sound (s g : pystr) :
  re_search brace_re s = Some g -> is_brace_span s g.
Proof.
  revert g. induction s as [|c s IH]; intros g H.
  - discriminate H.
  - rewrite re_search_cons, brace_match in H.
    destruct (N.eqb_spec 123 c) as [<-|Hc].
    + destruct (greedy _ _ s) as [rest|] eqn:E.
      * assert (Hg : g = firstn (length (123%N :: s) - length rest)
                                (123%N :: s)) by congruence.
        subst g. clear H. apply close_brace_inv in E.
        destruct E as (mid & -> & Hn).
        exists [], mid, rest. rewrite brace_group_firstn.
        split; [symmetry; apply brace_group|].
        split; [reflexivity|]. split; [intros []|exact Hn].
      * apply close_brace_none_inv in E.
        rewrite brace_search_none in H by exact E. discriminate H.
    + destruct (IH g H) as (pre & mid & post & -> & -> & Hpre & Hpost).
      exists (c :: pre), mid, post. repeat split; auto.
      intros [Hin|Hin]; [apply Hc; symmetry; exact Hin | exact (Hpre Hin)].
Qed.

Lemma brace_search_complete (s g : pystr) :
  is_brace_span s g -> re_search brace_re s = Some g.
Proof.
  intros (pre & mid & post & -> & -> & Hpre & Hpost).
  induction pre as [|c pre IH].
  - rewrite app_nil_l, brace_group, re_search_cons, brace_match.
    change (123 =? 123)%N with true. cbv iota.
    rewrite close_brace_last by exact Hpost.
    f_equal. apply brace_group_firstn.
  - cbn [app]. rewrite re_search_cons, brace_match.
    destruct (N.eqb_spec 123 c) as [<-|Hc].
    + exfalso. apply Hpre. left. reflexivity.
    + apply IH. intros H. apply Hpre. right. exact H.
Qed.

(** X13. The fallback search of [_call_openai] finds a match exactly when
    the text has an opening brace with a closing brace after it, and the
    match is then the text from the first opening brace to the last closing
    brace, whatever lies between them. *)
Theorem brace_search_is_outermost_span (s g : pystr) :
  re_search brace_re s = Some g <-> is_brace_span s g.
Proof.
  split; [apply brace_search_sound | apply brace_search_complete].
Qed.

(** ** One content slide *)

Section SlideFacts.

Variable L : library.

Lemma add_bulleted_slide_inv (prs prs' : presentation) (idx : Z)
  (t : pyval) (bs : list pyval) (n : pyval) (blobs : list bytes)
  (k k' : nat) :
  add_bulleted_slide L prs idx t bs n blobs k = Ok (prs', k') ->
  exists i lay sl1,
    py_index (slide_layouts prs) idx = Ok (i, lay) /\
    write_bullets L bs (try_set_title L (or_empty_val t) (add_slide i lay))
    = Ok sl1 /\
    prs' = mkPrs (slide_layouts prs)
                 (prs_slides prs ++
                  [try_set_notes L (notes_frame prs) n
                                 (try_add_picture L blobs k sl1)])
                 (notes_frame prs) /\
    k' = k + 1.
Proof.
  unfold add_bulleted_slide. intros H.
  apply bind_ok in H. destruct H as ([i lay] & Hi & H).
  apply bind_ok in H. destruct H as (sl1 & Hw & H).
  cbn [fst snd] in Hw. assert (E := H). clear H.
  exists i, lay, sl1. repeat split; congruence.
Qed.

Lemma update_first_layout (sel : shape -> bool) (ps : list pystr)
  (shs shs' : list shape) :
  update_first sel (with_text ps) shs = Some shs' ->
  placeholders_of (mkPSlide 0 shs' []) = placeholders_of (mkPSlide 0 shs []).
Proof.
  unfold placeholders_of. cbn [shapes]. revert shs'.
  induction shs as [|sh rest IH]; intros shs'; simpl; [discriminate|].
  destruct (sel sh).
  - intros [= <-]. destruct sh; reflexivity.
  - destruct (update_first sel (with_text ps) rest) as [rest'|];
      [|discriminate].
    intros [= <-]. simpl. rewrite (IH rest' eq_refl). reflexivity.
Qed.

Lemma add_slide_placeholders (i : nat) (lay : layout) :
  placeholders_of (add_slide i lay) = lay.
Proof.
  unfold placeholders_of, add_slide. cbn [shapes].
  induction lay as [|[j t] lay IH]; simpl; [|rewrite IH]; reflexivity.
Qed.

Lemma try_set_title_layout (v : pyval) (sl : slide) :
  layout_of (try_set_title L v sl) = layout_of sl /\
  placeholders_of (try_set_title L v sl) = placeholders_of sl.
Proof.
  unfold try_set_title. destruct (text_arg L v) as [s|]; auto.
  destruct (update_first is_title (with_text [s]) (shapes sl)) eqn:E; auto.
  split; [reflexivity|]. exact (update_first_layout _ _ _ E).
Qed.

Lemma write_bullets_layout (bs : list pyval) (sl sl' : slide) :
  write_bullets L bs sl = Ok sl' ->
  layout_of sl' = layout_of sl /\ placeholders_of sl' = placeholders_of sl.
Proof.
  unfold write_bullets. destruct (existsb is_body (shapes sl)).
  - intros H. apply bind_ok in H. destruct H as (ps & _ & H).
    destruct (update_first is_body (with_text ps) (shapes sl)) eqn:E;
      injection H as <-; auto.
    split; [reflexivity|]. exact (update_first_layout _ _ _ E).
  - intros [= <-]. auto.
Qed.

Lemma try_add_picture_layout (blobs : list bytes) (k : nat) (sl : slide) :
  layout_of (try_add_picture L blobs k sl) = layout_of sl /\
  placeholders_of (try_add_picture L blobs k sl) = placeholders_of sl.
Proof.
  unfold try_add_picture. destruct blobs as [|b0 blobs]; auto.
  destruct (pick_blob (b0 :: blobs) k) as [b|]; auto.
  destruct (picture_ok L b); auto.
  split; [reflexivity|]. unfold placeholders_of. cbn [shapes].
  rewrite flat_map_app. simpl. apply app_nil_r.
Qed.

Lemma try_set_notes_layout (frame : bool) (n : pyval) (sl : slide) :
  layout_of (try_set_notes L frame n sl) = layout_of sl /\
  shapes (try_set_notes L frame n sl) = shapes sl.
Proof.
  unfold try_set_notes. destruct (py_truthy n); auto.
  destruct frame; auto. destruct (text_arg L n); auto.
Qed.

(** The text of the body placeholder. *)

Lemma update_first_text (ps : list pystr) (shs shs' : list shape) :
  update_first is_body (with_text ps) shs = Some shs' ->
  text_of_first is_body shs' = Some ps.
Proof.
  revert shs'. induction shs as [|sh rest IH]; intros shs'; simpl;
    [discriminate|].
  destruct (is_body sh) eqn:E.
  - intros [= <-]. destruct sh; try discriminate E. simpl in E |- *.
    rewrite E. reflexivity.
  - destruct (update_first is_body (with_text ps) rest) as [rest'|];
      [|discriminate].
    intros [= <-]. simpl. rewrite E. apply IH. reflexivity.
Qed.

Lemma text_of_first_none (sel : shape -> bool) (shs : list shape) :
  existsb sel shs = false -> text_of_first sel shs = None.
Proof.
  induction shs as [|sh rest IH]; simpl; [reflexivity|].
  destruct (sel sh); [discriminate | exact IH].
Qed.

Lemma text_of_first_app_picture (shs : list shape) (img : result bytes) :
  text_of_first is_body (shs ++ [Picture img]) = text_of_first is_body shs.
Proof.
  induction shs as [|sh rest IH]; simpl; [reflexivity|].
  destruct (is_body sh); [reflexivity | exact IH].
Qed.

Lemma update_first_exists (sel : shape -> bool) (ps : list pystr)
  (shs shs' : list shape) :
  (forall sh, sel (with_text ps sh) = sel sh) ->
  update_first is_title (with_text ps) shs = Some shs' ->
  existsb sel shs' = existsb sel shs.
Proof.
  intros Hsel. revert shs'.
  induction shs as [|sh rest IH]; intros shs'; simpl; [discriminate|].
  destruct (is_title sh).
  - intros [= <-]. simpl. rewrite Hsel. reflexivity.
  - destruct (update_first is_title (with_text ps) rest) as [rest'|];
      [|discriminate].
    intros [= <-]. simpl. rewrite (IH rest' eq_refl). reflexivity.
Qed.

Lemma is_body_with_text (ps : list pystr) (sh : shape) :
  is_body (with_text ps sh) = is_body sh.
Proof. destruct sh; reflexivity. Qed.

Lemma add_slide_has_body (i : nat) (lay : layout) :
  existsb is_body (shapes (add_slide i lay)) = has_body lay.
Proof.
  unfold add_slide, has_body. cbn [shapes].
  induction lay as [|[j t] lay IH]; simpl; [|rewrite IH]; reflexivity.
Qed.

Lemma titled_slide_has_body (v : pyval) (i : nat) (lay : layout) :
  existsb is_body (shapes (try_set_title L v (add_slide i lay)))
  = has_body lay.
Proof.
  rewrite <- (add_slide_has_body i lay). unfold try_set_title.
  destruct (text_arg L v) as [s|]; [|reflexivity].
  destruct (update_first is_title (with_text [s]) (shapes (add_slide i lay)))
    eqn:E; [|reflexivity].
  cbn [shapes]. eapply update_first_exists; [|exact E].
  apply is_body_with_text.
Qed.

Lemma write_bullets_text (bs : list pyval) (sl sl' : slide) :
  write_bullets L bs sl = Ok sl' ->
  text_of_first is_body (shapes sl')
  = if existsb is_body (shapes sl)
    then match for_each (fun acc b => s <- text_arg L b ;; Ok (acc ++ [s]))
                        bs [] with
         | Ok ps => Some ps
         | Raise _ => None
         end
    else None.
Proof.
  unfold write_bullets. destruct (existsb is_body (shapes sl)) eqn:Eb.
  - intros H. apply bind_ok in H. destruct H as (ps & Hps & H).
    rewrite Hps.
    destruct (update_first is_body (with_text ps) (shapes sl)) eqn:E.
    + injection H as <-. cbn [shapes]. eapply update_first_text; eauto.
    + exfalso. clear -Eb E. induction (shapes sl) as [|sh rest IH];
        simpl in *; [discriminate|].
      destruct (is_body sh); [discriminate|].
      destruct (update_first is_body (with_text ps) rest);
        [discriminate | auto].
  - intros [= <-]. apply text_of_first_none. exact Eb.
Qed.

Lemma texts_of_strings (l : list pystr) :
  keeps_str L ->
  forall acc,
    for_each (fun acc b => s <- text_arg L b ;; Ok (acc ++ [s]))
             (map PStr l) acc
    = Ok (acc ++ l).
Proof.
  intros HL. induction l as [|x l IH]; intros acc.
  - simpl. rewrite app_nil_r. reflexivity.
  - cbn [map for_each]. rewrite HL. cbn [bind]. rewrite IH, <- app_assoc.
    reflexivity.
Qed.

Lemma truthy_strings (l : list pystr) :
  filter py_truthy (map PStr l) = map PStr (filter truthy l).
Proof.
  induction l as [|x l IH]; simpl; [reflexivity|].
  destruct (truthy x); simpl; rewrite IH; reflexivity.
Qed.

(** What [render_slide] reads from a slide of an outline. *)
Lemma slide_fields (sp : SlideSpec) (d : pyval) :
  dict_get (py_of_slide sp) (lit "title") d = Ok (PStr (title sp)) /\
  dict_get (py_of_slide sp) (lit "bullets") d
  = Ok (PList (map PStr (bullets sp))) /\
  dict_get (py_of_slide sp) (lit "notes") d = Ok (PStr (notes sp)).
Proof. repeat split. Qed.

Lemma render_slide_typed (idx : Z) (pool : list bytes)
  (st : presentation * nat) (sp : SlideSpec) :
  render_slide L idx pool st (py_of_slide sp)
  = add_bulleted_slide L (fst st) idx (PStr (title sp))
      (map PStr (filter truthy (bullets sp))) (PStr (notes sp))
      pool (snd st).
Proof.
  unfold render_slide.
  destruct (slide_fields sp (PStr [])) as (-> & _ & ->).
  destruct (slide_fields sp (PList [])) as (_ & -> & _).
  cbn [bind py_iter]. rewrite truthy_strings. reflexivity.
Qed.

End SlideFacts.

(** ** The slides a rendering adds *)

Section RenderFacts.

Variable L : library.

Lemma render_loop_steps (idx : Z) (blobs : list bytes) (items : list pyval) :
  forall (prs prs' : presentation) (k k' : nat),
    for_each (render_slide L idx blobs) items (prs, k) = Ok (prs', k') ->
    slide_layouts prs' = slide_layouts prs /\
    notes_frame prs' = notes_frame prs /\
    exists new,
      prs_slides prs' = prs_slides prs ++ new /\
      Forall2 (slide_added L idx blobs (slide_layouts prs) (notes_frame prs))
              items new.
Proof.
  induction items as [|s rest IH]; intros prs prs' k k' H.
  - injection H as <- <-. repeat split. exists []. rewrite app_nil_r.
    split; [reflexivity | constructor].
  - cbn [for_each] in H. apply bind_ok in H.
    destruct H as ([p1 k1] & Hstep & Hrest).
    assert (Hs := Hstep). apply render_slide_ok in Hs.
    destruct Hs as (t & bs & n & _ & Hadd).
    apply add_bulleted_slide_ok in Hadd.
    destruct Hadd as (-> & Hlay & Hfr & sl & Hsl & _).
    apply IH in Hrest. destruct Hrest as (Hlay' & Hfr' & new & Hnew & Hall).
    rewrite Hlay, Hfr in Hall.
    split; [congruence|]. split; [congruence|].
    exists (sl :: new). split.
    + rewrite Hnew, Hsl, <- app_assoc. reflexivity.
    + constructor; [|exact Hall]. exists prs, p1, k. auto.
Qed.

Lemma title_slide_frame (t : pyval) (prs : presentation) :
  notes_frame (try_title_slide L t prs) = notes_frame prs.
Proof.
  unfold try_title_slide. destruct (py_index (slide_layouts prs) 0);
    reflexivity.
Qed.

Lemma py_index_first {A : Type} (l : list A) :
  py_index l 0 = match l with
                 | [] => Raise IndexError
                 | x :: _ => Ok (0, x)
                 end.
Proof. destruct l; reflexivity. Qed.

(** The slides of the title step: one slide on layout 0 when the template
    has a layout, none otherwise. *)
Lemma title_slide_head (t : pyval) (prs : presentation) :
  exists head,
    prs_slides (try_title_slide L t prs) = prs_slides prs ++ head /\
    length head = (if length (slide_layouts prs) =? 0 then 0 else 1) /\
    Forall (fun sl =>
              py_index (slide_layouts prs) 0
              = Ok (layout_of sl, placeholders_of sl) /\
              picture_blobs sl = [] /\ notes_text sl = [])
           head.
Proof.
  unfold try_title_slide. rewrite py_index_first.
  destruct (slide_layouts prs) as [|lay ls].
  - exists []. rewrite app_nil_r. repeat split. constructor.
  - cbn [fst snd]. eexists. split; [reflexivity|]. split; [reflexivity|].
    constructor; [|constructor].
    destruct (try_set_title_layout L t (add_slide 0 lay)) as [-> ->].
    destruct (try_set_title_keeps L t (add_slide 0 lay)) as [-> ->].
    rewrite add_slide_placeholders, add_slide_blobs. repeat split.
Qed.

(** A rendering, taken apart: the slides of the template, then the title
    slide if there is one, then one slide for each item. *)
Lemma render_inv (tb : bytes) (deck : pyval) (prefer : Z)
  (prs0 prs : presentation) :
  Presentation L tb = Ok prs0 ->
  render L tb deck prefer = Ok prs ->
  exists t slides items head new,
    dict_get deck (lit "title") PNone = Ok t /\
    dict_get deck (lit "slides") (PList []) = Ok slides /\
    py_iter slides = Ok items /\
    prs_slides prs = prs_slides prs0 ++ head ++ new /\
    slide_layouts prs = slide_layouts prs0 /\
    length head
    = (if py_truthy t && negb (length (slide_layouts prs0) =? 0)
       then 1 else 0) /\
    Forall (fun sl =>
              py_index (slide_layouts prs0) 0
              = Ok (layout_of sl, placeholders_of sl) /\
              picture_blobs sl = [] /\ notes_text sl = [])
           head /\
    Forall2 (slide_added L (default_layout_idx prs0 prefer)
                         (collect_template_images prs0)
                         (slide_layouts prs0) (notes_frame prs0))
            items new.
Proof.
  intros H0 H. apply render_ok in H.
  destruct H as (prs0' & t & slides & items & k & H0' & Ht & Hs & Hi & Hloop).
  rewrite H0 in H0'. injection H0' as <-. cbn zeta in Hloop.
  exists t, slides, items.
  set (prs1 := if py_truthy t then try_title_slide L t prs0 else prs0) in *.
  assert (H1 : slide_layouts prs1 = slide_layouts prs0 /\
               notes_frame prs1 = notes_frame prs0 /\
               exists head,
                 prs_slides prs1 = prs_slides prs0 ++ head /\
                 length head
                 = (if py_truthy t && negb (length (slide_layouts prs0) =? 0)
                    then 1 else 0) /\
                 Forall (fun sl =>
                           py_index (slide_layouts prs0) 0
                           = Ok (layout_of sl, placeholders_of sl) /\
                           picture_blobs sl = [] /\ notes_text sl = [])
                        head).
  { unfold prs1. destruct (py_truthy t).
    - split; [apply try_title_slide_adds|].
      split; [apply title_slide_frame|].
      destruct (title_slide_head t prs0) as (head & Hh & Hlen & Hall).
      exists head. split; [exact Hh|]. split; [|exact Hall].
      rewrite Hlen. cbn [andb].
      destruct (length (slide_layouts prs0) =? 0); reflexivity.
    - repeat split. exists []. rewrite app_nil_r. repeat split.
      constructor. }
  destruct H1 as (Hl1 & Hf1 & head & Hhead & Hlen & Hall).
  replace (default_layout_idx prs1 prefer)
    with (default_layout_idx prs0 prefer) in Hloop
    by (unfold default_layout_idx; rewrite Hl1; reflexivity).
  apply render_loop_steps in Hloop.
  destruct Hloop as (Hl & _ & new & Hnew & Hsteps).
  rewrite Hl1, Hf1 in Hsteps.
  exists head, new. repeat split; try assumption.
  - rewrite Hnew, Hhead, <- app_assoc. reflexivity.
  - congruence.
Qed.

(** What one pass of the loop adds. *)
Lemma slide_added_inv (idx : Z) (blobs : list bytes)
  (layouts : list layout) (frame : bool) (s : pyval) (sl : slide) :
  slide_added L idx blobs layouts frame s sl ->
  py_index layouts idx = Ok (layout_of sl, placeholders_of sl) /\
  length (picture_blobs sl) <= 1 /\
  (forall b, In b (picture_blobs sl) -> In b blobs).
Proof.
  intros (pa & pb & k & <- & <- & Hstep & Hsl).
  apply render_slide_ok in Hstep. destruct Hstep as (t & bs & n & _ & Hadd).
  assert (Hadd' := Hadd).
  apply add_bulleted_slide_inv in Hadd.
  destruct Hadd as (i & lay & sl1 & Hi & Hw & -> & _).
  cbn [prs_slides] in Hsl. apply app_inv_head in Hsl. injection Hsl as Hsl.
  apply add_bulleted_slide_ok in Hadd'.
  destruct Hadd' as (_ & _ & _ & sl' & Hsl' & Hpic & _).
  cbn [prs_slides] in Hsl'. apply app_inv_head in Hsl'.
  injection Hsl' as Hsl'. rewrite Hsl in Hsl'. subst sl'.
  split; [|split].
  - rewrite Hi. subst sl.
    destruct (try_set_notes_layout L (notes_frame pa) n
                (try_add_picture L blobs k sl1)) as [Hlo Hsh].
    unfold placeholders_of at 1. rewrite Hlo, Hsh.
    fold (placeholders_of (try_add_picture L blobs k sl1)).
    destruct (try_add_picture_layout L blobs k sl1) as [-> ->].
    destruct (write_bullets_layout L _ _ Hw) as [-> ->].
    destruct (try_set_title_layout L (or_empty_val t) (add_slide i lay))
      as [-> ->].
    rewrite add_slide_placeholders. reflexivity.
  - rewrite Hpic. destruct (pick_blob blobs k) as [b|]; [|simpl; lia].
    destruct (picture_ok L b); simpl; lia.
  - intros b. rewrite Hpic. unfold pick_blob.
    destruct (nth_error blobs (k mod length blobs)) as [b'|] eqn:E;
      [|intros []].
    destruct (picture_ok L b'); [|intros []].
    intros [<-|[]]. eapply nth_error_In. exact E.
Qed.

(** The same for a slide of an outline, when the library keeps strings. *)
Lemma slide_added_typed (idx : Z) (blobs : list bytes)
  (layouts : list layout) (frame : bool) (sp : SlideSpec) (sl : slide) :
  keeps_str L ->
  slide_added L idx blobs layouts frame (py_of_slide sp) sl ->
  text_of_first is_body (shapes sl)
  = (if has_body (placeholders_of sl)
     then Some (filter truthy (bullets sp)) else None) /\
  notes_text sl = (if frame then notes sp else []).
Proof.
  intros HL Hadd. destruct (slide_added_inv Hadd) as (Hidx & _ & _).
  destruct Hadd as (pa & pb & k & <- & <- & Hstep & Hsl).
  rewrite render_slide_typed in Hstep. cbn [fst snd] in Hstep.
  apply add_bulleted_slide_inv in Hstep.
  destruct Hstep as (i & lay & sl1 & Hi & Hw & -> & _).
  cbn [prs_slides] in Hsl. apply app_inv_head in Hsl. injection Hsl as Hsl.
  rewrite Hi in Hidx. injection Hidx as _ Hlay. rewrite <- Hlay.
  assert (Hn : notes_text (try_add_picture L blobs k sl1) = []).
  { destruct (try_add_picture_blobs L blobs k sl1) as [_ ->].
    destruct (write_bullets_keeps L _ _ Hw) as [_ ->].
    destruct (try_set_title_keeps L (or_empty_val (PStr (title sp)))
                (add_slide i lay)) as [_ ->].
    reflexivity. }
  apply write_bullets_text in Hw.
  rewrite titled_slide_has_body, texts_of_strings in Hw by exact HL.
  cbn [app] in Hw. subst sl. split.
  - destruct (try_set_notes_layout L (notes_frame pa) (PStr (notes sp))
                (try_add_picture L blobs k sl1)) as [_ ->].
    rewrite <- Hw. unfold try_add_picture.
    destruct blobs as [|b0 bl]; [reflexivity|].
    destruct (pick_blob (b0 :: bl) k) as [b|]; [|reflexivity].
    destruct (picture_ok L b); [|reflexivity].
    cbn [shapes]. apply text_of_first_app_picture.
  - unfold try_set_notes. cbn [py_truthy].
    destruct (notes sp) as [|c n] eqn:En.
    + cbn [truthy]. rewrite Hn. destruct (notes_frame pa); reflexivity.
    + change (truthy (c :: n)) with true. cbv iota.
      destruct (notes_frame pa); [|exact Hn].
      rewrite HL. reflexivity.
Qed.

End RenderFacts.

Lemma Forall2_right {A B : Type} (R : A -> B -> Prop) (P : B -> Prop)
  (l : list A) (l' : list B) :
  (forall x y, R x y -> P y) -> Forall2 R l l' -> Forall P l'.
Proof. intros HRP. induction 1; constructor; eauto. Qed.

Lemma Forall2_of_map {A B C : Type} (f : A -> B) (R : B -> C -> Prop)
  (l : list A) (l' : list C) :
  Forall2 R (map f l) l' -> Forall2 (fun x y => R (f x) y) l l'.
Proof.
  revert l'. induction l as [|x l IH]; intros l' H; inversion H; subst;
    constructor; auto.
Qed.

Lemma Forall2_weaken {A B : Type} (R R' : A -> B -> Prop)
  (l : list A) (l' : list B) :
  (forall x y, R x y -> R' x y) -> Forall2 R l l' -> Forall2 R' l l'.
Proof. intros HRR. induction 1; constructor; auto. Qed.

(** X14. A rendering keeps the slides of the template in front and adds
    after them one slide for each item of the deck's slides, preceded by a
    title slide exactly when the deck's title is truthy and the template
    has a layout. *)
Theorem render_adds_one_slide_per_item (L : library) (tb : bytes)
  (deck : pyval) (prefer : Z) (prs0 prs : presentation) :
  Presentation L tb = Ok prs0 ->
  render L tb deck prefer = Ok prs ->
  exists t slides items new,
    dict_get deck (lit "title") PNone = Ok t /\
    dict_get deck (lit "slides") (PList []) = Ok slides /\
    py_iter slides = Ok items /\
    added_slides prs0 prs new /\
    length new
    = (if py_truthy t && negb (length (slide_layouts prs0) =? 0)
       then 1 else 0) + length items.
Proof.
  intros H0 H. destruct (@render_inv _ _ _ _ _ _ H0 H)
    as (t & slides & items & head & new & Ht & Hs & Hi & Hsl & _ & Hlen
        & _ & Hall).
  exists t, slides, items, (head ++ new). repeat split; try assumption.
  rewrite length_app, Hlen. f_equal. symmetry.
  eapply Forall2_length. exact Hall.
Qed.

Lemma render_adds_witness :
  exists prs,
    render (Sample.library_opening Sample.two_layout_template) []
           (py_of_outline
              (mkDeck (lit "Deck")
                      [mkSlide (lit "A") [lit "a1"; lit "a2"] [];
                       mkSlide (lit "B") [] (lit "say")]))
           1
    = Ok prs /\
    exists t slides items new,
      dict_get (py_of_outline
                  (mkDeck (lit "Deck")
                          [mkSlide (lit "A") [lit "a1"; lit "a2"] [];
                           mkSlide (lit "B") [] (lit "say")]))
               (lit "title") PNone = Ok t /\
      dict_get (py_of_outline
                  (mkDeck (lit "Deck")
                          [mkSlide (lit "A") [lit "a1"; lit "a2"] [];
                           mkSlide (lit "B") [] (lit "say")]))
               (lit "slides") (PList []) = Ok slides /\
      py_iter slides = Ok items /\
      added_slides Sample.two_layout_template prs new /\
      length new
      = (if py_truthy t
            && negb (length (slide_layouts Sample.two_layout_template) =? 0)
         then 1 else 0) + length items.
Proof.
  eexists. split; [vm_compute; reflexivity|].
  apply (@render_adds_one_slide_per_item
           (Sample.library_opening Sample.two_layout_template) [] _ 1);
    reflexivity.
Defined.

(** X15. The layouts of the template are not changed, the title slide is
    built on layout 0, and every content slide on the layout that the
    default index selects, from which it takes its placeholders. *)
Theorem render_uses_selected_layout (L : library) (tb : bytes)
  (deck : pyval) (prefer : Z) (prs0 prs : presentation) :
  Presentation L tb = Ok prs0 ->
  render L tb deck prefer = Ok prs ->
  slide_layouts prs = slide_layouts prs0 /\
  exists head new,
    prs_slides prs = prs_slides prs0 ++ head ++ new /\
    length head <= 1 /\
    Forall (fun sl =>
              py_index (slide_layouts prs0) 0
              = Ok (layout_of sl, placeholders_of sl))
           head /\
    Forall (fun sl =>
              py_index (slide_layouts prs0) (default_layout_idx prs0 prefer)
              = Ok (layout_of sl, placeholders_of sl))
           new.
Proof.
  intros H0 H. destruct (@render_inv _ _ _ _ _ _ H0 H)
    as (t & slides & items & head & new & _ & _ & _ & Hsl & Hlay & Hlen
        & Hhead & Hall).
  split; [exact Hlay|]. exists head, new. split; [exact Hsl|]. split.
  - rewrite Hlen. destruct (_ && _); lia.
  - split.
    + eapply Forall_impl; [|exact Hhead]. intros sl (Hx & _). exact Hx.
    + eapply Forall2_right; [|exact Hall].
      intros s sl Hadd. apply (@slide_added_inv _ _ _ _ _ _ _ Hadd).
Qed.

Lemma render_layout_witness :
  exists prs,
    render (Sample.library_opening Sample.two_layout_template) []
           (py_of_outline
              (mkDeck (lit "Deck") [mkSlide (lit "A") [lit "a1"] []]))
           1
    = Ok prs /\
    slide_layouts prs = slide_layouts Sample.two_layout_template /\
    exists head new,
      prs_slides prs = prs_slides Sample.two_layout_template ++ head ++ new /\
      length head <= 1 /\
      Forall (fun sl =>
                py_index (slide_layouts Sample.two_layout_template) 0
                = Ok (layout_of sl, placeholders_of sl))
             head /\
      Forall (fun sl =>
                py_index (slide_layouts Sample.two_layout_template)
                         (default_layout_idx Sample.two_layout_template 1)
                = Ok (layout_of sl, placeholders_of sl))
             new.
Proof.
  eexists. split; [vm_compute; reflexivity|].
  apply (@render_uses_selected_layout
           (Sample.library_opening Sample.two_layout_template) []
           (py_of_outline
              (mkDeck (lit "Deck") [mkSlide (lit "A") [lit "a1"] []]))
           1);
    reflexivity.
Defined.

(** X16. The only pictures on the slides a rendering adds are blobs
    collected from the template's own slides, and no added slide gets more
    than one. *)
Theorem render_pictures_come_from_template (L : library) (tb : bytes)
  (deck : pyval) (prefer : Z) (prs0 prs : presentation) :
  Presentation L tb = Ok prs0 ->
  render L tb deck prefer = Ok prs ->
  exists new,
    added_slides prs0 prs new /\
    Forall (fun sl =>
              length (picture_blobs sl) <= 1 /\
              forall b, In b (picture_blobs sl) ->
                        In b (collect_template_images prs0))
           new.
Proof.
  intros H0 H. destruct (@render_inv _ _ _ _ _ _ H0 H)
    as (t & slides & items & head & new & _ & _ & _ & Hsl & _ & _
        & Hhead & Hall).
  exists (head ++ new). split; [exact Hsl|]. apply Forall_app. split.
  - eapply Forall_impl; [|exact Hhead]. intros sl (_ & -> & _).
    split; [simpl; lia | intros b []].
  - eapply Forall2_right; [|exact Hall].
    intros s sl Hadd. apply (@slide_added_inv _ _ _ _ _ _ _ Hadd).
Qed.

Lemma render_pictures_witness :
  exists prs,
    render (Sample.library_opening Sample.two_layout_template) []
           (py_of_outline
              (mkDeck (lit "Deck") [mkSlide (lit "A") [lit "a1"] []]))
           1
    = Ok prs /\
    exists new,
      added_slides Sample.two_layout_template prs new /\
      Forall (fun sl =>
                length (picture_blobs sl) <= 1 /\
                forall b, In b (picture_blobs sl) ->
                          In b (collect_template_images
                                  Sample.two_layout_template))
             new.
Proof.
  eexists. split; [vm_compute; reflexivity|].
  apply (@render_pictures_come_from_template
           (Sample.library_opening Sample.two_layout_template) []
           (py_of_outline
              (mkDeck (lit "Deck") [mkSlide (lit "A") [lit "a1"] []]))
           1);
    reflexivity.
Defined.

(** ** Rendering an outline *)

Lemma outline_fields (o : Outline) (d : pyval) :
  dict_get (py_of_outline o) (lit "title") d = Ok (PStr (deck_title o)) /\
  dict_get (py_of_outline o) (lit "slides") d
  = Ok (PList (map py_of_slide (deck_slides o))).
Proof. repeat split. Qed.

Lemma outline_render_inv (L : library) (tb : bytes) (o : Outline)
  (prefer : Z) (prs0 prs : presentation) :
  Presentation L tb = Ok prs0 ->
  render L tb (py_of_outline o) prefer = Ok prs ->
  exists head new,
    prs_slides prs = prs_slides prs0 ++ head ++ new /\
    length head <= 1 /\
    Forall2 (fun sp sl =>
               slide_added L (default_layout_idx prs0 prefer)
                           (collect_template_images prs0)
                           (slide_layouts prs0) (notes_frame prs0)
                           (py_of_slide sp) sl)
            (deck_slides o) new.
Proof.
  intros H0 H. destruct (@render_inv _ _ _ _ _ _ H0 H)
    as (t & slides & items & head & new & _ & Hs & Hi & Hsl & _ & Hlen
        & _ & Hall).
  destruct (outline_fields o (PList [])) as [_ Hs'].
  rewrite Hs' in Hs. injection Hs as <-. injection Hi as <-.
  exists head, new. split; [exact Hsl|]. split.
  - rewrite Hlen. destruct (_ && _); lia.
  - apply Forall2_of_map. exact Hall.
Qed.

(** X17. With a library that keeps strings, each content slide made from
    an outline holds in its body placeholder exactly the non-empty bullets
    of its slide, in order; on a layout without a body placeholder the
    bullets are left out and nothing fails. *)
Theorem outline_bullets_reach_body (L : library) (tb : bytes) (o : Outline)
  (prefer : Z) (prs0 prs : presentation) :
  keeps_str L ->
  Presentation L tb = Ok prs0 ->
  render L tb (py_of_outline o) prefer = Ok prs ->
  exists head new,
    prs_slides prs = prs_slides prs0 ++ head ++ new /\
    length head <= 1 /\
    Forall2 (fun sp sl =>
               text_of_first is_body (shapes sl)
               = if has_body (placeholders_of sl)
                 then Some (filter truthy (bullets sp))
                 else None)
            (deck_slides o) new.
Proof.
  intros HL H0 H.
  destruct (@outline_render_inv _ _ _ _ _ _ H0 H) as (head & new & Hsl & Hlen & Hall).
  exists head, new. split; [exact Hsl|]. split; [exact Hlen|].
  eapply Forall2_weaken; [|exact Hall].
  intros sp sl Hadd. apply (@slide_added_typed _ _ _ _ _ _ _ HL Hadd).
Qed.

Lemma outline_bullets_witness :
  exists prs,
    render (Sample.library_opening Sample.two_layout_template) []
           (py_of_outline
              (mkDeck [] [mkSlide (lit "A") [lit "a1"; []; lit "a2"] []]))
           1
    = Ok prs /\
    exists head new,
      prs_slides prs = prs_slides Sample.two_layout_template ++ head ++ new /\
      length head <= 1 /\
      Forall2 (fun sp sl =>
                 text_of_first is_body (shapes sl)
                 = if has_body (placeholders_of sl)
                   then Some (filter truthy (bullets sp))
                   else None)
              [mkSlide (lit "A") [lit "a1"; []; lit "a2"] []] new.
Proof.
  eexists. split; [vm_compute; reflexivity|].
  apply (@outline_bullets_reach_body
           (Sample.library_opening Sample.two_layout_template) []
           (mkDeck [] [mkSlide (lit "A") [lit "a1"; []; lit "a2"] []]) 1).
  - intros s. reflexivity.
  - reflexivity.
  - reflexivity.
Defined.

(** X18. With a library that keeps strings, each content slide made from
    an outline carries the notes of its slide when the presentation has a
    notes frame to write to, and no notes when it has none. *)
Theorem outline_notes_reach_slide (L : library) (tb : bytes) (o : Outline)
  (prefer : Z) (prs0 prs : presentation) :
  keeps_str L ->
  Presentation L tb = Ok prs0 ->
  render L tb (py_of_outline o) prefer = Ok prs ->
  exists head new,
    prs_slides prs = prs_slides prs0 ++ head ++ new /\
    length head <= 1 /\
    Forall2 (fun sp sl =>
               notes_text sl = if notes_frame prs0 then notes sp else [])
            (deck_slides o) new.
Proof.
  intros HL H0 H.
  destruct (@outline_render_inv _ _ _ _ _ _ H0 H) as (head & new & Hsl & Hlen & Hall).
  exists head, new. split; [exact Hsl|]. split; [exact Hlen|].
  eapply Forall2_weaken; [|exact Hall].
  intros sp sl Hadd. apply (@slide_added_typed _ _ _ _ _ _ _ HL Hadd).
Qed.

Lemma outline_notes_witness :
  exists prs,
    render (Sample.library_opening Sample.two_layout_template) []
           (py_of_outline
              (mkDeck [] [mkSlide (lit "A") [lit "a1"] (lit "say this")]))
           1
    = Ok prs /\
    exists head new,
      prs_slides prs = prs_slides Sample.two_layout_template ++ head ++ new /\
      length head <= 1 /\
      Forall2 (fun sp sl =>
                 notes_text sl
                 = if notes_frame Sample.two_layout_template
                   then notes sp else [])
              [mkSlide (lit "A") [lit "a1"] (lit "say this")] new.
Proof.
  eexists. split; [vm_compute; reflexivity|].
  apply (@outline_notes_reach_slide
           (Sample.library_opening Sample.two_layout_template) []
           (mkDeck [] [mkSlide (lit "A") [lit "a1"] (lit "say this")]) 1).
  - intros s. reflexivity.
  - reflexivity.
  - reflexivity.
Defined.

(** ** When a rendering succeeds *)

Lemma texts_accepted (L : library) (bs : list pyval) :
  forall acc,
    (exists ps,
        for_each (fun acc b => s <- text_arg L b ;; Ok (acc ++ [s])) bs acc
        = Ok ps)
    <-> Forall (fun b => exists s, text_arg L b = Ok s) bs.
Proof.
  induction bs as [|b bs IH]; intros acc.
  - split; [constructor | intros _; simpl; eauto].
  - cbn [for_each]. split.
    + intros [ps H]. apply bind_ok in H. destruct H as (acc' & Hb & H).
      apply bind_ok in Hb. destruct Hb as (s & Hs & _).
      constructor; [eauto|]. apply (IH acc'). eauto.
    + intros H. inversion H as [|? ? [s Hs] Hrest]; subst.
      rewrite Hs. cbn [bind]. apply IH. exact Hrest.
Qed.

(** [write_bullets] returns exactly when every bullet is accepted, or the
    slide has no body placeholder. *)
Lemma write_bullets_returns (L : library) (bs : list pyval) (sl : slide) :
  (exists sl', write_bullets L bs sl = Ok sl')
  <-> (existsb is_body (shapes sl) = true ->
       Forall (fun b => exists s, text_arg L b = Ok s) bs).
Proof.
  unfold write_bullets. destruct (existsb is_body (shapes sl)).
  - split.
    + intros [sl' H] _. apply bind_ok in H. destruct H as (ps & Hps & _).
      apply (texts_accepted L bs []). eauto.
    + intros H. apply (texts_accepted L bs []) in H; [|reflexivity].
      destruct H as [ps ->]. cbn [bind].
      destruct (update_first is_body _ (shapes sl)); eauto.
  - split; [intros _ H; discriminate H | eauto].
Qed.

Lemma accepted_strings (L : library) (l : list pystr) :
  Forall (fun b => exists s, text_arg L b = Ok s) (map PStr l)
  <-> Forall (fun b => exists s, text_arg L (PStr b) = Ok s) l.
Proof. apply Forall_map. Qed.

(** The loop over the slides of an outline returns exactly when every
    non-empty bullet is accepted, or the layout has no body placeholder. *)
Lemma render_loop_returns (L : library) (idx : Z) (blobs : list bytes)
  (i : nat) (lay : layout) (sps : list SlideSpec) :
  forall prs k,
    py_index (slide_layouts prs) idx = Ok (i, lay) ->
    (exists st,
        for_each (render_slide L idx blobs) (map py_of_slide sps) (prs, k)
        = Ok st)
    <-> (has_body lay = true ->
         Forall (fun sp =>
                   Forall (fun b => exists s, text_arg L (PStr b) = Ok s)
                          (filter truthy (bullets sp)))
                sps).
Proof.
  induction sps as [|sp sps IH]; intros prs k Hi.
  - split; [constructor | intros _; simpl; eauto].
  - cbn [map for_each]. rewrite render_slide_typed. cbn [fst snd].
    assert (Hstep :
              forall st,
                add_bulleted_slide L prs idx (PStr (title sp))
                  (map PStr (filter truthy (bullets sp))) (PStr (notes sp))
                  blobs k = Ok st ->
                py_index (slide_layouts (fst st)) idx = Ok (i, lay)).
    { intros [p1 k1] H. apply add_bulleted_slide_ok in H.
      destruct H as (_ & Hl & _). cbn [fst]. rewrite Hl. exact Hi. }
    assert (Hadd :
              (exists st,
                  add_bulleted_slide L prs idx (PStr (title sp))
                    (map PStr (filter truthy (bullets sp))) (PStr (notes sp))
                    blobs k = Ok st)
              <-> (has_body lay = true ->
                   Forall (fun b => exists s, text_arg L (PStr b) = Ok s)
                          (filter truthy (bullets sp)))).
    { rewrite <- accepted_strings, <- (titled_slide_has_body L
                (or_empty_val (PStr (title sp))) i lay).
      rewrite <- write_bullets_returns.
      unfold add_bulleted_slide. rewrite Hi. cbn [bind fst snd].
      destruct (write_bullets L _ _) as [sl'|e]; cbn [bind];
        split; intros [x H]; try discriminate H; eauto. }
    split.
    + intros [st H] Hb. apply bind_ok in H. destruct H as ([p1 k1] & H1 & H).
      constructor.
      * apply Hadd; eauto.
      * apply (IH p1 k1 (Hstep _ H1)); eauto.
    + intros H.
      assert (H1 : exists st,
                 add_bulleted_slide L prs idx (PStr (title sp))
                   (map PStr (filter truthy (bullets sp))) (PStr (notes sp))
                   blobs k = Ok st).
      { apply Hadd. intros Hb. specialize (H Hb).
        inversion H; subst; assumption. }
      destruct H1 as [[p1 k1] H1]. rewrite H1. cbn [bind].
      apply (IH p1 k1 (Hstep _ H1)). intros Hb. specialize (H Hb).
      inversion H; subst; assumption.
Qed.

Lemma py_index_raises {A : Type} (l : list A) (i : Z) (e : exn) :
  py_index l i = Raise e -> e = IndexError.
Proof.
  unfold py_index. destruct (_ && _); [|congruence].
  destruct (nth_error l _); congruence.
Qed.

(** The rendering of an outline, with the reads of the deck done. *)
Lemma render_outline_eq (L : library) (tb : bytes) (o : Outline)
  (prefer : Z) (prs0 : presentation) :
  Presentation L tb = Ok prs0 ->
  exists prs1,
    slide_layouts prs1 = slide_layouts prs0 /\
    render L tb (py_of_outline o) prefer
    = (st <- for_each (render_slide L (default_layout_idx prs0 prefer)
                                    (collect_template_images prs0))
                      (map py_of_slide (deck_slides o)) (prs1, 0) ;;
       Ok (fst st)).
Proof.
  intros H0.
  exists (if truthy (deck_title o)
          then try_title_slide L (PStr (deck_title o)) prs0 else prs0).
  assert (Hl : slide_layouts
                 (if truthy (deck_title o)
                  then try_title_slide L (PStr (deck_title o)) prs0
                  else prs0)
               = slide_layouts prs0).
  { destruct (truthy (deck_title o)); [|reflexivity].
    apply try_title_slide_adds. }
  split; [exact Hl|].
  unfold render. rewrite H0. cbn [bind].
  destruct (outline_fields o PNone) as [-> _].
  destruct (outline_fields o (PList [])) as [_ ->].
  cbn [bind py_iter py_truthy].
  unfold default_layout_idx. rewrite Hl. reflexivity.
Qed.

(** X19. For every library: on a template that opens and has the layout
    the default index selects, the rendering of an outline returns exactly
    when the text setter accepts every non-empty bullet, or that layout has
    no body placeholder.  Titles, notes and pictures cannot make the
    rendering fail; a bullet that the text setter refuses does. *)
Theorem outline_renders_iff_bullets_accepted (L : library) (tb : bytes)
  (prefer : Z) (prs0 : presentation) (i : nat) (lay : layout) (o : Outline) :
  Presentation L tb = Ok prs0 ->
  py_index (slide_layouts prs0) (default_layout_idx prs0 prefer)
  = Ok (i, lay) ->
  (exists prs, render L tb (py_of_outline o) prefer = Ok prs)
  <-> (has_body lay = true ->
       Forall (fun sp =>
                 Forall (fun b => exists s, text_arg L (PStr b) = Ok s)
                        (filter truthy (bullets sp)))
              (deck_slides o)).
Proof.
  intros H0 Hi.
  destruct (@render_outline_eq L tb o prefer prs0 H0) as (prs1 & Hl & ->).
  rewrite <- (@render_loop_returns L (default_layout_idx prs0 prefer)
                (collect_template_images prs0) i lay (deck_slides o) prs1 0)
    by (rewrite Hl; exact Hi).
  destruct (for_each _ _ (prs1, 0)) as [st|e]; cbn [bind];
    split; intros [x H]; try discriminate H; eauto.
Qed.

Lemma outline_renders_witness :
  (exists prs,
      render (Sample.library_opening Sample.two_layout_template) []
             (py_of_outline
                (mkDeck (lit "Deck")
                        [mkSlide (lit "A") [lit "a1"; []] (lit "n")]))
             1
      = Ok prs)
  <-> (has_body [(0, 1%Z); (1, 2%Z)] = true ->
       Forall (fun sp =>
                 Forall (fun b =>
                           exists s,
                             text_arg (Sample.library_opening
                                         Sample.two_layout_template)
                                      (PStr b) = Ok s)
                        (filter truthy (bullets sp)))
              [mkSlide (lit "A") [lit "a1"; []] (lit "n")]).
Proof.
  apply (@outline_renders_iff_bullets_accepted
           (Sample.library_opening Sample.two_layout_template) [] 1
           Sample.two_layout_template 1 [(0, 1%Z); (1, 2%Z)]
           (mkDeck (lit "Deck")
                   [mkSlide (lit "A") [lit "a1"; []] (lit "n")])).
  - reflexivity.
  - reflexivity.
Defined.

(** X20. When the index the renderer selects names no layout of the
    template, every outline with at least one slide fails with
    [IndexError], whatever its slides hold. *)
Theorem missing_layout_is_index_error (L : library) (tb : bytes)
  (prefer : Z) (prs0 : presentation) (e : exn) (o : Outline) :
  Presentation L tb = Ok prs0 ->
  py_index (slide_layouts prs0) (default_layout_idx prs0 prefer) = Raise e ->
  deck_slides o <> [] ->
  render L tb (py_of_outline o) prefer = Raise IndexError.
Proof.
  intros H0 Hi Hne.
  destruct (@render_outline_eq L tb o prefer prs0 H0) as (prs1 & Hl & ->).
  destruct (deck_slides o) as [|sp sps]; [congruence|].
  cbn [map for_each]. rewrite render_slide_typed. cbn [fst snd].
  unfold add_bulleted_slide. rewrite Hl, Hi.
  rewrite (py_index_raises _ _ Hi). reflexivity.
Qed.

Lemma missing_layout_witness :
  render (Sample.library_opening Sample.one_layout_template) []
         (py_of_outline (mkDeck [] [mkSlide (lit "A") [lit "a1"] []])) 1
  = Raise IndexError.
Proof.
  apply (@missing_layout_is_index_error
           (Sample.library_opening Sample.one_layout_template) [] 1
           Sample.one_layout_template IndexError).
  - reflexivity.
  - reflexivity.
  - discriminate.
Defined.

(** ** Suppressing the notes *)

Lemma clear_notes_outline (sp : SlideSpec) :
  clear_notes (py_of_slide sp) = Ok (py_of_slide (without_notes sp)).
Proof. reflexivity. Qed.

Lemma clear_all_outline (sps : list SlideSpec) :
  forall acc,
    for_each (fun acc s => s' <- clear_notes s ;; Ok (acc ++ [s']))
             (map py_of_slide sps) acc
    = Ok (acc ++ map py_of_slide (map without_notes sps)).
Proof.
  induction sps as [|sp sps IH]; intros acc.
  - simpl. rewrite app_nil_r. reflexivity.
  - cbn [map for_each]. rewrite clear_notes_outline. cbn [bind].
    rewrite IH, <- app_assoc. reflexivity.
Qed.

Lemma suppress_notes_outline (o : Outline) :
  suppress_notes (py_of_outline o)
  = Ok (py_of_outline (mkDeck (deck_title o)
                              (map without_notes (deck_slides o)))).
Proof.
  unfold suppress_notes.
  destruct (outline_fields o (PList [])) as [_ ->].
  cbn [bind py_iter]. rewrite clear_all_outline. reflexivity.
Qed.

Lemma heuristic_notes_empty (text : pystr) (guidance : option pystr) :
  map without_notes (deck_slides (_heuristic_split text guidance))
  = deck_slides (_heuristic_split text guidance).
Proof.
  assert (H : Forall (fun s => notes s = [])
                     (deck_slides (_heuristic_split text guidance))).
  { rewrite heuristic_slides_are_the_scan. apply Forall_firstn.
    apply scan_keeps with (T := fun _ => True); auto. }
  induction H as [|s l Hs _ IH]; [reflexivity|].
  cbn [map]. rewrite IH. f_equal. destruct s as [t b n].
  cbn [notes] in Hs. subst n. reflexivity.
Qed.

Lemma suppress_notes_heuristic (text : pystr) (guidance : option pystr) :
  suppress_notes (py_of_outline (_heuristic_split text guidance))
  = Ok (py_of_outline (_heuristic_split text guidance)).
Proof.
  rewrite suppress_notes_outline, heuristic_notes_empty.
  destruct (_heuristic_split text guidance). reflexivity.
Qed.

Lemma or_none_truthy (k : option pystr) :
  truthy (or_empty (or_none k)) = truthy (or_empty k).
Proof. destruct k as [[|c s]|]; reflexivity. Qed.



(** ** Where a request can fail unhandled *)

Lemma clear_all_raises (items : list pyval) :
  forall acc e,
    for_each (fun acc s => s' <- clear_notes s ;; Ok (acc ++ [s'])) items acc
    = Raise e ->
    e = TypeError.
Proof.
  induction items as [|s rest IH]; intros acc e H; [discriminate H|].
  cbn [for_each] in H. destruct s; try (injection H as <-; reflexivity).
  cbn [clear_notes bind] in H. eapply IH. exact H.
Qed.

Lemma suppress_notes_raises (deck : pyval) (e : exn) :
  suppress_notes deck = Raise e -> e = TypeError \/ e = AttributeError.
Proof.
  unfold suppress_notes.
  destruct (dict_get deck (lit "slides") (PList [])) as [slides|e0] eqn:Hs.
  - cbn [bind]. destruct (py_iter slides) as [items|e1] eqn:Hi.
    + cbn [bind].
      destruct (for_each _ items []) as [items'|e2] eqn:Hc.
      * cbn [bind]. destruct deck; try discriminate.
        destruct slides; try discriminate.
        destruct (lookup (lit "slides") kvs); discriminate.
      * cbn [bind]. intros [= <-]. left. eapply clear_all_raises. exact Hc.
    + cbn [bind]. intros [= <-]. left.
      destruct slides; simpl in Hi; congruence.
  - cbn [bind]. intros [= <-]. right.
    destruct deck; try (injection Hs as <-; reflexivity).
    unfold dict_get in Hs.
    destruct (lookup (lit "slides") kvs); discriminate Hs.
Qed.

(** X22. A request ends in an exception that nobody handles only in the
    loop that empties the notes: the notes switch is off, a credential was
    sent, the router returned a value for which that loop raises, and the
    exception is [TypeError] or [AttributeError]. *)
Theorem unhandled_only_from_notes_loop (W : world) (L : library)
  (filename : pystr) (tb : bytes) (text : pystr)
  (guidance provider api_key : option pystr) (speaker_notes : option bool)
  (e : exn) :
  generate_pptx W L filename tb text guidance provider api_key speaker_notes
  = Unhandled e ->
  notes_off speaker_notes = true /\
  truthy (or_empty api_key) = true /\
  (e = TypeError \/ e = AttributeError) /\
  exists deck,
    structure_slides W (Some (or_empty provider)) (or_none api_key)
                     text guidance = Ok deck /\
    suppress_notes deck = Raise e.
Proof.
  unfold generate_pptx.
  destruct (negb _); [discriminate|].
  destruct (_ <? _)%N; [discriminate|].
  unfold deck_for_render.
  destruct (structure_slides_never_raises W (Some (or_empty provider))
              (or_none api_key) text guidance) as ([deck Hd] & _ & Hno & _).
  rewrite Hd. cbn [bind].
  destruct (notes_off speaker_notes) eqn:Hoff.
  - destruct (suppress_notes deck) as [deck'|e'] eqn:Hsup.
    + destruct (build_presentation L tb deck' 1); discriminate.
    + intros [= <-]. split; [reflexivity|]. split.
      * destruct (truthy (or_empty api_key)) eqn:Hk; [reflexivity|].
        rewrite Hno in Hd by (right; rewrite or_none_truthy; exact Hk).
        injection Hd as <-. rewrite suppress_notes_heuristic in Hsup.
        discriminate Hsup.
      * split; [eapply suppress_notes_raises; exact Hsup|].
        exists deck. split; [reflexivity | exact Hsup].
  - destruct (build_presentation L tb deck 1); discriminate.
Qed.

Lemma unhandled_witness :
  notes_off None = true /\
  truthy (or_empty (Some (lit "sk-test"))) = true /\
  (AttributeError = TypeError \/ AttributeError = AttributeError) /\
  exists deck,
    structure_slides (Sample.world_answering (Sample.openai_reply (lit "[]")))
                     (Some (or_empty (Some (lit "openai"))))
                     (or_none (Some (lit "sk-test")))
                     (lit "some text") None = Ok deck /\
    suppress_notes deck = Raise AttributeError.
Proof.
  apply (@unhandled_only_from_notes_loop
           (Sample.world_answering (Sample.openai_reply (lit "[]")))
           (Sample.library_opening Sample.two_layout_template)
           (lit "t.pptx") [] (lit "some text") None
           (Some (lit "openai")) (Some (lit "sk-test")) None AttributeError).
  vm_compute. reflexivity.
Defined.

(** ** What the notes loop changes *)

Lemma lookup_dict_set_other (k k' : pystr) (v : pyval)
  (kvs : list (pystr * pyval)) :
  k' <> k -> lookup k' (dict_set k v kvs) = lookup k' kvs.
Proof.
  intros Hne. unfold lookup.
  induction kvs as [|[k0 v0] rest IH]; simpl.
  - destruct (str_eqb k k') eqn:E; [|reflexivity].
    apply str_eqb_eq in E. congruence.
  - destruct (str_eqb k0 k) eqn:E0.
    + apply str_eqb_eq in E0. subst k0. simpl.
      destruct (str_eqb k k') eqn:E; [|reflexivity].
      apply str_eqb_eq in E. congruence.
    + simpl. destruct (str_eqb k0 k'); [reflexivity | exact IH].
Qed.

Lemma clear_notes_same (s s' : pyval) :
  clear_notes s = Ok s' ->
  same_but (lit "notes") s s' /\
  dict_get s' (lit "notes") (PStr []) = Ok (PStr []).
Proof.
  intros H. split; [|eapply clear_notes_ok; exact H].
  destruct s; try discriminate H. injection H as <-.
  intros k' d Hne. unfold dict_get. rewrite lookup_dict_set_other by exact Hne.
  reflexivity.
Qed.

Lemma clear_all_same (items : list pyval) :
  forall acc out,
    for_each (fun acc s => s' <- clear_notes s ;; Ok (acc ++ [s'])) items acc
    = Ok out ->
    exists new,
      out = acc ++ new /\
      Forall2 (fun s s' =>
                 same_but (lit "notes") s s' /\
                 dict_get s' (lit "notes") (PStr []) = Ok (PStr []))
              items new.
Proof.
  induction items as [|s rest IH]; intros acc out H.
  - injection H as <-. exists []. rewrite app_nil_r. split; constructor.
  - cbn [for_each] in H. apply bind_ok in H. destruct H as (acc' & Hs & H).
    apply bind_ok in Hs. destruct Hs as (s' & Hc & Hs). injection Hs as <-.
    apply IH in H. destruct H as (new & -> & Hall).
    exists (s' :: new). rewrite <- app_assoc. split; [reflexivity|].
    constructor; [|exact Hall]. apply clear_notes_same. exact Hc.
Qed.

(** X23. The loop that empties the notes changes nothing else: the deck
    keeps every key but ["slides"], the list of slides keeps its length and
    order, and each slide keeps every key but ["notes"], which becomes the
    empty string. *)
Theorem suppress_notes_touches_only_notes (deck deck' : pyval) :
  suppress_notes deck = Ok deck' ->
  same_but (lit "slides") deck deck' /\
  forall l,
    dict_get deck (lit "slides") (PList []) = Ok (PList l) ->
    exists l',
      dict_get deck' (lit "slides") (PList []) = Ok (PList l') /\
      Forall2 (fun s s' =>
                 same_but (lit "notes") s s' /\
                 dict_get s' (lit "notes") (PStr []) = Ok (PStr []))
              l l'.
Proof.
  unfold suppress_notes. intros H.
  apply bind_ok in H. destruct H as (slides & Hs & H).
  apply bind_ok in H. destruct H as (items & Hi & H).
  apply bind_ok in H. destruct H as (items' & Hc & H).
  apply clear_all_same in Hc. destruct Hc as (new & -> & Hall).
  cbn [app] in H.
  destruct deck as [| | | | | |kvs]; try discriminate Hs.
  destruct slides as [| | | | |l0|]; try discriminate Hi.
  - (* a string of slides: only the empty one passes *)
    injection H as <-. split; [intros k' d _; reflexivity|].
    intros l Hl. rewrite Hs in Hl. discriminate Hl.
  - (* a list *)
    injection Hi as <-.
    destruct (lookup (lit "slides") kvs) as [v|] eqn:Hlk.
    + injection H as <-. split.
      * intros k' d Hne. unfold dict_get.
        rewrite lookup_dict_set_other by exact Hne. reflexivity.
      * intros l Hl. rewrite Hs in Hl. injection Hl as <-.
        exists new. split; [|exact Hall].
        unfold dict_get. rewrite lookup_dict_set. reflexivity.
    + injection H as <-. split; [intros k' d _; reflexivity|].
      assert (Hnil : dict_get (PDict kvs) (lit "slides") (PList [])
                     = Ok (PList []))
        by (unfold dict_get; rewrite Hlk; reflexivity).
      rewrite Hnil in Hs. injection Hs as <-.
      intros l Hl. rewrite Hnil in Hl. injection Hl as <-.
      exists []. split; [exact Hnil | constructor].
  - (* a dictionary of slides: only the empty one passes *)
    injection H as <-. split; [intros k' d _; reflexivity|].
    intros l Hl. rewrite Hs in Hl. discriminate Hl.
Qed.

Lemma suppress_notes_witness :
  same_but (lit "slides")
    (py_of_outline (mkDeck (lit "D") [mkSlide (lit "A") [lit "a"] (lit "say")]))
    (py_of_outline (mkDeck (lit "D") [mkSlide (lit "A") [lit "a"] []])) /\
  forall l,
    dict_get
      (py_of_outline
         (mkDeck (lit "D") [mkSlide (lit "A") [lit "a"] (lit "say")]))
      (lit "slides") (PList []) = Ok (PList l) ->
    exists l',
      dict_get
        (py_of_outline (mkDeck (lit "D") [mkSlide (lit "A") [lit "a"] []]))
        (lit "slides") (PList []) = Ok (PList l') /\
      Forall2 (fun s s' =>
                 same_but (lit "notes") s s' /\
                 dict_get s' (lit "notes") (PStr []) = Ok (PStr []))
              l l'.
Proof.
  apply suppress_notes_touches_only_notes. reflexivity.
Defined.

(** ** The prompt *)

Lemma join_app (sep : pystr) (xs ys : list pystr) :
  xs <> [] -> ys <> [] ->
  join sep (xs ++ ys) = join sep xs ++ sep ++ join sep ys.
Proof.
  intros Hx Hy. induction xs as [|x xs IH]; [congruence|].
  destruct xs as [|x' xs].
  - destruct ys as [|y ys]; [congruence|]. reflexivity.
  - change (join sep ((x :: x' :: xs) ++ ys))
      with (x ++ sep ++ join sep ((x' :: xs) ++ ys)).
    rewrite IH by discriminate.
    change (join sep (x :: x' :: xs)) with (x ++ sep ++ join sep (x' :: xs)).
    rewrite <- !app_assoc. reflexivity.
Qed.

Lemma join_last_three (sep : pystr) (pre : list pystr) (p x a b : pystr) :
  pre <> [] ->
  join sep (pre ++ [p ++ x; a; b])
  = (join sep pre ++ sep ++ p) ++ x ++ (sep ++ a ++ sep ++ b).
Proof.
  intros Hpre. rewrite join_app by (exact Hpre || discriminate).
  cbn [join]. rewrite <- !app_assoc. reflexivity.
Qed.

(** X24. The prompt ends with the text of the user, unchanged, between the
    two lines of dashes; what comes before it depends on the guidance
    only. *)
Theorem prompt_carries_text_verbatim (guidance : option pystr) :
  exists head,
    forall text,
      build_structuring_prompt text guidance
      = head ++ text ++ lit "\n    ---\n    ".
Proof.
  unfold build_structuring_prompt. cbv zeta.
  eexists. intros text.
  match goal with
  | |- join ?sep ?l = _ =>
      let pre := eval cbv [firstn] in (firstn 20 l) in
      etransitivity;
      [ apply (@join_last_three sep pre (lit "    ") text
                                (lit "    ---") (lit "    "));
        discriminate
      | ]
  end.
  change (lit "\n" ++ lit "    ---" ++ lit "\n" ++ lit "    ")
    with (lit "\n    ---\n    ").
  reflexivity.
Qed.

(** ** What the provider calls read from an answer *)

(** X25. When the content of an OpenAI answer is not JSON by itself,
    [_call_openai] parses the text from its first opening brace to its last
    closing brace instead; when the content has no such span, the first
    failure is raised again. *)
Theorem openai_recovers_embedded_json (W : world) (api_key text : pystr)
  (guidance : option pystr) (resp : response) (body : pyval)
  (content : pystr) (e : exn) :
  replies W resp ->
  json_loads W (resp_text resp) = Ok body ->
  openai_content body (PStr content) ->
  json_loads W content = Raise e ->
  (forall span,
      is_brace_span content span ->
      _call_openai W api_key text guidance = json_loads W span) /\
  ((forall span, ~ is_brace_span content span) ->
   _call_openai W api_key text guidance = Raise e).
Proof.
  intros [Hpost Hst] Hbody (choices & choice & message & Hc & Hc0 & Hm & Hcont)
         Hload.
  assert (Hcall : _call_openai W api_key text guidance
                  = match re_search brace_re content with
                    | Some g => json_loads W g
                    | None => Raise e
                    end).
  { unfold _call_openai. cbv zeta. rewrite Hpost. cbn [bind].
    rewrite Hst. cbn [bind]. rewrite Hbody. cbn [bind].
    rewrite Hc. cbn [bind]. rewrite Hc0. cbn [bind].
    rewrite Hm. cbn [bind]. rewrite Hcont. cbn [bind loads_val search_val].
    rewrite Hload. reflexivity. }
  split.
  - intros span Hspan. rewrite Hcall.
    rewrite (brace_search_complete Hspan). reflexivity.
  - intros Hnone. rewrite Hcall.
    destruct (re_search brace_re content) as [g|] eqn:E; [|reflexivity].
    exfalso. apply (Hnone g). apply brace_search_sound. exact E.
Qed.

Lemma openai_recovers_witness :
  (forall span,
      is_brace_span (lit "Here it is: {\x22slides\x22: []} Enjoy!") span ->
      _call_openai
        (Sample.world_answering
           (Sample.openai_reply
              (lit "Here it is: {\x22slides\x22: []} Enjoy!")))
        (lit "sk-test") (lit "x") None
      = json_loads
          (Sample.world_answering
             (Sample.openai_reply
                (lit "Here it is: {\x22slides\x22: []} Enjoy!")))
          span) /\
  ((forall span,
       ~ is_brace_span (lit "Here it is: {\x22slides\x22: []} Enjoy!") span) ->
   _call_openai
     (Sample.world_answering
        (Sample.openai_reply
           (lit "Here it is: {\x22slides\x22: []} Enjoy!")))
     (lit "sk-test") (lit "x") None
   = Raise JSONDecodeError).
Proof.
  eapply (@openai_recovers_embedded_json
            (Sample.world_answering
               (Sample.openai_reply
                  (lit "Here it is: {\x22slides\x22: []} Enjoy!")))
            (lit "sk-test") (lit "x") None).
  - split; [intros req|]; reflexivity.
  - vm_compute. reflexivity.
  - do 3 eexists. repeat split.
  - vm_compute. reflexivity.
Defined.

Lemma text_block_fields (b : pystr * pystr) (d : pyval) :
  dict_get (text_block b) (lit "type") d = Ok (PStr (fst b)) /\
  dict_get (text_block b) (lit "text") d = Ok (PStr (snd b)).
Proof. split; reflexivity. Qed.

Lemma anthropic_loop (blocks : list (pystr * pystr)) :
  forall acc,
    for_each
      (fun text_out block =>
         ty <- dict_get block (lit "type") PNone ;;
         if py_eq_str ty (lit "text") then
           t <- dict_get block (lit "text") (PStr []) ;;
           str_add text_out t
         else Ok text_out)
      (map text_block blocks) acc
    = Ok (acc ++ texts_of blocks).
Proof.
  unfold texts_of. induction blocks as [|b bs IH]; intros acc.
  - simpl. rewrite app_nil_r. reflexivity.
  - cbn [map for_each filter].
    destruct (text_block_fields b PNone) as [-> _]. cbn [bind py_eq_str].
    destruct (str_eqb (fst b) (lit "text")).
    + destruct (text_block_fields b (PStr [])) as [_ ->].
      cbn [bind str_add map concat]. rewrite IH, <- app_assoc. reflexivity.
    + cbn [bind]. apply IH.
Qed.

(** X26. From an Anthropic answer, [_call_anthropic] parses the texts of
    the content blocks of type ["text"], joined in their order; blocks of
    any other type are passed over. *)
Theorem anthropic_joins_text_blocks (W : world) (api_key text : pystr)
  (guidance : option pystr) (resp : response) (body : pyval)
  (blocks : list (pystr * pystr)) :
  replies W resp ->
  json_loads W (resp_text resp) = Ok body ->
  dict_get body (lit "content") (PList [])
  = Ok (PList (map text_block blocks)) ->
  _call_anthropic W api_key text guidance = json_loads W (texts_of blocks).
Proof.
  intros [Hpost Hst] Hbody Hblocks.
  unfold _call_anthropic. cbv zeta. rewrite Hpost. cbn [bind].
  rewrite Hst. cbn [bind]. rewrite Hbody. cbn [bind].
  rewrite Hblocks. cbn [bind py_iter].
  rewrite anthropic_loop. reflexivity.
Qed.

Lemma anthropic_joins_witness :
  _call_anthropic
    (Sample.world_answering
       (Ok (mkResponse 200
              (lit "{\x22content\x22:[{\x22type\x22:\x22text\x22,\x22text\x22:\x22{\x22},{\x22type\x22:\x22tool_use\x22,\x22text\x22:\x22no\x22},{\x22type\x22:\x22text\x22,\x22text\x22:\x22}\x22}]}"))))
    (lit "sk-test") (lit "x") None
  = json_loads
      (Sample.world_answering
         (Ok (mkResponse 200
                (lit "{\x22content\x22:[{\x22type\x22:\x22text\x22,\x22text\x22:\x22{\x22},{\x22type\x22:\x22tool_use\x22,\x22text\x22:\x22no\x22},{\x22type\x22:\x22text\x22,\x22text\x22:\x22}\x22}]}"))))
      (texts_of [ (lit "text", lit "{"); (lit "tool_use", lit "no");
                  (lit "text", lit "}") ]).
Proof.
  eapply (@anthropic_joins_text_blocks
            (Sample.world_answering
               (Ok (mkResponse 200
                      (lit "{\x22content\x22:[{\x22type\x22:\x22text\x22,\x22text\x22:\x22{\x22},{\x22type\x22:\x22tool_use\x22,\x22text\x22:\x22no\x22},{\x22type\x22:\x22text\x22,\x22text\x22:\x22}\x22}]}"))))
            (lit "sk-test") (lit "x") None).
  - split; [intros req|]; reflexivity.
  - vm_compute. reflexivity.
  - vm_compute. reflexivity.
Defined.

Lemma gemini_part_text (t : pystr) (d : pyval) :
  dict_get (gemini_part t) (lit "text") d = Ok (PStr t).
Proof. reflexivity. Qed.

Lemma gemini_loop (parts : list pystr) :
  forall acc,
    for_each
      (fun text_out p =>
         t <- dict_get p (lit "text") (PStr []) ;;
         str_add text_out t)
      (map gemini_part parts) acc
    = Ok (acc ++ concat parts).
Proof.
  induction parts as [|p ps IH]; intros acc.
  - simpl. rewrite app_nil_r. reflexivity.
  - cbn [map for_each]. rewrite gemini_part_text.
    cbn [bind str_add concat]. rewrite IH, <- app_assoc. reflexivity.
Qed.

(** X27. From a Gemini answer, [_call_gemini] parses the texts of the parts
    of the first candidate, joined in their order, and looks at no other
    candidate; with an empty list of candidates it parses the empty
    string. *)
Theorem gemini_reads_first_candidate (W : world) (api_key text : pystr)
  (guidance : option pystr) (resp : response) (body : pyval) :
  replies W resp ->
  json_loads W (resp_text resp) = Ok body ->
  (forall parts others,
      dict_get body (lit "candidates") (PList [])
      = Ok (PList (gemini_candidate parts :: others)) ->
      _call_gemini W api_key text guidance = json_loads W (concat parts)) /\
  (dict_get body (lit "candidates") (PList []) = Ok (PList []) ->
   _call_gemini W api_key text guidance = json_loads W []).
Proof.
  intros [Hpost Hst] Hbody.
  assert (Hcall : forall cands,
             dict_get body (lit "candidates") (PList []) = Ok cands ->
             _call_gemini W api_key text guidance
             = (text_out <-
                  (if py_truthy cands then
                     first <- getitem_int cands 0 ;;
                     has <- py_contains (lit "content") first ;;
                     if has then
                       content <- getitem_key first (lit "content") ;;
                       parts <- dict_get content (lit "parts") (PList []) ;;
                       ps <- py_iter parts ;;
                       for_each
                         (fun text_out p =>
                            t <- dict_get p (lit "text") (PStr []) ;;
                            str_add text_out t)
                         ps []
                     else Ok []
                   else Ok []) ;;
                json_loads W text_out)).
  { intros cands Hcands. unfold _call_gemini. cbv zeta.
    rewrite Hpost. cbn [bind]. rewrite Hst. cbn [bind].
    rewrite Hbody. cbn [bind]. rewrite Hcands. reflexivity. }
  split.
  - intros parts others Hcands. rewrite (Hcall _ Hcands).
    cbn [py_truthy length Nat.eqb negb getitem_int nth_error bind].
    change (py_contains (lit "content") (gemini_candidate parts))
      with (Ok true).
    cbn [bind].
    change (getitem_key (gemini_candidate parts) (lit "content"))
      with (Ok (PDict [ (lit "parts", PList (map gemini_part parts)) ])).
    cbn [bind].
    change (dict_get (PDict [ (lit "parts", PList (map gemini_part parts)) ])
                     (lit "parts") (PList []))
      with (Ok (PList (map gemini_part parts))).
    cbn [bind py_iter]. rewrite gemini_loop. reflexivity.
  - intros Hcands. rewrite (Hcall _ Hcands). reflexivity.
Qed.

Lemma gemini_reads_witness :
  _call_gemini
    (Sample.world_answering
       (Sample.gemini_reply (lit "{\x22slides\x22: []}")))
    (lit "key") (lit "x") None
  = json_loads
      (Sample.world_answering
         (Sample.gemini_reply (lit "{\x22slides\x22: []}")))
      (concat [lit "{\x22slides\x22: []}"]).
Proof.
  refine (proj1 (@gemini_reads_first_candidate
                   (Sample.world_answering
                      (Sample.gemini_reply (lit "{\x22slides\x22: []}")))
                   (lit "key") (lit "x") None _ _ _ _)
                [lit "{\x22slides\x22: []}"] [] _).
  - split; [intros req|]; reflexivity.
  - vm_compute. reflexivity.
  - vm_compute. reflexivity.
Defined.
